(** * DIY Cloud Platform: user management API

    A shallow embedding of [usermgmt/user_management.py] and the
    properties of its authentication, account and quota handlers.

    Conventions of the embedding.
    - A Python [str] is a [string] whose characters are read as the code
      points 0..255.
    - A value that travels between the JSON body, Python and SQLite is a
      [Val]; SQLite cells keep the storage class they were bound with (the
      table declarations are not part of the module, so no column affinity
      and no constraint is applied).  An integer is bound when it fits in
      64 bits, a NaN is bound as NULL, and numbers are compared by value.
    - A row id is a [Z]; the ids that the rows of the tables hold are
      SQLite integers whichever [Z] stands for them, and any other id is
      bound only when it fits in 64 bits.
    - [int] on a text and [str] on an integer refuse a number of more than
      4300 digits, the default limit of the interpreter.
    - A moment in time is a [Z] (microseconds).  [datetime] values are
      bound as ISO text of fixed layout, on which SQLite's text comparison
      agrees with the order of the moments.
    - Everything a handler obtains from outside the module (the clock, the
      random token, the row id chosen by SQLite, the outcome of a
      subprocess) is an explicit argument.
    - A handler is a computation over the database that may raise; an
      exception that leaves a handler becomes Flask's answer 500. *)

From stdpp Require Import base decidable option list strings gmap.
From Stdlib Require Import ZArith Ascii String Lia.

Local Open Scope Z_scope.

(** ** Python values and exceptions *)

Inductive Val :=
  | VNull
  | VBool (b : bool)
  | VInt (z : Z)
  | VFloat (bits : Z)      (* a binary64, by its bit pattern *)
  | VStr (s : string)
  | VTime (t : Z)          (* a [datetime] *)
  | VOther (nonempty : bool).   (* a JSON array or object *)

Global Instance Val_eq_dec : EqDecision Val.
Proof. solve_decision. Defined.

Inductive PyExn :=
  | ValueError
  | TypeError
  | AttributeError
  | KeyError
  | IndexError
  | OSError (msg : string)
  | OverflowError          (* sqlite3: an int that does not fit in 64 bits *)
  | SqliteError.           (* sqlite3: unsupported parameter, unknown column *)

Global Instance PyExn_eq_dec : EqDecision PyExn.
Proof. solve_decision. Defined.

Inductive result (A : Type) :=
  | Ok (a : A)
  | Raise (e : PyExn).
Global Arguments Ok {A} a.
Global Arguments Raise {A} e.

Global Instance result_ret : MRet result := λ A a, Ok a.
Global Instance result_bind : MBind result := λ A B f r,
  match r with Ok a => f a | Raise e => Raise e end.

(** ** Python string operations *)

Module Py.

Definition code (c : ascii) : Z := Z.of_N (N_of_ascii c).

(** [str.isspace] on the code points below 256. *)
Definition is_space (c : ascii) : bool :=
  let n := code c in
  ((9 <=? n) && (n <=? 13)) || ((28 <=? n) && (n <=? 32))
  || (n =? 133) || (n =? 160).

Definition is_digit (c : ascii) : bool :=
  let n := code c in (48 <=? n) && (n <=? 57).

Definition digit_val (c : ascii) : Z := code c - 48.

(** [sub in s] for a one-character [sub]. *)
Fixpoint contains (c : ascii) (s : string) : bool :=
  match s with
  | EmptyString => false
  | String d s' => if Ascii.eqb c d then true else contains c s'
  end.

(** [s.replace(old, new)] for a one-character [old]. *)
Fixpoint replace (old : ascii) (new : string) (s : string) : string :=
  match s with
  | EmptyString => EmptyString
  | String d s' =>
      if Ascii.eqb old d then new +:+ replace old new s'
      else String d (replace old new s')
  end.

Fixpoint lstrip (s : string) : string :=
  match s with
  | EmptyString => EmptyString
  | String c s' => if is_space c then lstrip s' else s
  end.

(** The white space that [int] skips around a number: the C white space
    among the code points below 127, and the white space beyond. *)
Definition is_int_space (c : ascii) : bool :=
  let n := code c in
  ((9 <=? n) && (n <=? 13)) || (n =? 32) || (n =? 133) || (n =? 160).

Fixpoint skip_space (s : string) : string :=
  match s with
  | EmptyString => EmptyString
  | String c s' => if is_int_space c then skip_space s' else s
  end.

Fixpoint all_space (s : string) : bool :=
  match s with
  | EmptyString => true
  | String c s' => is_int_space c && all_space s'
  end.

(** The digit loop of [int(str)] in base 10: digits with single
    underscores between them.  [prev_us] tells that the character before
    was an underscore. *)
Fixpoint scan_digits (acc : Z) (prev_us : bool) (s : string)
  : option (Z * string) :=
  match s with
  | EmptyString => if prev_us then None else Some (acc, EmptyString)
  | String c s' =>
      if is_digit c then scan_digits (10 * acc + digit_val c) false s'
      else if Ascii.eqb c "_" then
        (if prev_us then None else scan_digits acc true s')
      else if prev_us then None else Some (acc, s)
  end.

(** The number of decimal digits of a string; underscores, signs and
    white space do not count. *)
Fixpoint count_digits (s : string) : Z :=
  match s with
  | EmptyString => 0
  | String c s' => (if is_digit c then 1 else 0) + count_digits s'
  end.

(** [sys.get_int_max_str_digits()], which the module leaves at the
    interpreter's default. *)
Definition int_max_str_digits : Z := 4300.

Definition split_sign (s : string) : Z * string :=
  match s with
  | String c r =>
      if Ascii.eqb c "+" then (1, r)
      else if Ascii.eqb c "-" then (-1, r)
      else (1, s)
  | EmptyString => (1, s)
  end.

(** [int(s)] on a [str]: optional white space, an optional sign, the
    digits, optional white space, and nothing else; a number of more than
    [int_max_str_digits] digits is refused, with the same exception as a
    string that is no number. *)
Definition int (s : string) : result Z :=
  let '(sign, body) := split_sign (skip_space s) in
  match body with
  | String c _ =>
      if is_digit c then
        match scan_digits 0 false body with
        | Some (n, rest) =>
            if all_space rest then
              if count_digits body <=? int_max_str_digits then Ok (sign * n)
              else Raise ValueError
            else Raise ValueError
        | None => Raise ValueError
        end
      else Raise ValueError
  | EmptyString => Raise ValueError
  end.

Fixpoint rstrip_aux (s : string) : string :=
  match s with
  | EmptyString => EmptyString
  | String c s' =>
      match rstrip_aux s' with
      | EmptyString => if is_space c then EmptyString else String c EmptyString
      | r => String c r
      end
  end.

(** [s.strip()] *)
Definition strip (s : string) : string := rstrip_aux (lstrip s).

(** [s.startswith(p)] *)
Fixpoint startswith (p s : string) : bool :=
  match p, s with
  | EmptyString, _ => true
  | String a p', String b s' => Ascii.eqb a b && startswith p' s'
  | String _ _, EmptyString => false
  end.

(** [s.split(sep)] for a one-character [sep]: empty pieces are kept. *)
Fixpoint split (sep : ascii) (s : string) : list string :=
  match s with
  | EmptyString => [EmptyString]
  | String c s' =>
      if Ascii.eqb c sep then EmptyString :: split sep s'
      else match split sep s' with
           | p :: ps => String c p :: ps
           | [] => [String c EmptyString]
           end
  end.

(** Decimal value of a string of digits, most significant first. *)
Fixpoint decimal (acc : Z) (s : string) : Z :=
  match s with
  | EmptyString => acc
  | String c s' => decimal (10 * acc + digit_val c) s'
  end.

(** [str.splitlines] line boundaries among the code points below 256. *)
Definition is_linebreak (c : ascii) : bool :=
  let n := code c in
  ((10 <=? n) && (n <=? 13)) || ((28 <=? n) && (n <=? 30)) || (n =? 133).

(** [s.splitlines()]: a carriage return followed by a line feed is one
    boundary; no empty piece after a final boundary. *)
Fixpoint splitlines (s : string) : list string :=
  match s with
  | EmptyString => []
  | String c s' =>
      if is_linebreak c then
        EmptyString ::
          (if Ascii.eqb c "013" then
             match s' with
             | String d s'' => if Ascii.eqb d "010" then splitlines s'' else splitlines s'
             | EmptyString => splitlines s'
             end
           else splitlines s')
      else match splitlines s' with
           | l :: ls => String c l :: ls
           | [] => [String c EmptyString]
           end
  end.

(** [s.split()]: the maximal runs of characters that are not white space. *)
Fixpoint split_ws (s : string) : list string :=
  match s with
  | EmptyString => []
  | String c s' =>
      if is_space c then split_ws s'
      else match s' with
           | EmptyString => [String c EmptyString]
           | String d _ =>
               if is_space d then String c EmptyString :: split_ws s'
               else match split_ws s' with
                    | w :: ws => String c w :: ws
                    | [] => [String c EmptyString]
                    end
           end
  end.

(** [s.lower()] on the code points below 256. *)
Definition lower_char (c : ascii) : ascii :=
  let n := code c in
  if ((65 <=? n) && (n <=? 90))
     || ((192 <=? n) && (n <=? 222) && negb (n =? 215))
  then ascii_of_N (Z.to_N (n + 32)) else c.

Fixpoint lower (s : string) : string :=
  match s with
  | EmptyString => EmptyString
  | String c s' => String (lower_char c) (lower s')
  end.

Fixpoint all_chars (P : ascii → bool) (s : string) : bool :=
  match s with
  | EmptyString => true
  | String c s' => P c && all_chars P s'
  end.

End Py.

(** ** Quantity strings

    [create_user] and [update_user] turn [mem_limit] and [disk_quota] into
    megabytes with the same expression,
    [int(q.replace('G', '')) * 1024 if 'G' in q else int(q.replace('M', ''))]. *)

Definition quantity_to_mb (q : Val) : result Z :=
  match q with
  | VStr s =>
      if Py.contains "G" s
      then n ← Py.int (Py.replace "G" "" s); Ok (n * 1024)
      else Py.int (Py.replace "M" "" s)
  | VOther _ => Raise AttributeError   (* [in] answers, [.replace] is missing *)
  | _ => Raise TypeError               (* [in] on a value that is no container *)
  end.

(** Python truth value, as [if v:] and [not v] take it. *)
Definition truthy (v : Val) : bool :=
  match v with
  | VNull => false
  | VBool b => b
  | VInt z => negb (z =? 0)
  | VFloat bits => negb ((bits =? 0) || (bits =? 2 ^ 63))
  | VStr s => negb (bool_decide (s = ""))
  | VTime _ => true
  | VOther nonempty => nonempty
  end.

(** ** Answers *)

Inductive Details :=
  | DText (s : string)     (* [result.stderr] *)
  | DExn (e : PyExn).      (* [str(e)] *)

(** A Python number: an [int], or a [float] by its bit pattern. *)
Inductive Num :=
  | NInt (z : Z)
  | NFloat (bits : Z).

Inductive Payload :=
  | JError (error : string)
  | JErrorDetails (error : string) (details : Details)
  | JMessage (message : string)
  | JCreated (message : string) (user_id : Z)
  | JLogin (token : string) (expires_at : Z) (user_id : Z) (username role : Val)
  | JUsage (cpu_usage mem_usage disk_usage : Num) (gpu_usage : list (string * string))
  | JInternal.             (* Flask's own page for an unhandled exception *)

Record Response := { status : Z; payload : Payload }.

Definition jsonify (p : Payload) : Response := {| status := 200; payload := p |}.
Definition answer (p : Payload) (code : Z) : Response :=
  {| status := code; payload := p |}.

(** The error taxonomy of the design, read off the status code. *)
Inductive ErrorKind :=
  | ValidationError
  | AuthenticationError
  | AuthorizationError
  | NotFoundError
  | ConflictError
  | ServerError.

Definition error_kind (r : Response) : option ErrorKind :=
  if status r =? 400 then Some ValidationError
  else if status r =? 401 then Some AuthenticationError
  else if status r =? 403 then Some AuthorizationError
  else if status r =? 404 then Some NotFoundError
  else if status r =? 409 then Some ConflictError
  else if status r =? 500 then Some ServerError
  else None.

(** ** The database *)

Record UserRow := {
  u_id : Z;
  u_username : Val;
  u_password_hash : Val;
  u_email : Val;
  u_role : Val;
  u_is_active : Val;
  u_last_login : Val }.

Record SessionRow := {
  s_user_id : Z;
  s_session_token : string;
  s_expires_at : Z;
  s_ip_address : Val }.

Record ResourceRow := {
  r_user_id : Z;
  r_cpu_limit : Val;
  r_mem_limit : Val;
  r_disk_quota : Val;
  r_gpu_access : Val }.

Record LogRow := {
  l_user_id : Z;
  l_timestamp : Z;
  l_action : string;
  l_details : string }.

Record DB := {
  users : list UserRow;
  sessions : list SessionRow;
  resource_allocations : list ResourceRow;
  activity_log : list LogRow }.

Global Instance UserRow_eq_dec : EqDecision UserRow.
Proof. solve_decision. Defined.
Global Instance SessionRow_eq_dec : EqDecision SessionRow.
Proof. solve_decision. Defined.
Global Instance ResourceRow_eq_dec : EqDecision ResourceRow.
Proof. solve_decision. Defined.
Global Instance LogRow_eq_dec : EqDecision LogRow.
Proof. solve_decision. Defined.
Global Instance DB_eq_dec : EqDecision DB.
Proof. solve_decision. Defined.

(** A handler: reads and writes the database, returns or raises.  Every
    [query_db] commits, so what was written before an exception stays. *)
Definition Db (A : Type) : Type := DB → result A * DB.

Global Instance Db_ret : MRet Db := λ A a db, (Ok a, db).
Global Instance Db_bind : MBind Db := λ A B f m db,
  match m db with
  | (Ok a, db') => f a db'
  | (Raise e, db') => (Raise e, db')
  end.

Definition lift {A} (r : result A) : Db A := λ db, (r, db).

(** [try: body  except Exception as e: handler] *)
Definition try_except {A} (body : Db A) (handler : PyExn → Db A) : Db A :=
  λ db, match body db with
        | (Ok a, db') => (Ok a, db')
        | (Raise e, db') => handler e db'
        end.

(** Flask around a view function: an exception that escapes is answered
    with status 500. *)
Definition serve (view : Db Response) (db : DB) : Response * DB :=
  match view db with
  | (Ok r, db') => (r, db')
  | (Raise _, db') => (answer JInternal 500, db')
  end.

(** *** SQL statements *)

(** *** Numbers in SQLite

    An INTEGER is a signed integer of 64 bits.  A REAL is a binary64: of
    its bit pattern, bit 63 is the sign, bits 52 to 62 the biased exponent
    and bits 0 to 51 the fraction. *)
Definition sqlite_int (z : Z) : bool := (- 2 ^ 63 <=? z) && (z <? 2 ^ 63).

Definition float_exponent (bits : Z) : Z := Z.land (Z.shiftr bits 52) 2047.
Definition float_fraction (bits : Z) : Z := Z.land bits (2 ^ 52 - 1).

Definition float_is_nan (bits : Z) : bool :=
  (float_exponent bits =? 2047) && negb (float_fraction bits =? 0).

Definition float_is_zero (bits : Z) : bool :=
  (float_exponent bits =? 0) && (float_fraction bits =? 0).

(** A finite binary64 is [float_significand * 2 ^ float_scale]. *)
Definition float_significand (bits : Z) : Z :=
  let m := if float_exponent bits =? 0 then float_fraction bits
           else 2 ^ 52 + float_fraction bits in
  if Z.testbit bits 63 then - m else m.

Definition float_scale (bits : Z) : Z := Z.max (float_exponent bits) 1 - 1075.

(** An INTEGER and a REAL are equal when they are the same number. *)
Definition int_eq_float (z bits : Z) : bool :=
  negb (float_exponent bits =? 2047)
  && (if 0 <=? float_scale bits
      then z =? float_significand bits * 2 ^ float_scale bits
      else z * 2 ^ (- float_scale bits) =? float_significand bits).

(** Two REALs are equal when they are the same number: the same bits, or
    the two zeros. *)
Definition float_eq (a b : Z) : bool :=
  bool_decide (a = b) || (float_is_zero a && float_is_zero b).

Global Arguments sqlite_int : simpl never.
Global Arguments float_is_nan : simpl never.
Global Arguments float_is_zero : simpl never.
Global Arguments int_eq_float : simpl never.
Global Arguments float_eq : simpl never.

(** Binding a Python value as a statement parameter: a [bool] is an [int],
    an [int] has to fit in 64 bits, a NaN becomes NULL, and a list or a
    dict is not supported. *)
Definition sql_bind (v : Val) : result Val :=
  match v with
  | VBool b => Ok (VInt (if b then 1 else 0))
  | VInt z => if sqlite_int z then Ok v else Raise OverflowError
  | VFloat bits => Ok (if float_is_nan bits then VNull else v)
  | VOther _ => Raise SqliteError
  | _ => Ok v
  end.

(** [column = ?]: NULL equals nothing, numbers are compared by value
    whatever their storage classes, and a number equals no text.  Texts
    are equal when they are the same; the handlers compare no moment in
    time with [=]. *)
Definition sql_eq (cell param : Val) : bool :=
  match cell, param with
  | VNull, _ | _, VNull => false
  | VInt z, VFloat bits | VFloat bits, VInt z => int_eq_float z bits
  | VFloat a, VFloat b => float_eq a b
  | _, _ => bool_decide (cell = param)
  end.

(** [SELECT * FROM users WHERE username = ?], first row *)
Definition select_user_by_username (username : Val) : Db (option UserRow) :=
  λ db, match sql_bind username with
        | Ok p => (Ok (head (filter (λ u, sql_eq (u_username u) p = true) (users db))), db)
        | Raise e => (Raise e, db)
        end.

(** Binding an id as a statement parameter.  The ids that the rows of
    the tables hold are SQLite integers, whichever [Z] stands for them in a
    [DB]; any other id has to fit in 64 bits. *)
Definition held_id (db : DB) (z : Z) : bool :=
  bool_decide (z ∈ u_id <$> users db)
  || bool_decide (z ∈ r_user_id <$> resource_allocations db).

Definition bind_id (z : Z) : Db Z :=
  λ db, if sqlite_int z || held_id db z then (Ok z, db)
        else (Raise OverflowError, db).

(** [SELECT * FROM users WHERE id = ?], first row *)
Definition select_user_by_id (user_id : Z) : Db (option UserRow) :=
  id ← bind_id user_id;
  ((λ db, (Ok (head (filter (λ u, u_id u = id) (users db))), db))
     : Db (option UserRow)).

(** [SELECT * FROM resource_allocations WHERE user_id = ?], first row *)
Definition select_resource (user_id : Z) : Db (option ResourceRow) :=
  id ← bind_id user_id;
  ((λ db, (Ok (head (filter (λ r, r_user_id r = id) (resource_allocations db))), db))
     : Db (option ResourceRow)).

Definition set_users (f : list UserRow → list UserRow) (db : DB) : DB :=
  {| users := f (users db); sessions := sessions db;
     resource_allocations := resource_allocations db;
     activity_log := activity_log db |}.
Definition set_sessions (f : list SessionRow → list SessionRow) (db : DB) : DB :=
  {| users := users db; sessions := f (sessions db);
     resource_allocations := resource_allocations db;
     activity_log := activity_log db |}.
Definition set_resources (f : list ResourceRow → list ResourceRow) (db : DB) : DB :=
  {| users := users db; sessions := sessions db;
     resource_allocations := f (resource_allocations db);
     activity_log := activity_log db |}.
Definition set_log (f : list LogRow → list LogRow) (db : DB) : DB :=
  {| users := users db; sessions := sessions db;
     resource_allocations := resource_allocations db;
     activity_log := f (activity_log db) |}.

Definition execute (f : DB → DB) : Db unit := λ db, (Ok (), f db).

(** [INSERT INTO users (username, password_hash, email, role, is_active)];
    [new_id] is the row id SQLite gives the row. *)
Definition insert_user (new_id : Z) (username password_hash email role is_active : Val)
  : Db unit :=
  username ← lift (sql_bind username);
  password_hash ← lift (sql_bind password_hash);
  email ← lift (sql_bind email);
  role ← lift (sql_bind role);
  is_active ← lift (sql_bind is_active);
  execute (set_users (λ us, us ++
    [{| u_id := new_id; u_username := username; u_password_hash := password_hash;
        u_email := email; u_role := role; u_is_active := is_active;
        u_last_login := VNull |}])).

(** [INSERT INTO resource_allocations (user_id, cpu_limit, mem_limit,
    disk_quota, gpu_access)] *)
Definition insert_resource (user_id : Z) (cpu_limit mem_limit disk_quota gpu_access : Val)
  : Db unit :=
  cpu_limit ← lift (sql_bind cpu_limit);
  mem_limit ← lift (sql_bind mem_limit);
  disk_quota ← lift (sql_bind disk_quota);
  gpu_access ← lift (sql_bind gpu_access);
  execute (set_resources (λ rs, rs ++
    [{| r_user_id := user_id; r_cpu_limit := cpu_limit; r_mem_limit := mem_limit;
        r_disk_quota := disk_quota; r_gpu_access := gpu_access |}])).

(** [INSERT INTO sessions (user_id, session_token, expires_at, ip_address)] *)
Definition insert_session (user_id : Z) (token : string) (expires_at : Z) (ip : Val)
  : Db unit :=
  ip ← lift (sql_bind ip);
  execute (set_sessions (λ ss, ss ++
    [{| s_user_id := user_id; s_session_token := token;
        s_expires_at := expires_at; s_ip_address := ip |}])).

(** [DELETE FROM ... WHERE ...] *)
Definition delete_resources_of (user_id : Z) : Db unit :=
  execute (set_resources (filter (λ r, r_user_id r ≠ user_id))).
Definition delete_sessions_of (user_id : Z) : Db unit :=
  execute (set_sessions (filter (λ s, s_user_id s ≠ user_id))).
Definition delete_log_of (user_id : Z) : Db unit :=
  execute (set_log (filter (λ l, l_user_id l ≠ user_id))).
Definition delete_user_row (user_id : Z) : Db unit :=
  execute (set_users (filter (λ u, u_id u ≠ user_id))).
Definition delete_session_token (token : string) : Db unit :=
  execute (set_sessions (filter (λ s, s_session_token s ≠ token))).

(** [UPDATE users SET last_login = ? WHERE id = ?] *)
Definition update_last_login (now : Z) (user_id : Z) : Db unit :=
  execute (set_users (fmap (λ u,
    if bool_decide (u_id u = user_id)
    then {| u_id := u_id u; u_username := u_username u;
            u_password_hash := u_password_hash u; u_email := u_email u;
            u_role := u_role u; u_is_active := u_is_active u;
            u_last_login := VTime now |}
    else u))).

(** One assignment [column = ?] of an UPDATE on [users].  The creation
    time, which the table fills in by itself, is not kept in [UserRow]. *)
Definition set_user_column (column : string) (v : Val) (u : UserRow) : result UserRow :=
  if bool_decide (column = "username") then
    Ok {| u_id := u_id u; u_username := v; u_password_hash := u_password_hash u;
          u_email := u_email u; u_role := u_role u; u_is_active := u_is_active u;
          u_last_login := u_last_login u |}
  else if bool_decide (column = "password_hash") then
    Ok {| u_id := u_id u; u_username := u_username u; u_password_hash := v;
          u_email := u_email u; u_role := u_role u; u_is_active := u_is_active u;
          u_last_login := u_last_login u |}
  else if bool_decide (column = "email") then
    Ok {| u_id := u_id u; u_username := u_username u;
          u_password_hash := u_password_hash u;
          u_email := v; u_role := u_role u; u_is_active := u_is_active u;
          u_last_login := u_last_login u |}
  else if bool_decide (column = "role") then
    Ok {| u_id := u_id u; u_username := u_username u;
          u_password_hash := u_password_hash u;
          u_email := u_email u; u_role := v; u_is_active := u_is_active u;
          u_last_login := u_last_login u |}
  else if bool_decide (column = "is_active") then
    Ok {| u_id := u_id u; u_username := u_username u;
          u_password_hash := u_password_hash u;
          u_email := u_email u; u_role := u_role u; u_is_active := v;
          u_last_login := u_last_login u |}
  else if bool_decide (column = "last_login") then
    Ok {| u_id := u_id u; u_username := u_username u;
          u_password_hash := u_password_hash u;
          u_email := u_email u; u_role := u_role u; u_is_active := u_is_active u;
          u_last_login := v |}
  else Raise SqliteError.

Definition set_resource_column (column : string) (v : Val) (r : ResourceRow)
  : result ResourceRow :=
  if bool_decide (column = "cpu_limit") then
    Ok {| r_user_id := r_user_id r; r_cpu_limit := v; r_mem_limit := r_mem_limit r;
          r_disk_quota := r_disk_quota r; r_gpu_access := r_gpu_access r |}
  else if bool_decide (column = "mem_limit") then
    Ok {| r_user_id := r_user_id r; r_cpu_limit := r_cpu_limit r; r_mem_limit := v;
          r_disk_quota := r_disk_quota r; r_gpu_access := r_gpu_access r |}
  else if bool_decide (column = "disk_quota") then
    Ok {| r_user_id := r_user_id r; r_cpu_limit := r_cpu_limit r;
          r_mem_limit := r_mem_limit r;
          r_disk_quota := v; r_gpu_access := r_gpu_access r |}
  else if bool_decide (column = "gpu_access") then
    Ok {| r_user_id := r_user_id r; r_cpu_limit := r_cpu_limit r;
          r_mem_limit := r_mem_limit r;
          r_disk_quota := r_disk_quota r; r_gpu_access := v |}
  else Raise SqliteError.

(** The SET list of an UPDATE, applied to one row from left to right. *)
Fixpoint assign {R} (set : string → Val → R → result R)
    (updates : list (string * Val)) (row : R) : result R :=
  match updates with
  | [] => Ok row
  | (column, v) :: rest => row' ← set column v row; assign set rest row'
  end.

Fixpoint bind_all (updates : list (string * Val)) : result (list (string * Val)) :=
  match updates with
  | [] => Ok []
  | (column, v) :: rest =>
      p ← sql_bind v; ps ← bind_all rest; Ok ((column, p) :: ps)
  end.

(** All rows of a table through a row function that may fail; the first
    failure aborts the statement and nothing is written. *)
Fixpoint map_rows {R} (f : R → result R) (rows : list R) : result (list R) :=
  match rows with
  | [] => Ok []
  | r :: rest => r' ← f r; rest' ← map_rows f rest; Ok (r' :: rest')
  end.

(** [UPDATE users SET c1 = ?, ... WHERE id = ?] *)
Definition update_users (updates : list (string * Val)) (user_id : Z) : Db unit :=
  λ db,
    match bind_all updates with
    | Raise e => (Raise e, db)
    | Ok bound =>
        match map_rows (λ u, if bool_decide (u_id u = user_id)
                             then assign set_user_column bound u else Ok u)
                       (users db) with
        | Raise e => (Raise e, db)
        | Ok us => (Ok (), set_users (λ _, us) db)
        end
    end.

(** [UPDATE resource_allocations SET c1 = ?, ... WHERE user_id = ?] *)
Definition update_resources (updates : list (string * Val)) (user_id : Z) : Db unit :=
  λ db,
    match bind_all updates with
    | Raise e => (Raise e, db)
    | Ok bound =>
        match map_rows (λ r, if bool_decide (r_user_id r = user_id)
                             then assign set_resource_column bound r else Ok r)
                       (resource_allocations db) with
        | Raise e => (Raise e, db)
        | Ok rs => (Ok (), set_resources (λ _, rs) db)
        end
    end.

(** ** What the module takes from the interpreter and the system *)

(** Builtins that are used but not defined by the module.  Floats are bit
    patterns and are only passed around. *)
Record Builtins := {
  sha256_hexdigest : string → string;     (* hashlib.sha256(b).hexdigest() *)
  py_str : Val → string;                  (* str(v) *)
  py_float : string → result Z;           (* float(s) *)
  py_sum : list Z → Num;                  (* sum(xs) on a list of floats *)
  int_truediv : Z → Z → Z }.              (* x / y on ints, a float *)

Record Completed := { returncode : Z; stdout : string; stderr : string }.

(** The system: what running a command gives, a completed process or an
    [OSError] (the program is missing, for one). *)
Definition Sys := list string → result Completed.

(** [subprocess.run(cmd, capture_output=True, text=True)]: every argument
    has to be a [str]. *)
Fixpoint cmd_args (cmd : list Val) : result (list string) :=
  match cmd with
  | [] => Ok []
  | VStr s :: rest => args ← cmd_args rest; Ok (s :: args)
  | _ :: _ => Raise TypeError
  end.

Definition subprocess_run (sys : Sys) (cmd : list Val) : result Completed :=
  args ← cmd_args cmd; sys args.

(** ** Configuration *)

Definition RESOURCES_PATH : string := "/opt/diycloud/resources".
Definition TOKEN_EXPIRY_DAYS : Z := 1.
Definition microseconds_per_day : Z := 86400 * 1000000.

(** ** Authentication functions *)

Record AuthUser := { user_id : Z; username : Val; role : Val }.

(** An integer of at most [int_max_str_digits] decimal digits. *)
Definition int_str_fits (n : Z) : bool := Z.abs n <? 10 ^ Py.int_max_str_digits.
Global Arguments int_str_fits : simpl never.

Section Handlers.

Context (py : Builtins) (sys : Sys).

(** [str(v)]: as for [int], the text of an integer of more than
    [int_max_str_digits] digits is refused. *)
Definition str_of (v : Val) : result string :=
  match v with
  | VInt n => if int_str_fits n then Ok (py_str py v) else Raise ValueError
  | _ => Ok (py_str py v)
  end.

(** [password.encode()] exists on a [str] only. *)
Definition generate_password_hash (password : Val) : result string :=
  match password with
  | VStr p => Ok (sha256_hexdigest py p)
  | _ => Raise AttributeError
  end.

Definition verify_password (password password_hash : Val) : result bool :=
  h ← generate_password_hash password;
  Ok (bool_decide (VStr h = password_hash)).

Inductive AuthResult :=
  | Authenticated (token : string) (expires_at : Z) (user_id : Z) (username role : Val).

(** [token] is [generate_token()], [now] and [now'] the two readings of
    the clock, [remote_addr] the caller's address. *)
Definition authenticate_user (token : string) (now now' : Z) (remote_addr : Val)
    (username password : Val) : Db (option AuthResult) :=
  user ← select_user_by_username username;
  match user with
  | None => mret None
  | Some user =>
      ok ← lift (verify_password password (u_password_hash user));
      if ok : bool then
        let expires_at := now + TOKEN_EXPIRY_DAYS * microseconds_per_day in
        insert_session (u_id user) token expires_at remote_addr;;
        update_last_login now' (u_id user);;
        mret (Some (Authenticated token expires_at (u_id user)
                      (u_username user) (u_role user)))
      else mret None
  end.

(** The join of [sessions] with [users], filtered on the token and on
    [expires_at > now]; first row. *)
Definition verify_token (token : string) (now : Z) : Db (option AuthUser) :=
  λ db,
    let rows :=
      s ← filter (λ s, s_session_token s = token ∧ s_expires_at s > now) (sessions db);
      u ← filter (λ u, u_id u = s_user_id s) (users db);
      [ {| user_id := s_user_id s; username := u_username u; role := u_role u |} ]
    in (Ok (head rows), db).

(** The token of an [Authorization] header: [auth_header.split(' ')[1]]. *)
Definition header_token (auth_header : string) : result string :=
  match Py.split " " auth_header !! 1%nat with
  | Some t => Ok t
  | None => Raise IndexError
  end.

Definition require_auth (now : Z) (auth_header : option string)
    (f : AuthUser → Db Response) : Db Response :=
  match auth_header with
  | None => mret (answer (JError "Authentication required") 401)
  | Some h =>
      if negb (Py.startswith "Bearer " h) then
        mret (answer (JError "Authentication required") 401)
      else
        token ← lift (header_token h);
        user ← verify_token token now;
        match user with
        | None => mret (answer (JError "Invalid or expired token") 401)
        | Some user => f user
        end
  end.

Definition require_admin (f : AuthUser → Db Response) (user : AuthUser)
    : Db Response :=
  if bool_decide (role user ≠ VStr "admin") then
    mret (answer (JError "Admin privileges required") 403)
  else f user.

(** ** Resource management *)

Definition apply_resource_limits (username cpu_limit : Val) (mem_limit disk_quota : Z)
    (gpu_access : Val) : bool :=
  match
    cpu ← str_of cpu_limit;
    mem ← str_of (VInt mem_limit);
    disk ← str_of (VInt disk_quota);
    gpu ← str_of gpu_access;
    subprocess_run sys
      [ VStr "bash"; VStr (RESOURCES_PATH +:+ "/apply_limits.sh");
        username; VStr cpu; VStr mem; VStr disk; VStr (Py.lower gpu) ]
  with
  | Ok result => bool_decide (returncode result = 0)
  | Raise _ => false
  end.

End Handlers.

(** ** API routes *)

Definition float_1_0 : Z := 4607182418800017408.   (* the bits of 1.0 *)

Definition updateable_fields : list string := ["email"; "is_active"].
Definition admin_fields : list string :=
  ["role"; "cpu_limit"; "mem_limit"; "disk_quota"; "gpu_access"].
Definition resource_fields : list (string * string) :=
  [("cpu_limit", "cpu_limit"); ("mem_limit", "mem_limit");
   ("disk_quota", "disk_quota"); ("gpu_access", "gpu_access")].

(** [data.get(key, default)] *)
Definition get_or (data : gmap string Val) (key : string) (default : Val) : Val :=
  match data !! key with Some v => v | None => default end.

(** [key in data] *)
Definition has_key (data : gmap string Val) (key : string) : bool :=
  bool_decide (is_Some (data !! key)).

(** [data[key]] *)
Definition item (data : gmap string Val) (key : string) : result Val :=
  match data !! key with Some v => Ok v | None => Raise KeyError end.

Section Routes.

Context (py : Builtins) (sys : Sys).

(** *** POST /api/auth/login *)
Definition login (token : string) (now now' : Z) (remote_addr : Val)
    (data : gmap string Val) : Db Response :=
  if negb (truthy (get_or data "username" VNull))
     || negb (truthy (get_or data "password" VNull))
  then mret (answer (JError "Username and password required") 400)
  else
    username ← lift (item data "username");
    password ← lift (item data "password");
    auth_result ← authenticate_user py token now now' remote_addr username password;
    match auth_result with
    | Some (Authenticated token expires_at user_id username role) =>
        mret (jsonify (JLogin token expires_at user_id username role))
    | None => mret (answer (JError "Invalid username or password") 401)
    end.

(** *** POST /api/auth/logout *)
Definition logout (auth_header : option string) (user : AuthUser) : Db Response :=
  token ← lift (match auth_header with
                | Some h => header_token h
                | None => Raise AttributeError
                end);
  delete_session_token token;;
  mret (jsonify (JMessage "Logged out successfully")).

(** *** POST /api/users *)

(** The inner [try] of [create_user], in two parts: [provision] is the
    conversion of the quantities and the run of the provisioning script,
    [create_system_user] the statement as a whole; [Some] is an answer
    returned from inside it, [None] falls through to the success answer. *)
Definition provision
    (username password email role cpu_limit mem_limit disk_quota gpu_access : Val)
    : result Completed :=
  mem_mb ← quantity_to_mb mem_limit;
  disk_mb ← quantity_to_mb disk_quota;
  cpu ← str_of py cpu_limit;
  memory ← str_of py (VInt mem_mb);
  disk ← str_of py (VInt disk_mb);
  let cmd :=
    [ VStr "bash"; VStr "/opt/diycloud/usermgmt/create_user.sh";
      VStr "--username"; username;
      VStr "--password"; password;
      VStr "--email"; email;
      VStr "--cpu"; VStr cpu;
      VStr "--memory"; VStr memory;
      VStr "--disk"; VStr disk;
      VStr "--role"; role ]
    ++ (if truthy gpu_access then [VStr "--gpu"] else []) in
  subprocess_run sys cmd.

Definition create_system_user (user_id : Z)
    (username password email role cpu_limit mem_limit disk_quota gpu_access : Val)
    : Db (option Response) :=
  try_except
    (result ← lift (provision username password email role
                      cpu_limit mem_limit disk_quota gpu_access);
     if bool_decide (returncode result ≠ 0) then
       (* Rollback database changes *)
       delete_resources_of user_id;;
       delete_user_row user_id;;
       mret (Some (answer (JErrorDetails "Failed to create system user"
                             (DText (stderr result))) 500))
     else mret None)
    (λ e,
       (* Rollback database changes *)
       delete_resources_of user_id;;
       delete_user_row user_id;;
       mret (Some (answer (JErrorDetails "Failed to create system user" (DExn e)) 500))).

(** [new_id] is the row id SQLite gives the inserted account. *)
Definition create_user (new_id : Z) (data : gmap string Val) (user : AuthUser)
    : Db Response :=
  if negb (has_key data "username") then
    mret (answer (JError "Missing required field: username") 400)
  else if negb (has_key data "password") then
    mret (answer (JError "Missing required field: password") 400)
  else
    username ← lift (item data "username");
    password ← lift (item data "password");
    let email := get_or data "email" (VStr "") in
    let role := get_or data "role" (VStr "user") in
    let is_active := get_or data "is_active" (VBool true) in
    existing_user ← select_user_by_username username;
    if bool_decide (is_Some existing_user) then
      mret (answer (JError "Username already exists") 409)
    else
      password_hash ← lift (generate_password_hash py password);
      try_except
        (insert_user new_id username (VStr password_hash) email role is_active;;
         row ← select_user_by_username username;
         user_id ← lift (match row with
                         | Some u => Ok (u_id u)
                         | None => Raise TypeError
                         end);
         let cpu_limit := get_or data "cpu_limit" (VFloat float_1_0) in
         let mem_limit := get_or data "mem_limit" (VStr "2G") in
         let disk_quota := get_or data "disk_quota" (VStr "5G") in
         let gpu_access := get_or data "gpu_access" (VBool false) in
         insert_resource user_id cpu_limit mem_limit disk_quota gpu_access;;
         early ← create_system_user user_id username password email role
                   cpu_limit mem_limit disk_quota gpu_access;
         match early with
         | Some r => mret r
         | None => mret (answer (JCreated "User created successfully" user_id) 201)
         end)
        (λ e, mret (answer (JErrorDetails "Failed to create user" (DExn e)) 500)).

(** *** PUT /api/users/<user_id> *)

(** The SET list for [users]: the fields of [fields] that the body has
    and that are not admin-only. *)
Definition user_updates (fields : list string) (data : gmap string Val)
    : list (string * Val) :=
  omap (λ field,
          if has_key data field && negb (bool_decide (field ∈ admin_fields))
          then v ← data !! field; Some (field, v)
          else None) fields.

(** The SET list for [resource_allocations]. *)
Definition resource_updates (data : gmap string Val) : list (string * Val) :=
  omap (λ '(api_field, db_field),
          if has_key data api_field
          then v ← data !! api_field; Some (db_field, v)
          else None) resource_fields.

Definition update_user (data : gmap string Val) (target : Z) (user : AuthUser)
    : Db Response :=
  if bool_decide (role user ≠ VStr "admin") && bool_decide (user_id user ≠ target) then
    mret (answer (JError "Access denied") 403)
  else
    existing_user ← select_user_by_id target;
    match existing_user with
    | None => mret (answer (JError "User not found") 404)
    | Some existing_user =>
        match
          (if bool_decide (role user ≠ VStr "admin") then
             match filter (λ field, has_key data field = true) admin_fields with
             | field :: _ =>
                 inl (answer (JError ("Field " +:+ field +:+
                                      " can only be updated by an admin")) 403)
             | [] => inr updateable_fields
             end
           else inr (updateable_fields ++ admin_fields))
        with
        | inl denied => mret denied
        | inr fields =>
            let updates := user_updates fields data in
            password_update ←
              lift (if has_key data "password" then
                      password ← item data "password";
                      h ← generate_password_hash py password;
                      Ok [("password_hash", VStr h)]
                    else Ok []);
            let updates := updates ++ password_update in
            (if bool_decide (updates ≠ []) then update_users updates target
             else mret ());;
            (if bool_decide (role user = VStr "admin") then
               let resource_updates := resource_updates data in
               if bool_decide (resource_updates ≠ []) then
                 update_resources resource_updates target;;
                 resource ← select_resource target;
                 match resource with
                 | Some resource =>
                     let username := u_username existing_user in
                     mem_mb ← lift (quantity_to_mb (r_mem_limit resource));
                     disk_mb ← lift (quantity_to_mb (r_disk_quota resource));
                     let _ := apply_resource_limits py sys username
                                (r_cpu_limit resource) mem_mb disk_mb
                                (r_gpu_access resource) in
                     mret ()
                 | None => mret ()
                 end
               else mret ()
             else mret ());;
            mret (jsonify (JMessage "User updated successfully"))
        end
    end.

(** *** DELETE /api/users/<user_id> *)
Definition delete_user (target : Z) (user : AuthUser) : Db Response :=
  existing_user ← select_user_by_id target;
  match existing_user with
  | None => mret (answer (JError "User not found") 404)
  | Some existing_user =>
      if bool_decide (u_username existing_user = VStr "admin") then
        mret (answer (JError "Cannot delete the main admin user") 403)
      else if bool_decide (user_id user = target) then
        mret (answer (JError "Cannot delete your own account") 403)
      else
        let username := u_username existing_user in
        delete_resources_of target;;
        delete_sessions_of target;;
        delete_log_of target;;
        delete_user_row target;;
        early ←
          try_except
            (result ← lift (subprocess_run sys
                              [VStr "userdel"; VStr "-rf"; username]);
             if bool_decide (returncode result ≠ 0) then
               mret (Some (answer (JErrorDetails "Failed to delete system user"
                                     (DText (stderr result))) 500))
             else mret None)
            (λ e, mret (Some (answer (JErrorDetails "Failed to delete system user"
                                        (DExn e)) 500)));
        match early with
        | Some r => mret r
        | None => mret (jsonify (JMessage "User deleted successfully"))
        end
  end.

(** *** GET /api/resources/<user_id>/usage *)

Definition has_output (r : Completed) : bool :=
  bool_decide (returncode r = 0) && negb (bool_decide (stdout r = "")).

(** The stripped lines of an output that are not blank. *)
Definition value_lines (out : string) : list string :=
  Py.strip <$> filter (λ line, Py.strip line ≠ "") (Py.splitlines out).

Definition cpu_usage_of (username : Val) : result Num :=
  cpu_result ← subprocess_run sys
    [VStr "ps"; VStr "-u"; username; VStr "-o"; VStr "%cpu"; VStr "--no-headers"];
  if has_output cpu_result then
    cpu_values ← mapM (py_float py) (value_lines (stdout cpu_result));
    Ok (py_sum py cpu_values)
  else Ok (NInt 0).

Definition mem_usage_of (username : Val) : result Num :=
  mem_result ← subprocess_run sys
    [VStr "ps"; VStr "-u"; username; VStr "-o"; VStr "rss"; VStr "--no-headers"];
  if has_output mem_result then
    mem_values ← mapM Py.int (value_lines (stdout mem_result));
    Ok (NFloat (int_truediv py (foldr Z.add 0 mem_values) 1024))
  else Ok (NInt 0).

Definition disk_usage_of (username : Val) : result Num :=
  disk_result ← subprocess_run sys
    [VStr "du"; VStr "-sm"; VStr ("/home/" +:+ py_str py username)];
  if has_output disk_result then
    match Py.split_ws (stdout disk_result) with
    | first :: _ => n ← Py.int first; Ok (NInt n)
    | [] => Raise IndexError
    end
  else Ok (NInt 0).

(** The lines of [nvidia-smi] whose process id is one of the user's. *)
Definition gpu_lines (user_pids : list string) (out : string)
    : list (string * string) :=
  omap (λ line,
          match Py.split "," line with
          | p0 :: p1 :: _ =>
              let pid := Py.strip p0 in
              if bool_decide (pid ∈ user_pids) then Some (pid, Py.strip p1)
              else None
          | _ => None
          end) (Py.splitlines out).

(** The inner [try ... except: pass].  Only the two [subprocess.run]
    calls can raise, and they come before the first [append], so an
    exception leaves the list empty. *)
Definition gpu_usage_of (username : Val) : list (string * string) :=
  match
    (nvidia_result ← subprocess_run sys
       [VStr "nvidia-smi"; VStr "--query-compute-apps=pid,used_memory";
        VStr "--format=csv,noheader"];
     if has_output nvidia_result then
       pid_result ← subprocess_run sys [VStr "pgrep"; VStr "-u"; username];
       if has_output pid_result then
         let user_pids := Py.strip <$> Py.splitlines (stdout pid_result) in
         Ok (gpu_lines user_pids (stdout nvidia_result))
       else Ok []
     else Ok [])
  with
  | Ok gpu_usage => gpu_usage
  | Raise _ => []
  end.

Definition get_resource_usage (target : Z) (user : AuthUser) : Db Response :=
  if bool_decide (role user ≠ VStr "admin") && bool_decide (user_id user ≠ target) then
    mret (answer (JError "Access denied") 403)
  else
    existing_user ← select_user_by_id target;
    match existing_user with
    | None => mret (answer (JError "User not found") 404)
    | Some existing_user =>
        let username := u_username existing_user in
        try_except
          (cpu_usage ← lift (cpu_usage_of username);
           mem_usage ← lift (mem_usage_of username);
           disk_usage ← lift (disk_usage_of username);
           let gpu_usage := gpu_usage_of username in
           mret (jsonify (JUsage cpu_usage mem_usage disk_usage gpu_usage)))
          (λ e, mret (answer (JErrorDetails "Failed to get resource usage"
                                (DExn e)) 500))
    end.

End Routes.

(** ** The routes, as Flask serves them *)

Section Api.

Context (py : Builtins) (sys : Sys).

Definition api_login (token : string) (now now' : Z) (remote_addr : Val)
    (data : gmap string Val) : DB → Response * DB :=
  serve (login py token now now' remote_addr data).

Definition api_logout (now : Z) (auth_header : option string)
    : DB → Response * DB :=
  serve (require_auth now auth_header (logout auth_header)).

Definition api_create_user (now : Z) (auth_header : option string) (new_id : Z)
    (data : gmap string Val) : DB → Response * DB :=
  serve (require_auth now auth_header
           (require_admin (create_user py sys new_id data))).

Definition api_update_user (now : Z) (auth_header : option string)
    (data : gmap string Val) (target : Z) : DB → Response * DB :=
  serve (require_auth now auth_header (update_user py sys data target)).

Definition api_delete_user (now : Z) (auth_header : option string) (target : Z)
    : DB → Response * DB :=
  serve (require_auth now auth_header (require_admin (delete_user sys target))).

Definition api_get_resource_usage (now : Z) (auth_header : option string)
    (target : Z) : DB → Response * DB :=
  serve (require_auth now auth_header (get_resource_usage py sys target)).

End Api.

(** ** Vocabulary of the properties *)

(** [Authorization: Bearer <token>] *)
Definition bearer (token : string) : option string := Some ("Bearer " +:+ token).

(** The rows that belong to an account. *)
Definition account_rows (target : Z) (db : DB)
    : list UserRow * list ResourceRow * list SessionRow * list LogRow :=
  (filter (λ u, u_id u = target) (users db),
   filter (λ r, r_user_id r = target) (resource_allocations db),
   filter (λ s, s_user_id s = target) (sessions db),
   filter (λ l, l_user_id l = target) (activity_log db)).

Definition no_rows (target : Z) (db : DB) : Prop :=
  account_rows target db = ([], [], [], []).

(** Every session belongs to an account of the table. *)
Definition sessions_have_accounts (db : DB) : Prop :=
  Forall (λ s, Exists (λ u, u_id u = s_user_id s) (users db)) (sessions db).

(** Row ids identify accounts. *)
Definition ids_unique (db : DB) : Prop := NoDup (u_id <$> users db).

(** The token of a session that is in the table and has not expired. *)
Definition live_session (db : DB) (token : string) (now : Z) : Prop :=
  Exists (λ s, s_session_token s = token ∧ now < s_expires_at s) (sessions db).

(** The header carries the token, in the way [require_auth] reads it. *)
Definition carries (auth_header : option string) (token : string) : Prop :=
  match auth_header with
  | Some h => Py.startswith "Bearer " h = true ∧ header_token h = Ok token
  | None => False
  end.

(** The quantity strings of the design: the digits of an integer and a unit. *)
Definition is_decimal (digits : string) : Prop :=
  digits ≠ "" ∧ Py.all_chars Py.is_digit digits = true.

(** [n] times the digit 7. *)
Fixpoint sevens (n : nat) : string :=
  match n with
  | O => EmptyString
  | S n' => String "7" (sevens n')
  end.

(** A character that [int] accepts somewhere in its argument. *)
Definition int_char (c : ascii) : bool :=
  Py.is_int_space c || Py.is_digit c || Ascii.eqb c "+" || Ascii.eqb c "-"
  || Ascii.eqb c "_".

(** [s] is one or more decimal digits followed by the unit and nothing else. *)
Fixpoint digits_then (unit : ascii) (s : string) : bool :=
  match s with
  | EmptyString => false
  | String c s' =>
      Py.is_digit c && (bool_decide (s' = String unit EmptyString) || digits_then unit s')
  end.

(** No two sessions share a token. *)
Definition tokens_unique (db : DB) : Prop :=
  Forall (λ s1, Forall (λ s2, s_session_token s1 = s_session_token s2 → s1 = s2)
                  (sessions db)) (sessions db).

(** ** A small installation, for the examples *)

Module Sample.

(** Stand-ins for the builtins; the examples do not depend on what they
    compute. *)
Definition py : Builtins := {|
  sha256_hexdigest := λ p, "sha256:" +:+ p;
  py_str := λ v, match v with VStr s => s | _ => "?" end;
  py_float := λ _, Raise ValueError;
  py_sum := λ _, NFloat 0;
  int_truediv := λ x y, x / y |}.

Definition admin : UserRow := {|
  u_id := 1; u_username := VStr "admin";
  u_password_hash := VStr "sha256:root-secret"; u_email := VStr "";
  u_role := VStr "admin"; u_is_active := VInt 1; u_last_login := VNull |}.

Definition bob : UserRow := {|
  u_id := 2; u_username := VStr "bob";
  u_password_hash := VStr "sha256:bob-secret"; u_email := VStr "bob@example.org";
  u_role := VStr "user"; u_is_active := VInt 1; u_last_login := VNull |}.

Definition carol : UserRow := {|
  u_id := 3; u_username := VStr "carol";
  u_password_hash := VStr "sha256:carol-secret"; u_email := VStr "";
  u_role := VStr "admin"; u_is_active := VInt 1; u_last_login := VNull |}.

Definition quota (uid : Z) : ResourceRow := {|
  r_user_id := uid; r_cpu_limit := VFloat float_1_0; r_mem_limit := VStr "2G";
  r_disk_quota := VStr "5G"; r_gpu_access := VInt 0 |}.

Definition session (uid : Z) (token : string) (expires_at : Z) : SessionRow := {|
  s_user_id := uid; s_session_token := token; s_expires_at := expires_at;
  s_ip_address := VStr "10.0.0.7" |}.

Definition entry (uid : Z) : LogRow := {|
  l_user_id := uid; l_timestamp := 10; l_action := "login"; l_details := "" |}.

(** Three accounts; the sessions all end at time 1000. *)
Definition db : DB := {|
  users := [admin; bob; carol];
  sessions := [session 1 "a1" 1000; session 2 "b2" 1000; session 3 "c3" 1000];
  resource_allocations := [quota 1; quota 2; quota 3];
  activity_log := [entry 1; entry 2] |}.

(** A system on which every command exits with status 1. *)
Definition failing : Sys :=
  λ _, Ok {| returncode := 1; stdout := ""; stderr := "failed" |}.

(** A system without any of the programs. *)
Definition missing : Sys := λ _, Raise (OSError "No such file or directory").

(** A system on which every command succeeds and prints nothing. *)
Definition quiet : Sys :=
  λ _, Ok {| returncode := 0; stdout := ""; stderr := "" |}.


End Sample.

(** A value that SQLite takes as a parameter, and what it stores for it. *)
Definition bindable (v : Val) : bool :=
  match v with VOther _ => false | VInt z => sqlite_int z | _ => true end.

Definition stored (v : Val) : Val :=
  match v with
  | VBool b => VInt (if b then 1 else 0)
  | VFloat bits => if float_is_nan bits then VNull else v
  | _ => v
  end.

(** The two ways in which a value is refused as a parameter: its type is
    not supported, or it is an integer beyond 64 bits. *)
Definition binding_error (e : PyExn) : Prop := e = SqliteError ∨ e = OverflowError.

(** The fields of a creation request, with the defaults of [create_user]. *)
Definition creation_fields (data : gmap string Val) : list Val :=
  [ get_or data "email" (VStr ""); get_or data "role" (VStr "user");
    get_or data "is_active" (VBool true);
    get_or data "cpu_limit" (VFloat float_1_0); get_or data "mem_limit" (VStr "2G");
    get_or data "disk_quota" (VStr "5G"); get_or data "gpu_access" (VBool false) ].

(** The provisioning of the account of a creation request fails: a
    conversion or the run raises, or the script ends with a status that is
    not 0. *)
Definition provisioning_fails (py : Builtins) (sys : Sys) (data : gmap string Val)
    (username password : Val) : Prop :=
  match provision py sys username password
          (get_or data "email" (VStr "")) (get_or data "role" (VStr "user"))
          (get_or data "cpu_limit" (VFloat float_1_0))
          (get_or data "mem_limit" (VStr "2G"))
          (get_or data "disk_quota" (VStr "5G"))
          (get_or data "gpu_access" (VBool false)) with
  | Ok result => returncode result ≠ 0
  | Raise _ => True
  end.


(** The id and the role of every account, in table order. *)
Definition roles (db : DB) : list (Z * Val) := (λ u, (u_id u, u_role u)) <$> users db.

(** The accounts keep their ids and roles, and the sessions are the same. *)
Definition same_roles : relation DB :=
  λ db db', roles db' = roles db ∧ sessions db' = sessions db.

(** ** The service as a machine

    One request after the other, each with its own readings of the clock
    and its own system.  SQLite never gives a new account the row id of an
    account that is in the table. *)

Inductive Request :=
  | Login (token : string) (now now' : Z) (remote_addr : Val) (data : gmap string Val)
  | Logout (now : Z) (auth_header : option string)
  | CreateUser (now : Z) (auth_header : option string) (new_id : Z)
      (data : gmap string Val)
  | UpdateUser (now : Z) (auth_header : option string) (data : gmap string Val)
      (target : Z)
  | DeleteUser (now : Z) (auth_header : option string) (target : Z)
  | GetResourceUsage (now : Z) (auth_header : option string) (target : Z).

Definition handle (py : Builtins) (sys : Sys) (q : Request) : DB → Response * DB :=
  match q with
  | Login token now now' remote_addr data => api_login py token now now' remote_addr data
  | Logout now auth_header => api_logout now auth_header
  | CreateUser now auth_header new_id data =>
      api_create_user py sys now auth_header new_id data
  | UpdateUser now auth_header data target =>
      api_update_user py sys now auth_header data target
  | DeleteUser now auth_header target => api_delete_user sys now auth_header target
  | GetResourceUsage now auth_header target =>
      api_get_resource_usage py sys now auth_header target
  end.

Definition row_id_fresh (q : Request) (db : DB) : Prop :=
  match q with
  | CreateUser _ _ new_id _ => Forall (λ a, u_id a ≠ new_id) (users db)
  | _ => True
  end.

Inductive reachable (py : Builtins) (db0 : DB) : DB → Prop :=
  | reachable_start : reachable py db0 db0
  | reachable_step db sys q :
      reachable py db0 db → row_id_fresh q db →
      reachable py db0 (handle py sys q db).2.

(** ** The reading routes

    The successful answers of these routes carry rows of the tables.
    [Reply A] is an error answer or the content of a success; the creation
    time of an account, which [UserRow] does not keep, is not part of the
    content either. *)

Definition Reply (A : Type) : Type := (Response + A)%type.

(** Flask around a view function with content. *)
Definition serve_reply {A} (view : Db (Reply A)) (db : DB) : Reply A * DB :=
  match view db with
  | (Ok r, db') => (r, db')
  | (Raise _, db') => (inl (answer JInternal 500), db')
  end.

(** [require_auth] and [require_admin], around a view function with
    content. *)
Definition require_auth_reply {A} (now : Z) (auth_header : option string)
    (f : AuthUser → Db (Reply A)) : Db (Reply A) :=
  match auth_header with
  | None => mret (inl (answer (JError "Authentication required") 401))
  | Some h =>
      if negb (Py.startswith "Bearer " h) then
        mret (inl (answer (JError "Authentication required") 401))
      else
        token ← lift (header_token h);
        user ← verify_token token now;
        match user with
        | None => mret (inl (answer (JError "Invalid or expired token") 401))
        | Some user => f user
        end
  end.

Definition require_admin_reply {A} (f : AuthUser → Db (Reply A)) (user : AuthUser)
    : Db (Reply A) :=
  if bool_decide (role user ≠ VStr "admin") then
    mret (inl (answer (JError "Admin privileges required") 403))
  else f user.

(** An account as [list_users] and [get_user] show it: the columns they
    select, and the quota row when there is one. *)
Record UserView := {
  v_id : Z;
  v_username : Val;
  v_email : Val;
  v_role : Val;
  v_last_login : Val;
  v_is_active : Val;
  v_resources : option ResourceRow }.

Definition user_view (u : UserRow) (resources : option ResourceRow) : UserView :=
  {| v_id := u_id u; v_username := u_username u; v_email := u_email u;
     v_role := u_role u; v_last_login := u_last_login u;
     v_is_active := u_is_active u; v_resources := resources |}.

(** *** GET /api/users *)

(** The loop of [list_users]: one query for the quota of each account. *)
Fixpoint with_resources (us : list UserRow) : Db (list UserView) :=
  match us with
  | [] => mret []
  | u :: rest =>
      resource ← select_resource (u_id u);
      views ← with_resources rest;
      mret (user_view u resource :: views)
  end.

Definition list_users (user : AuthUser) : Db (Reply (list UserView)) :=
  us ← (λ db, (Ok (users db), db));
  result ← with_resources us;
  mret (inr result).

(** *** GET /api/users/<user_id> *)
Definition get_user (target : Z) (user : AuthUser) : Db (Reply UserView) :=
  if bool_decide (role user ≠ VStr "admin") && bool_decide (user_id user ≠ target) then
    mret (inl (answer (JError "Access denied") 403))
  else
    user_data ← select_user_by_id target;
    match user_data with
    | None => mret (inl (answer (JError "User not found") 404))
    | Some user_data =>
        resource ← select_resource target;
        mret (inr (user_view user_data resource))
    end.

(** *** GET /api/resources/<user_id> *)
Definition get_resources (target : Z) (user : AuthUser) : Db (Reply ResourceRow) :=
  if bool_decide (role user ≠ VStr "admin") && bool_decide (user_id user ≠ target) then
    mret (inl (answer (JError "Access denied") 403))
  else
    existing_user ← select_user_by_id target;
    match existing_user with
    | None => mret (inl (answer (JError "User not found") 404))
    | Some _ =>
        resource ← select_resource target;
        match resource with
        | None => mret (inl (answer (JError "Resource allocations not found") 404))
        | Some resource => mret (inr resource)
        end
    end.

(** *** GET /api/system/resources *)

Record SystemReport := {
  cpu_cores : Z;
  mem_total_mb : Num;
  disk_total_mb : Z;
  disk_used_mb : Z;
  disk_available_mb : Z;
  gpu_available : bool;
  gpu_info : list (string * string * string) }.

Section System.

Context (py : Builtins) (sys : Sys).

Definition system_cpu_cores : result Z :=
  cpu_result ← subprocess_run sys
    [VStr "grep"; VStr "-c"; VStr "processor"; VStr "/proc/cpuinfo"];
  if has_output cpu_result then Py.int (Py.strip (stdout cpu_result)) else Ok 0.

Definition system_mem_total : result Num :=
  mem_result ← subprocess_run sys [VStr "grep"; VStr "MemTotal"; VStr "/proc/meminfo"];
  if has_output mem_result then
    match Py.split_ws (stdout mem_result) with
    | _ :: second :: _ => n ← Py.int second; Ok (NFloat (int_truediv py n 1024))
    | _ => Raise IndexError
    end
  else Ok (NInt 0).

(** Total, used and available megabytes, from the second line of [df]. *)
Definition system_disk : result (Z * Z * Z) :=
  disk_result ← subprocess_run sys [VStr "df"; VStr "-m"; VStr "/home"];
  if has_output disk_result then
    match Py.splitlines (stdout disk_result) with
    | _ :: line :: _ =>
        match Py.split_ws line with
        | _ :: total :: used :: available :: _ =>
            disk_total ← Py.int total;
            disk_used ← Py.int used;
            disk_available ← Py.int available;
            Ok (disk_total, disk_used, disk_available)
        | _ => Ok (0, 0, 0)
        end
    | _ => Ok (0, 0, 0)
    end
  else Ok (0, 0, 0).

(** The lines of [nvidia-smi] with name, total and used memory. *)
Definition gpu_info_lines (out : string) : list (string * string * string) :=
  omap (λ line,
          match Py.strip <$> Py.split "," line with
          | name :: memory_total :: memory_used :: _ =>
              Some (name, memory_total, memory_used)
          | _ => None
          end) (Py.splitlines out).

(** The inner [try ... except: pass]: only [subprocess.run] can raise, and
    it comes before the flag is set. *)
Definition system_gpu : bool * list (string * string * string) :=
  match subprocess_run sys
          [VStr "nvidia-smi"; VStr "--query-gpu=name,memory.total,memory.used";
           VStr "--format=csv,noheader"] with
  | Ok nvidia_result =>
      if has_output nvidia_result
      then (true, gpu_info_lines (stdout nvidia_result))
      else (false, [])
  | Raise _ => (false, [])
  end.

Definition get_system_resources (user : AuthUser) : Db (Reply SystemReport) :=
  try_except
    (cores ← lift system_cpu_cores;
     mem_total ← lift system_mem_total;
     '(disk_total, disk_used, disk_available) ← lift system_disk;
     let '(available, info) := system_gpu in
     mret (inr {| cpu_cores := cores; mem_total_mb := mem_total;
                  disk_total_mb := disk_total; disk_used_mb := disk_used;
                  disk_available_mb := disk_available;
                  gpu_available := available; gpu_info := info |}))
    (λ e, mret (inl (answer (JErrorDetails "Failed to get system resources"
                               (DExn e)) 500))).

End System.

(** The reading routes, as Flask serves them. *)
Definition api_list_users (now : Z) (auth_header : option string)
    : DB → Reply (list UserView) * DB :=
  serve_reply (require_auth_reply now auth_header (require_admin_reply list_users)).

Definition api_get_user (now : Z) (auth_header : option string) (target : Z)
    : DB → Reply UserView * DB :=
  serve_reply (require_auth_reply now auth_header (get_user target)).

Definition api_get_resources (now : Z) (auth_header : option string) (target : Z)
    : DB → Reply ResourceRow * DB :=
  serve_reply (require_auth_reply now auth_header (get_resources target)).

Definition api_get_system_resources (py : Builtins) (sys : Sys) (now : Z)
    (auth_header : option string) : DB → Reply SystemReport * DB :=
  serve_reply (require_auth_reply now auth_header
                 (require_admin_reply (get_system_resources py sys))).

(** GET /api/logs.  Of this route the two decorators are embedded; what
    [get_activity_logs] selects depends on how SQLite takes the texts of
    the query string as LIMIT and OFFSET and on the declarations of the
    tables, and is left as the parameter [get_activity_logs]. *)
Definition api_get_activity_logs {A} (get_activity_logs : AuthUser → Db (Reply A))
    (now : Z) (auth_header : option string) : DB → Reply A * DB :=
  serve_reply (require_auth_reply now auth_header
                 (require_admin_reply get_activity_logs)).

(** ** Vocabulary of the further properties *)

(** The database after a login of the account [uid]: one more session,
    and the time of the login in the rows of the account. *)
Definition logged_in (token : string) (expires_at : Z) (ip : Val) (now' : Z)
    (uid : Z) (db : DB) : DB :=
  (update_last_login now' uid
     (set_sessions (λ ss, ss ++
        [{| s_user_id := uid; s_session_token := token;
            s_expires_at := expires_at; s_ip_address := ip |}]) db)).2.

(** The clock reading and the header of a request that passes the gate
    of [require_auth]. *)
Definition request_gate (q : Request) : option (Z * option string) :=
  match q with
  | Login _ _ _ _ _ => None
  | Logout now h | CreateUser now h _ _ | UpdateUser now h _ _
  | DeleteUser now h _ | GetResourceUsage now h _ => Some (now, h)
  end.

(** The database after the four DELETE statements of [delete_user]. *)
Definition without_account (target : Z) (db : DB) : DB :=
  set_users (filter (λ u, u_id u ≠ target))
    (set_log (filter (λ l, l_user_id l ≠ target))
       (set_sessions (filter (λ s, s_user_id s ≠ target))
          (set_resources (filter (λ r, r_user_id r ≠ target)) db))).

(** The rows that [create_user] writes for a request. *)
Definition new_account (new_id : Z) (username : Val) (h : string)
    (data : gmap string Val) : UserRow :=
  {| u_id := new_id; u_username := stored username; u_password_hash := VStr h;
     u_email := stored (get_or data "email" (VStr ""));
     u_role := stored (get_or data "role" (VStr "user"));
     u_is_active := stored (get_or data "is_active" (VBool true));
     u_last_login := VNull |}.

Definition new_quota (new_id : Z) (data : gmap string Val) : ResourceRow :=
  {| r_user_id := new_id;
     r_cpu_limit := stored (get_or data "cpu_limit" (VFloat float_1_0));
     r_mem_limit := stored (get_or data "mem_limit" (VStr "2G"));
     r_disk_quota := stored (get_or data "disk_quota" (VStr "5G"));
     r_gpu_access := stored (get_or data "gpu_access" (VBool false)) |}.

Definition with_account (new_id : Z) (username : Val) (h : string)
    (data : gmap string Val) (db : DB) : DB :=
  set_resources (λ rs, rs ++ [new_quota new_id data])
    (set_users (λ us, us ++ [new_account new_id username h data]) db).

(** The provisioning of the account of a creation request succeeds. *)
Definition provisioning_succeeds (py : Builtins) (sys : Sys) (data : gmap string Val)
    (username password : Val) : Prop :=
  match provision py sys username password
          (get_or data "email" (VStr "")) (get_or data "role" (VStr "user"))
          (get_or data "cpu_limit" (VFloat float_1_0))
          (get_or data "mem_limit" (VStr "2G"))
          (get_or data "disk_quota" (VStr "5G"))
          (get_or data "gpu_access" (VBool false)) with
  | Ok result => returncode result = 0
  | Raise _ => False
  end.

(** The fields of a creation request that go to the account row, and
    those that go to the quota row. *)
Definition account_fields (data : gmap string Val) : list Val :=
  [ get_or data "email" (VStr ""); get_or data "role" (VStr "user");
    get_or data "is_active" (VBool true) ].

Definition quota_fields (data : gmap string Val) : list Val :=
  [ get_or data "cpu_limit" (VFloat float_1_0); get_or data "mem_limit" (VStr "2G");
    get_or data "disk_quota" (VStr "5G"); get_or data "gpu_access" (VBool false) ].

(** The removal of the system account of [a] succeeds. *)
Definition removal_succeeds (sys : Sys) (a : UserRow) : Prop :=
  match subprocess_run sys [VStr "userdel"; VStr "-rf"; u_username a] with
  | Ok result => returncode result = 0
  | Raise _ => False
  end.

Global Instance removal_succeeds_dec sys a : Decision (removal_succeeds sys a).
Proof.
  unfold removal_succeeds.
  destruct (subprocess_run sys _); apply _.
Defined.

(** What no update changes in an account row. *)
Definition identity (u : UserRow) : Z * Val * Val * Val :=
  (u_id u, u_username u, u_role u, u_last_login u).

(** The rows of a table that do not belong to [target], each at its place. *)
Definition others {R} (key : R → Z) (target : Z) (rows : list R) : list (option R) :=
  (λ r, if bool_decide (key r = target) then None else Some r) <$> rows.

(** What an update of the account [target] leaves as it is. *)
Definition update_frame (target : Z) : relation DB := λ db db',
  identity <$> users db' = identity <$> users db
  ∧ others u_id target (users db') = others u_id target (users db)
  ∧ r_user_id <$> resource_allocations db' = r_user_id <$> resource_allocations db
  ∧ others r_user_id target (resource_allocations db')
    = others r_user_id target (resource_allocations db)
  ∧ sessions db' = sessions db
  ∧ activity_log db' = activity_log db.

(** An account row after an update with a new password and, where the body
    has them, a new address and a new state. *)
Definition edited (data : gmap string Val) (h : string) (u : UserRow) : UserRow :=
  {| u_id := u_id u; u_username := u_username u; u_password_hash := VStr h;
     u_email := match data !! "email" with Some e => stored e | None => u_email u end;
     u_role := u_role u;
     u_is_active := match data !! "is_active" with
                    | Some v => stored v
                    | None => u_is_active u
                    end;
     u_last_login := u_last_login u |}.

(** A quota row with a new memory limit. *)
Definition with_mem_limit (v : Val) (r : ResourceRow) : ResourceRow :=
  {| r_user_id := r_user_id r; r_cpu_limit := r_cpu_limit r; r_mem_limit := v;
     r_disk_quota := r_disk_quota r; r_gpu_access := r_gpu_access r |}.

(** A system with an accelerator: two processes use it, 4242 is the only
    process of bob. *)
Definition gpu_site : Sys :=
  λ args, match args with
          | "nvidia-smi" :: _ =>
              Ok {| returncode := 0;
                    stdout := "4242, 100 MiB" +:+ String "010" "977, 50 MiB"
                              +:+ String "010" "";
                    stderr := "" |}
          | ["pgrep"; "-u"; "bob"] =>
              Ok {| returncode := 0; stdout := "4242" +:+ String "010" ""; stderr := "" |}
          | "pgrep" :: _ => Ok {| returncode := 1; stdout := ""; stderr := "" |}
          | _ => Ok {| returncode := 0; stdout := ""; stderr := "" |}
          end.


(** A host with 8 processors, 16384 kB of memory, a home partition of
    1000 megabytes and no [nvidia-smi]. *)
Definition plain_host : Sys :=
  λ args,
    if bool_decide (head args = Some "nvidia-smi") then
      Raise (OSError "No such file or directory")
    else if bool_decide (args = ["grep"; "-c"; "processor"; "/proc/cpuinfo"]) then
      Ok {| returncode := 0; stdout := "8" +:+ String "010" ""; stderr := "" |}
    else if bool_decide (args = ["grep"; "MemTotal"; "/proc/meminfo"]) then
      Ok {| returncode := 0;
            stdout := "MemTotal:       16384 kB" +:+ String "010" "";
            stderr := "" |}
    else if bool_decide (head args = Some "df") then
      Ok {| returncode := 0;
            stdout := "Filesystem 1M-blocks Used Available Use% Mounted on"
                      +:+ String "010" "/dev/sda1 1000 400 600 40% /home"
                      +:+ String "010" "";
            stderr := "" |}
    else Ok {| returncode := 0; stdout := ""; stderr := "" |}.

(** The same host with a line of [/proc/meminfo] that has no number. *)
Definition short_meminfo : Sys :=
  λ args,
    if bool_decide (args = ["grep"; "MemTotal"; "/proc/meminfo"]) then
      Ok {| returncode := 0; stdout := "MemTotal:" +:+ String "010" ""; stderr := "" |}
    else plain_host args.

(** No two names of the list are equal, as SQLite compares them. *)
Fixpoint distinct_names (names : list Val) : Prop :=
  match names with
  | [] => True
  | a :: rest => Forall (λ b, sql_eq a b = false) rest ∧ distinct_names rest
  end.

(** The accounts and the quotas fit together: row ids and names identify
    accounts, an account has at most one quota row, and every quota row
    belongs to an account. *)
Definition accounts_fit (db : DB) : Prop :=
  NoDup (u_id <$> users db)
  ∧ distinct_names (u_username <$> users db)
  ∧ NoDup (r_user_id <$> resource_allocations db)
  ∧ Forall (λ q, r_user_id q ∈ u_id <$> users db) (resource_allocations db).

Definition well_formed (db : DB) : Prop :=
  accounts_fit db ∧ sessions_have_accounts db.

(** What a creation request with the row id [new_id] can leave of [db]:
    nothing new, the account, the account and its quota, or the two written
    and removed again. *)
Definition created (new_id : Z) (db db' : DB) : Prop :=
  db' = db
  ∨ ∃ row, u_id row = new_id
      ∧ Forall (λ a, sql_eq (u_username a) (u_username row) = false) (users db)
      ∧ (db' = set_users (λ us, us ++ [row]) db
         ∨ ∃ q, r_user_id q = new_id
             ∧ (db' = set_resources (λ rs, rs ++ [q]) (set_users (λ us, us ++ [row]) db)
                ∨ db' = set_users (filter (λ a, u_id a ≠ new_id))
                          (set_resources (filter (λ q, r_user_id q ≠ new_id))
                             (set_resources (λ rs, rs ++ [q])
                                (set_users (λ us, us ++ [row]) db))))).

(** * Properties *)

(** ** Strings *)

Lemma ascii_eqb_eq (a b : ascii) : Ascii.eqb a b = true ↔ a = b.
Proof. apply Ascii.eqb_eq. Qed.

Lemma digit_is_int_char c : Py.is_digit c = true → int_char c = true.
Proof. unfold int_char. intros ->. by rewrite orb_true_r. Qed.

Lemma digit_not_letter c (l : ascii) :
  Py.is_digit c = true → Py.is_digit l = false → Ascii.eqb l c = false.
Proof.
  intros Hc Hl. destruct (Ascii.eqb l c) eqn:E; [|done].
  apply ascii_eqb_eq in E. congruence.
Qed.

Lemma contains_app c s t :
  Py.contains c (s +:+ t) = Py.contains c s || Py.contains c t.
Proof.
  induction s as [|d s IH]; simpl; [done|].
  destruct (Ascii.eqb c d); [done|apply IH].
Qed.

Lemma replace_absent c s : Py.contains c s = false → Py.replace c "" s = s.
Proof.
  induction s as [|d s IH]; simpl; [done|].
  destruct (Ascii.eqb c d); [done|]. intros H. by rewrite IH.
Qed.

Lemma replace_app c s t :
  Py.replace c "" (s +:+ t) = Py.replace c "" s +:+ Py.replace c "" t.
Proof.
  induction s as [|d s IH]; simpl; [done|].
  destruct (Ascii.eqb c d); simpl; by rewrite IH.
Qed.

(** What [replace] leaves is what was there, but for the character removed. *)
Lemma contains_replace c old s :
  c ≠ old → Py.contains c (Py.replace old "" s) = Py.contains c s.
Proof.
  intros Hne. induction s as [|d s IH]; simpl; [done|].
  destruct (Ascii.eqb old d) eqn:E; simpl.
  - apply ascii_eqb_eq in E. subst d.
    destruct (Ascii.eqb c old) eqn:E'; [apply ascii_eqb_eq in E'; done|apply IH].
  - destruct (Ascii.eqb c d); [done|apply IH].
Qed.

Lemma all_chars_contains P s c :
  Py.all_chars P s = true → Py.contains c s = true → P c = true.
Proof.
  induction s as [|d s IH]; simpl; [done|].
  intros [Hd Hs]%andb_true_iff.
  destruct (Ascii.eqb c d) eqn:E; [apply ascii_eqb_eq in E; by subst|auto].
Qed.

Lemma all_chars_not_contains P s c :
  Py.all_chars P s = true → P c = false → Py.contains c s = false.
Proof.
  intros Hs Hc. destruct (Py.contains c s) eqn:E; [|done].
  rewrite (all_chars_contains P s c Hs E) in Hc. done.
Qed.

(** *** [int] *)

Lemma scan_digits_decimal acc s :
  Py.all_chars Py.is_digit s = true →
  Py.scan_digits acc false s = Some (Py.decimal acc s, "").
Proof.
  revert acc. induction s as [|c s IH]; simpl; intros acc; [done|].
  intros [Hc Hs]%andb_true_iff. rewrite Hc. by apply IH.
Qed.

Lemma count_digits_decimal d :
  Py.all_chars Py.is_digit d = true → Py.count_digits d = Z.of_nat (String.length d).
Proof.
  induction d as [|c d IH]; [done|].
  cbn [Py.all_chars Py.count_digits String.length].
  intros [Hc Hd]%andb_true_iff. rewrite Hc, (IH Hd). lia.
Qed.

(** On the digits of an integer, [int] is the decimal value up to
    [int_max_str_digits] digits, and raises beyond. *)
Lemma int_decimal_cases d :
  is_decimal d →
  Py.int d = if Z.of_nat (String.length d) <=? Py.int_max_str_digits
             then Ok (Py.decimal 0 d) else Raise ValueError.
Proof.
  intros [Hne Hd]. pose proof (count_digits_decimal d Hd) as Hcount.
  destruct d as [|c d]; [done|].
  pose proof Hd as Hd'. simpl in Hd'. apply andb_true_iff in Hd' as [Hc _].
  assert (Hsp : Py.is_int_space c = false).
  { revert Hc. unfold Py.is_digit, Py.is_int_space. simpl. lia. }
  assert (Hplus : Ascii.eqb c "+" = false).
  { apply not_true_is_false. intros ->%ascii_eqb_eq. done. }
  assert (Hminus : Ascii.eqb c "-" = false).
  { apply not_true_is_false. intros ->%ascii_eqb_eq. done. }
  unfold Py.int. cbn [Py.skip_space]. rewrite Hsp.
  cbn [Py.split_sign]. rewrite Hplus, Hminus. rewrite Hc.
  rewrite (scan_digits_decimal 0 (String c d) Hd). cbn [Py.all_space].
  rewrite Hcount. destruct (_ <=? _); [|done].
  f_equal. destruct (Py.decimal 0 (String c d)); done.
Qed.

Lemma int_decimal d :
  is_decimal d → Z.of_nat (String.length d) ≤ Py.int_max_str_digits →
  Py.int d = Ok (Py.decimal 0 d).
Proof.
  intros Hd Hlen. rewrite (int_decimal_cases d Hd).
  by rewrite (proj2 (Z.leb_le _ _) Hlen).
Qed.

Lemma int_decimal_long d :
  is_decimal d → Py.int_max_str_digits < Z.of_nat (String.length d) →
  Py.int d = Raise ValueError.
Proof.
  intros Hd Hlen. rewrite (int_decimal_cases d Hd).
  by rewrite (proj2 (Z.leb_gt _ _) Hlen).
Qed.

Lemma scan_digits_chars acc p s n rest :
  Py.scan_digits acc p s = Some (n, rest) →
  ∀ c, Py.contains c s = true → int_char c = true ∨ Py.contains c rest = true.
Proof.
  revert acc p. induction s as [|d s IH]; simpl; intros acc p Hscan c Hc; [done|].
  destruct (Py.is_digit d) eqn:Hd.
  - destruct (Ascii.eqb c d) eqn:E.
    + apply ascii_eqb_eq in E. subst. left. by apply digit_is_int_char.
    + eauto.
  - destruct (Ascii.eqb d "_") eqn:Hu.
    + destruct p; [done|].
      destruct (Ascii.eqb c d) eqn:E.
      * apply ascii_eqb_eq in E. subst. left. unfold int_char.
        rewrite Hu. by rewrite !orb_true_r.
      * eauto.
    + destruct p; [done|]. injection Hscan as <- <-. right. simpl.
      by destruct (Ascii.eqb c d).
Qed.

Lemma all_space_chars s c :
  Py.all_space s = true → Py.contains c s = true → int_char c = true.
Proof.
  induction s as [|d s IH]; simpl; [done|].
  intros [Hd Hs]%andb_true_iff.
  destruct (Ascii.eqb c d) eqn:E; [|auto].
  apply ascii_eqb_eq in E. subst. intros _. unfold int_char. by rewrite Hd.
Qed.

Lemma skip_space_chars s c :
  Py.contains c s = true → int_char c = true ∨ Py.contains c (Py.skip_space s) = true.
Proof.
  induction s as [|d s IH]; simpl; [done|].
  destruct (Py.is_int_space d) eqn:Hd.
  - destruct (Ascii.eqb c d) eqn:E; [|done].
    apply ascii_eqb_eq in E. subst. intros _. left. unfold int_char. by rewrite Hd.
  - intros H. right. simpl. done.
Qed.

Lemma split_sign_chars s sign body c :
  Py.split_sign s = (sign, body) → Py.contains c s = true →
  int_char c = true ∨ Py.contains c body = true.
Proof.
  destruct s as [|d s]; simpl; [done|].
  destruct (Ascii.eqb d "+") eqn:Hp.
  { intros [= <- <-]. destruct (Ascii.eqb c d) eqn:E; [|by right].
    apply ascii_eqb_eq in E. subst. intros _. left. unfold int_char.
    rewrite Hp. by rewrite !orb_true_r. }
  destruct (Ascii.eqb d "-") eqn:Hm.
  { intros [= <- <-]. destruct (Ascii.eqb c d) eqn:E; [|by right].
    apply ascii_eqb_eq in E. subst. intros _. left. unfold int_char.
    rewrite Hm. by rewrite !orb_true_r. }
  intros [= <- <-]. simpl. by right.
Qed.

(** [int] raises nothing but [ValueError]. *)
Lemma int_raises s e : Py.int s = Raise e → e = ValueError.
Proof.
  unfold Py.int. destruct (Py.split_sign _) as [sign body].
  destruct body as [|c body]; [congruence|].
  destruct (Py.is_digit c); [|congruence].
  destruct (Py.scan_digits _ _ _) as [[n rest]|]; [|congruence].
  destruct (Py.all_space rest); [|congruence].
  destruct (_ <=? _); congruence.
Qed.

(** A string that [int] accepts is made of white space, signs, digits and
    underscores. *)
Lemma int_accepts_chars s n c :
  Py.int s = Ok n → Py.contains c s = true → int_char c = true.
Proof.
  unfold Py.int. destruct (Py.split_sign _) as [sign body] eqn:Hsign.
  intros Hint Hc.
  destruct (skip_space_chars s c Hc) as [|Hc1]; [done|].
  destruct (split_sign_chars _ _ _ c Hsign Hc1) as [|Hc2]; [done|].
  destruct body as [|d body]; [done|].
  destruct (Py.is_digit d); [|done].
  destruct (Py.scan_digits _ _ _) as [[m rest]|] eqn:Hscan; [|done].
  destruct (Py.all_space rest) eqn:Hrest; [|done].
  destruct (scan_digits_chars _ _ _ _ _ Hscan c Hc2) as [|Hc3]; [done|].
  by eapply all_space_chars.
Qed.

Lemma int_rejects s c :
  Py.contains c s = true → int_char c = false → Py.int s = Raise ValueError.
Proof.
  intros Hc Hn. destruct (Py.int s) as [n|e] eqn:E.
  - rewrite (int_accepts_chars s n c E Hc) in Hn. done.
  - by rewrite (int_raises s e E).
Qed.

(** *** Quantity strings *)

Lemma string_app_nil_r (s : string) : s +:+ "" = s.
Proof.
  induction s as [|c s IH]; [done|].
  change (String c (s +:+ "") = String c s). by rewrite IH.
Qed.

Lemma digits_then_form unit s :
  digits_then unit s = true ↔ ∃ d, is_decimal d ∧ s = d +:+ String unit "".
Proof.
  split.
  - induction s as [|c s IH]; simpl; [done|].
    intros [Hc [Hs|Hs]%orb_true_iff]%andb_true_iff.
    + apply bool_decide_eq_true in Hs. subst s.
      exists (String c ""). split; [|done]. split; [done|]. simpl. by rewrite Hc.
    + destruct (IH Hs) as (d & [Hne Hd] & ->).
      exists (String c d). split; [|done]. split; [done|]. simpl. by rewrite Hc.
  - intros (d & [Hne Hd] & ->). induction d as [|c d IH]; [done|].
    simpl in Hd. apply andb_true_iff in Hd as [Hc Hd]. simpl. rewrite Hc. simpl.
    destruct d as [|c' d]; [by rewrite bool_decide_eq_true_2|].
    rewrite IH; [apply orb_true_r|done|done].
Qed.

(** Whatever [int] accepts, followed by the unit, converts to its value. *)
Lemma quantity_G d n :
  Py.int d = Ok n → quantity_to_mb (VStr (d +:+ "G")) = Ok (n * 1024).
Proof.
  intros Hd.
  assert (HG : Py.contains "G" d = false).
  { destruct (Py.contains "G" d) eqn:E; [|done].
    by pose proof (int_accepts_chars d n "G" Hd E). }
  unfold quantity_to_mb. rewrite contains_app, replace_app, (replace_absent _ _ HG).
  simpl. rewrite orb_true_r, string_app_nil_r, Hd. done.
Qed.

Lemma quantity_M d n :
  Py.int d = Ok n → quantity_to_mb (VStr (d +:+ "M")) = Ok n.
Proof.
  intros Hd.
  assert (HG : Py.contains "G" d = false).
  { destruct (Py.contains "G" d) eqn:E; [|done].
    by pose proof (int_accepts_chars d n "G" Hd E). }
  assert (HM : Py.contains "M" d = false).
  { destruct (Py.contains "M" d) eqn:E; [|done].
    by pose proof (int_accepts_chars d n "M" Hd E). }
  unfold quantity_to_mb. rewrite contains_app, HG. simpl.
  rewrite replace_app, (replace_absent _ _ HM). simpl.
  by rewrite string_app_nil_r.
Qed.

(** A character that is neither a unit nor part of an integer makes the
    conversion raise. *)
Lemma quantity_rejects s c :
  Py.contains c s = true → int_char c = false → c ≠ "G"%char → c ≠ "M"%char →
  quantity_to_mb (VStr s) = Raise ValueError.
Proof.
  intros Hc Hn HG HM. unfold quantity_to_mb.
  destruct (Py.contains "G" s).
  - rewrite (int_rejects (Py.replace "G" "" s) c); [done| |done].
    by rewrite contains_replace.
  - apply (int_rejects _ c); [|done]. by rewrite contains_replace.
Qed.

(** The digits of an integer followed by a unit: what is left for [int]
    are the digits. *)
Lemma quantity_decimal d :
  is_decimal d →
  quantity_to_mb (VStr (d +:+ "G")) = (n ← Py.int d; Ok (n * 1024))
  ∧ quantity_to_mb (VStr (d +:+ "M")) = Py.int d.
Proof.
  intros [_ Hd].
  assert (HG : Py.contains "G" d = false)
    by by apply (all_chars_not_contains Py.is_digit).
  assert (HM : Py.contains "M" d = false)
    by by apply (all_chars_not_contains Py.is_digit).
  unfold quantity_to_mb. rewrite !contains_app, !replace_app, HG.
  rewrite (replace_absent _ _ HG), (replace_absent _ _ HM). simpl.
  change ("" +:+ "") with "". by rewrite !string_app_nil_r.
Qed.

(** C1 (as amended).  For the digits of an integer, at most 4300 of them,
    followed by G the conversion gives the integer times 1024, followed by
    M the integer itself; with more digits it raises ValueError, and so
    does an input with a character that is no digit, sign, underscore,
    white space, G or M.  Inputs of other shapes are not all refused:
    every G, or else every M, is dropped wherever it stands. *)
Theorem quantity_to_mb_units (d s : string) (c : ascii) :
  is_decimal d →
  Py.contains c s = true → int_char c = false → c ≠ "G"%char → c ≠ "M"%char →
  (Z.of_nat (String.length d) ≤ Py.int_max_str_digits →
   quantity_to_mb (VStr (d +:+ "G")) = Ok (Py.decimal 0 d * 1024)
   ∧ quantity_to_mb (VStr (d +:+ "M")) = Ok (Py.decimal 0 d))
  ∧ (Py.int_max_str_digits < Z.of_nat (String.length d) →
     quantity_to_mb (VStr (d +:+ "G")) = Raise ValueError
     ∧ quantity_to_mb (VStr (d +:+ "M")) = Raise ValueError)
  ∧ quantity_to_mb (VStr s) = Raise ValueError.
Proof.
  intros Hd Hc Hn HG HM. destruct (quantity_decimal d Hd) as [-> ->].
  split; [|split].
  - intros Hlen. by rewrite (int_decimal d Hd Hlen).
  - intros Hlen. by rewrite (int_decimal_long d Hd Hlen).
  - by apply (quantity_rejects s c).
Qed.

Lemma quantity_to_mb_units_witness :
  quantity_to_mb (VStr "2G") = Ok 2048
  ∧ quantity_to_mb (VStr "512M") = Ok 512
  ∧ quantity_to_mb (VStr "2X") = Raise ValueError
  ∧ quantity_to_mb (VStr (sevens 4301 +:+ "M")) = Raise ValueError.
Proof.
  assert (H2 : is_decimal "2") by (split; [discriminate|reflexivity]).
  assert (H512 : is_decimal "512") by (split; [discriminate|reflexivity]).
  assert (HX : Py.contains "X" "2X" = true) by reflexivity.
  assert (HnX : int_char "X" = false) by reflexivity.
  assert (HG : "X"%char ≠ "G"%char) by discriminate.
  assert (HM : "X"%char ≠ "M"%char) by discriminate.
  assert (L2 : Z.of_nat (String.length "2") ≤ Py.int_max_str_digits)
    by (by vm_compute).
  assert (L512 : Z.of_nat (String.length "512") ≤ Py.int_max_str_digits)
    by (by vm_compute).
  split; [exact (proj1 (proj1 (quantity_to_mb_units "2" "2X" "X" H2 HX HnX HG HM) L2))|].
  split;
    [exact (proj2 (proj1 (quantity_to_mb_units "512" "2X" "X" H512 HX HnX HG HM) L512))|].
  split; [exact (proj2 (proj2 (quantity_to_mb_units "2" "2X" "X" H2 HX HnX HG HM)))|].
  assert (Hlong : is_decimal (sevens 4301)) by (split; [discriminate|by vm_compute]).
  assert (Llong : Py.int_max_str_digits < Z.of_nat (String.length (sevens 4301)))
    by (by vm_compute).
  exact (proj2 (proj1 (proj2 (quantity_to_mb_units (sevens 4301) "2X" "X"
                                 Hlong HX HnX HG HM)) Llong)).
Defined.

(** C1 (as stated) fails: the conversion is no strict parser.  "G2" is
    neither digits followed by G nor digits followed by M, and converts. *)
Lemma quantity_to_mb_not_strict :
  ¬ (∀ s, digits_then "G" s = false → digits_then "M" s = false →
          ∃ e, quantity_to_mb (VStr s) = Raise e).
Proof.
  intros H. destruct (H "G2") as [e He]; [reflexivity|reflexivity|].
  vm_compute in He. discriminate.
Qed.

(** More inputs that a strict parser would refuse. *)
Lemma quantity_to_mb_permissive :
  quantity_to_mb (VStr "2") = Ok 2
  ∧ quantity_to_mb (VStr "G2") = Ok 2048
  ∧ quantity_to_mb (VStr "1G2") = Ok 12288
  ∧ quantity_to_mb (VStr "M5M") = Ok 5
  ∧ quantity_to_mb (VStr " -1_0 G") = Ok (-10240).
Proof. repeat split; reflexivity. Qed.

(** ** Looking up by id *)

Lemma bind_id_held z db : held_id db z = true → bind_id z db = (Ok z, db).
Proof. intros H. unfold bind_id. by rewrite H, orb_true_r. Qed.

Lemma bind_id_int z db : sqlite_int z = true → bind_id z db = (Ok z, db).
Proof. intros H. unfold bind_id. by rewrite H. Qed.

Lemma bind_id_cases z db :
  bind_id z db = (Ok z, db)
  ∨ bind_id z db = (Raise OverflowError, db) ∧ sqlite_int z = false
    ∧ held_id db z = false.
Proof.
  unfold bind_id. destruct (sqlite_int z); [by left|].
  destruct (held_id db z); [by left|by right].
Qed.

Lemma held_account uid db : uid ∈ u_id <$> users db → held_id db uid = true.
Proof. intros H. unfold held_id. by rewrite (bool_decide_eq_true_2 _ H). Qed.

Lemma held_quota uid db :
  uid ∈ r_user_id <$> resource_allocations db → held_id db uid = true.
Proof.
  intros H. unfold held_id. rewrite (bool_decide_eq_true_2 _ H). apply orb_true_r.
Qed.

Lemma select_user_by_id_db uid db : (select_user_by_id uid db).2 = db.
Proof.
  unfold select_user_by_id, mbind, Db_bind.
  by destruct (bind_id_cases uid db) as [-> |[-> _]].
Qed.

Lemma select_resource_db uid db : (select_resource uid db).2 = db.
Proof.
  unfold select_resource, mbind, Db_bind.
  by destruct (bind_id_cases uid db) as [-> |[-> _]].
Qed.


(** An account that is in the table is found. *)
Lemma select_user_by_id_found uid a db :
  head (filter (λ u, u_id u = uid) (users db)) = Some a →
  select_user_by_id uid db = (Ok (Some a), db).
Proof.
  intros Ha. unfold select_user_by_id, mbind, Db_bind.
  rewrite bind_id_held; [by rewrite Ha|].
  apply held_account. apply head_Some_elem_of, list_elem_of_filter in Ha as [<- Ha].
  by apply list_elem_of_fmap_2.
Qed.

(** A look up finds the first row with the id, or none; or the id cannot
    be bound, and then no row has it. *)
Lemma select_user_by_id_cases uid db :
  select_user_by_id uid db = (Ok (head (filter (λ u, u_id u = uid) (users db))), db)
  ∨ select_user_by_id uid db = (Raise OverflowError, db)
    ∧ sqlite_int uid = false
    ∧ head (filter (λ u, u_id u = uid) (users db)) = None.
Proof.
  unfold select_user_by_id, mbind, Db_bind.
  destruct (bind_id_cases uid db) as [-> |(-> & Hint & Hheld)]; [by left|].
  right. split; [done|]. split; [done|].
  destruct (head _) as [a|] eqn:Ha; [|done].
  apply head_Some_elem_of, list_elem_of_filter in Ha as [<- Ha].
  by rewrite held_account in Hheld by by apply list_elem_of_fmap_2.
Qed.

Lemma select_resource_int uid db :
  sqlite_int uid = true →
  select_resource uid db =
    (Ok (head (filter (λ r, r_user_id r = uid) (resource_allocations db))), db).
Proof.
  intros H. unfold select_resource, mbind, Db_bind. by rewrite (bind_id_int _ _ H).
Qed.

(** The quota of an account that is in the table can be looked up. *)
Lemma select_resource_account uid db :
  uid ∈ u_id <$> users db →
  select_resource uid db =
    (Ok (head (filter (λ r, r_user_id r = uid) (resource_allocations db))), db).
Proof.
  intros H. unfold select_resource, mbind, Db_bind.
  by rewrite (bind_id_held _ _ (held_account _ _ H)).
Qed.

Lemma select_resource_found uid q db :
  head (filter (λ r, r_user_id r = uid) (resource_allocations db)) = Some q →
  select_resource uid db = (Ok (Some q), db).
Proof.
  intros Hq. unfold select_resource, mbind, Db_bind.
  rewrite bind_id_held; [by rewrite Hq|].
  apply held_quota. apply head_Some_elem_of, list_elem_of_filter in Hq as [<- Hq].
  by apply list_elem_of_fmap_2.
Qed.

Lemma select_resource_cases uid db :
  select_resource uid db =
    (Ok (head (filter (λ r, r_user_id r = uid) (resource_allocations db))), db)
  ∨ select_resource uid db = (Raise OverflowError, db)
    ∧ sqlite_int uid = false
    ∧ head (filter (λ r, r_user_id r = uid) (resource_allocations db)) = None.
Proof.
  unfold select_resource, mbind, Db_bind.
  destruct (bind_id_cases uid db) as [-> |(-> & Hint & Hheld)]; [by left|].
  right. split; [done|]. split; [done|].
  destruct (head _) as [q|] eqn:Hq; [|done].
  apply head_Some_elem_of, list_elem_of_filter in Hq as [<- Hq].
  by rewrite held_quota in Hheld by by apply list_elem_of_fmap_2.
Qed.

(** ** Sessions *)

Lemma head_Some_exists {A} (l : list A) : (∃ x, head l = Some x) ↔ ∃ x, x ∈ l.
Proof.
  destruct l as [|a l]; simpl.
  - split; intros [x H]; [done|by apply elem_of_nil in H].
  - split; intros _; exists a; [apply list_elem_of_here|done].
Qed.

Lemma head_None_empty {A} (l : list A) : head l = None ↔ ∀ x, x ∉ l.
Proof.
  destruct l as [|a l]; simpl.
  - split; [intros _ x; apply not_elem_of_nil|done].
  - split; [done|]. intros H. destruct (H a). apply list_elem_of_here.
Qed.

Lemma verify_token_db token now db : (verify_token token now db).2 = db.
Proof. done. Qed.

(** A token verifies exactly when one of its sessions has not expired and
    the account of that session is in the table. *)
Lemma verify_token_Some token now db :
  (∃ u, verify_token token now db = (Ok (Some u), db)) ↔
  ∃ s a, s ∈ sessions db ∧ a ∈ users db ∧ s_session_token s = token
         ∧ now < s_expires_at s ∧ u_id a = s_user_id s.
Proof.
  unfold verify_token. split.
  - intros [u Hu]. injection Hu as Hu.
    assert (Hin : ∃ x, head
      (s ← filter (λ s, s_session_token s = token ∧ s_expires_at s > now) (sessions db);
       u ← filter (λ u, u_id u = s_user_id s) (users db);
       [ {| user_id := s_user_id s; username := u_username u; role := u_role u |} ])
      = Some x) by eauto.
    apply head_Some_exists in Hin as [x Hx].
    apply list_elem_of_bind in Hx as (s & Hx & Hs).
    apply list_elem_of_bind in Hx as (a & _ & Ha).
    apply list_elem_of_filter in Hs as [[Ht He] Hs].
    apply list_elem_of_filter in Ha as [Hid Ha].
    exists s, a. repeat split; [done..|lia|done].
  - intros (s & a & Hs & Ha & Ht & He & Hid).
    destruct (proj2 (head_Some_exists
      (s ← filter (λ s, s_session_token s = token ∧ s_expires_at s > now) (sessions db);
       u ← filter (λ u, u_id u = s_user_id s) (users db);
       [ {| user_id := s_user_id s; username := u_username u; role := u_role u |} ])))
      as [x Hx]; [|exists x; by rewrite Hx].
    eexists. apply list_elem_of_bind. exists s. split.
    + apply list_elem_of_bind. exists a. split; [apply list_elem_of_here|].
      by apply list_elem_of_filter.
    + apply list_elem_of_filter. split; [split; [done|lia]|done].
Qed.

Lemma verify_token_cases token now db :
  (∃ u, verify_token token now db = (Ok (Some u), db))
  ∨ verify_token token now db = (Ok None, db).
Proof.
  unfold verify_token. destruct (head _) as [u|]; [left; by exists u|by right].
Qed.

Lemma verify_token_live token now db :
  sessions_have_accounts db →
  (∃ u, verify_token token now db = (Ok (Some u), db)) ↔ live_session db token now.
Proof.
  intros Hwf. rewrite verify_token_Some. unfold live_session. rewrite Exists_exists.
  split.
  - intros (s & a & Hs & _ & Ht & He & _). by exists s.
  - intros (s & Hs & Ht & He).
    pose proof (proj1 (Forall_forall _ _) Hwf s Hs) as Hex.
    apply Exists_exists in Hex as (a & Ha & Hid). by exists s, a.
Qed.

Lemma verify_token_dead token now db :
  ¬ live_session db token now → verify_token token now db = (Ok None, db).
Proof.
  intros Hdead. destruct (verify_token_cases token now db) as [Hsome|]; [|done].
  destruct Hdead. apply verify_token_Some in Hsome as (s & a & Hs & _ & Ht & He & _).
  apply Exists_exists. by exists s.
Qed.

(** The account a verified token names is in the table. *)
Lemma verify_token_account token now db caller :
  verify_token token now db = (Ok (Some caller), db) →
  ∃ a, head (filter (λ u, u_id u = user_id caller) (users db)) = Some a.
Proof.
  unfold verify_token. intros [= Hhead].
  apply head_Some_elem_of in Hhead.
  apply list_elem_of_bind in Hhead as (s & Hx & Hs).
  apply list_elem_of_bind in Hx as (a & Hx & Ha).
  apply list_elem_of_singleton in Hx. subst caller. simpl.
  apply head_Some_exists. exists a. apply list_elem_of_filter.
  by apply list_elem_of_filter in Ha as [? ?].
Qed.

(** *** The gate *)

Lemma require_auth_accepts now auth_header token caller f db :
  carries auth_header token →
  verify_token token now db = (Ok (Some caller), db) →
  require_auth now auth_header f db = f caller db.
Proof.
  destruct auth_header as [h|]; [|done]. intros [Hb Ht] Hv.
  unfold require_auth. rewrite Hb. simpl.
  unfold mbind, Db_bind, lift. rewrite Ht, Hv. done.
Qed.

Lemma require_auth_rejects now auth_header token f db :
  carries auth_header token →
  verify_token token now db = (Ok None, db) →
  require_auth now auth_header f db =
    (Ok (answer (JError "Invalid or expired token") 401), db).
Proof.
  destruct auth_header as [h|]; [|done]. intros [Hb Ht] Hv.
  unfold require_auth. rewrite Hb. simpl.
  unfold mbind, Db_bind, lift. rewrite Ht, Hv. done.
Qed.

(** The gate writes nothing by itself. *)
Lemma require_auth_cases now auth_header f db :
  (∃ r, status r = 401 ∧ require_auth now auth_header f db = (Ok r, db))
  ∨ (∃ e, require_auth now auth_header f db = (Raise e, db))
  ∨ (∃ token caller, carries auth_header token
       ∧ verify_token token now db = (Ok (Some caller), db)
       ∧ require_auth now auth_header f db = f caller db).
Proof.
  destruct auth_header as [h|]; [|left; eexists (answer _ 401); by split].
  unfold require_auth. destruct (Py.startswith "Bearer " h) eqn:Hb; simpl;
    [|left; eexists (answer _ 401); by split].
  unfold mbind, Db_bind, lift.
  destruct (header_token h) as [token|e] eqn:Ht; [|right; left; by eexists].
  destruct (verify_token_cases token now db) as [[u Hu]|Hn].
  - right; right. exists token, u. rewrite Hu. by repeat split.
  - left. rewrite Hn. eexists (answer _ 401); by split.
Qed.

Lemma bearer_carries token :
  Py.contains " " token = false → carries (bearer token) token.
Proof.
  intros Hsp. split; [done|]. unfold header_token. simpl.
  assert (Hsplit : ∃ ps, Py.split " " token = token :: ps).
  { clear -Hsp. induction token as [|c t IH]; [by eexists|].
    cbn [Py.contains Py.split] in *.
    rewrite Ascii.eqb_sym. destruct (Ascii.eqb " " c); [done|].
    destruct (IH Hsp) as [ps ->]. by eexists. }
  change ("" +:+ token) with token. destruct Hsplit as [ps ->]. done.
Qed.

Lemma serve_ok (view : Db Response) db r db' :
  view db = (Ok r, db') → serve view db = (r, db').
Proof. unfold serve. by intros ->. Qed.

Lemma status_401 r : status r = 401 → error_kind r = Some AuthenticationError.
Proof. unfold error_kind. by intros ->. Qed.

Lemma status_403 r : status r = 403 → error_kind r = Some AuthorizationError.
Proof. unfold error_kind. by intros ->. Qed.

(** C5.  A token verifies exactly when the table has a session with that
    token and [now < expires_at]: one tick before the expiry of a session
    its token verifies; from the expiry on it does not, and the gate answers
    with an authentication error. *)
Theorem session_valid_strictly (db : DB) (s : SessionRow) (token : string) (now later : Z)
    (auth_header : option string) (f : AuthUser → Db Response) :
  sessions_have_accounts db →
  tokens_unique db →
  s ∈ sessions db →
  s_expires_at s ≤ later →
  carries auth_header (s_session_token s) →
  ((∃ u, verify_token token now db = (Ok (Some u), db)) ↔ live_session db token now)
  ∧ (∃ u, verify_token (s_session_token s) (s_expires_at s - 1) db = (Ok (Some u), db))
  ∧ verify_token (s_session_token s) (s_expires_at s) db = (Ok None, db)
  ∧ verify_token (s_session_token s) later db = (Ok None, db)
  ∧ ∃ r, serve (require_auth later auth_header f) db = (r, db)
         ∧ error_kind r = Some AuthenticationError.
Proof.
  intros Hwf Huniq Hs Hlater Hcarries.
  assert (Hdead : ∀ t, s_expires_at s ≤ t → ¬ live_session db (s_session_token s) t).
  { intros t Ht Hlive. apply Exists_exists in Hlive as (s' & Hs' & Htok & Hexp).
    pose proof (proj1 (Forall_forall _ _) Huniq s' Hs') as H1.
    pose proof (proj1 (Forall_forall _ _) H1 s Hs Htok) as ->. lia. }
  split; [by apply verify_token_live|].
  split.
  { apply verify_token_live; [done|]. apply Exists_exists. exists s.
    split; [done|]. split; [done|lia]. }
  split; [apply verify_token_dead, Hdead; lia|].
  split; [by apply verify_token_dead, Hdead|].
  eexists. split.
  - apply serve_ok. eapply require_auth_rejects; [done|].
    by apply verify_token_dead, Hdead.
  - done.
Qed.

Lemma sample_sessions_have_accounts : sessions_have_accounts Sample.db.
Proof. apply (bool_decide_unpack _). by vm_compute. Defined.

Lemma sample_tokens_unique : tokens_unique Sample.db.
Proof. apply (bool_decide_unpack _). by vm_compute. Defined.

Lemma session_valid_strictly_witness :
  (∃ u, verify_token "b2" 999 Sample.db = (Ok (Some u), Sample.db))
  ∧ verify_token "b2" 1000 Sample.db = (Ok None, Sample.db)
  ∧ verify_token "b2" 1001 Sample.db = (Ok None, Sample.db).
Proof.
  pose proof (session_valid_strictly Sample.db (Sample.session 2 "b2" 1000) "b2" 999 1001
                (bearer "b2") (λ _, mret (jsonify JInternal))
                sample_sessions_have_accounts sample_tokens_unique) as H.
  destruct H as (_ & Hbefore & Hat & Hafter & _).
  - apply list_elem_of_further, list_elem_of_here.
  - simpl. lia.
  - split; reflexivity.
  - split; [exact Hbefore|]. split; [exact Hat|exact Hafter].
Defined.

(** ** Logout *)

Lemma logout_run auth_header token caller db :
  carries auth_header token →
  logout auth_header caller db =
    (Ok (jsonify (JMessage "Logged out successfully")),
     set_sessions (filter (λ s, s_session_token s ≠ token)) db).
Proof.
  destruct auth_header as [h|]; [|done]. intros [_ Ht].
  unfold logout, mbind, Db_bind, lift. rewrite Ht. done.
Qed.

(** C2 (as amended).  With a token that verifies, logout deletes the
    sessions of that token and succeeds; with a token whose session has
    expired, was revoked or never existed, the gate in front of logout
    answers with an authentication error and the table stays as it is. *)
Theorem logout_gated (now : Z) (auth_header : option string) (token : string) (db : DB) :
  sessions_have_accounts db →
  carries auth_header token →
  (live_session db token now →
     api_logout now auth_header db =
       (jsonify (JMessage "Logged out successfully"),
        set_sessions (filter (λ s, s_session_token s ≠ token)) db))
  ∧ (¬ live_session db token now →
     api_logout now auth_header db =
       (answer (JError "Invalid or expired token") 401, db)).
Proof.
  intros Hwf Hc. unfold api_logout. split.
  - intros Hlive. apply verify_token_live in Hlive as [u Hu]; [|done].
    apply serve_ok. rewrite (require_auth_accepts _ _ _ _ _ _ Hc Hu).
    by apply logout_run.
  - intros Hdead. apply serve_ok. eapply require_auth_rejects; [done|].
    by apply verify_token_dead.
Qed.

Lemma logout_gated_witness :
  api_logout 999 (bearer "b2") Sample.db =
    (jsonify (JMessage "Logged out successfully"),
     set_sessions (filter (λ s, s_session_token s ≠ "b2")) Sample.db)
  ∧ api_logout 1000 (bearer "b2") Sample.db =
      (answer (JError "Invalid or expired token") 401, Sample.db).
Proof.
  assert (Hc : carries (bearer "b2") "b2") by (split; reflexivity).
  split.
  - apply (proj1 (logout_gated 999 (bearer "b2") "b2" Sample.db
                    sample_sessions_have_accounts Hc)).
    apply (bool_decide_unpack _). by vm_compute.
  - apply (proj2 (logout_gated 1000 (bearer "b2") "b2" Sample.db
                    sample_sessions_have_accounts Hc)).
    apply (bool_decide_unpack _). by vm_compute.
Defined.

(** C2 (as stated) fails: logging out with an expired token, and with a
    token that has no session, is answered with an authentication error. *)
Lemma logout_expired_is_error :
  ¬ live_session Sample.db "b2" 1000
  ∧ error_kind (api_logout 1000 (bearer "b2") Sample.db).1 = Some AuthenticationError
  ∧ ¬ live_session Sample.db "zz" 0
  ∧ error_kind (api_logout 0 (bearer "zz") Sample.db).1 = Some AuthenticationError.
Proof.
  split; [apply (bool_decide_unpack _); by vm_compute|].
  split; [by vm_compute|].
  split; [apply (bool_decide_unpack _); by vm_compute|by vm_compute].
Qed.

(** ** Handlers and what they leave of the database

    [steps R m]: whatever [m] does to the database, before and after are
    related by [R]. *)

Definition steps (R : relation DB) {A} (m : Db A) : Prop :=
  ∀ db, R db (m db).2.

Section Steps.

Context (R : relation DB) `{!PreOrder R}.

Lemma steps_ret {A} (a : A) : steps R (mret a).
Proof. intros db. simpl. reflexivity. Qed.

Lemma steps_lift {A} (r : result A) : steps R (lift r).
Proof. intros db. simpl. reflexivity. Qed.

Lemma steps_bind {A B} (m : Db A) (f : A → Db B) :
  steps R m → (∀ a, steps R (f a)) → steps R (m ≫= f).
Proof.
  intros Hm Hf db. unfold mbind, Db_bind. specialize (Hm db).
  destruct (m db) as [[a|e] db1]; simpl in *; [|done].
  etrans; [done|apply Hf].
Qed.

Lemma steps_try {A} (m : Db A) (h : PyExn → Db A) :
  steps R m → (∀ e, steps R (h e)) → steps R (try_except m h).
Proof.
  intros Hm Hh db. unfold try_except. specialize (Hm db).
  destruct (m db) as [[a|e] db1]; simpl in *; [done|].
  etrans; [done|apply Hh].
Qed.

Lemma steps_select_user_by_username v : steps R (select_user_by_username v).
Proof.
  intros db. unfold select_user_by_username.
  destruct (sql_bind v); simpl; reflexivity.
Qed.

Lemma steps_select_user_by_id uid : steps R (select_user_by_id uid).
Proof. intros db. rewrite select_user_by_id_db. reflexivity. Qed.

Lemma steps_select_resource uid : steps R (select_resource uid).
Proof. intros db. rewrite select_resource_db. reflexivity. Qed.

Lemma steps_verify_token token now : steps R (verify_token token now).
Proof. intros db. simpl. reflexivity. Qed.

Lemma steps_require_auth now auth_header f :
  (∀ u, steps R (f u)) → steps R (require_auth now auth_header f).
Proof.
  intros Hf. unfold require_auth. destruct auth_header as [h|]; [|apply steps_ret].
  destruct (negb _); [apply steps_ret|].
  apply steps_bind; [apply steps_lift|]. intros token.
  apply steps_bind; [apply steps_verify_token|]. intros [u|]; [apply Hf|apply steps_ret].
Qed.

Lemma steps_require_admin f u :
  (∀ u, steps R (f u)) → steps R (require_admin f u).
Proof. intros Hf. unfold require_admin. case_bool_decide; [apply steps_ret|apply Hf]. Qed.

Lemma steps_serve (view : Db Response) db : steps R view → R db (serve view db).2.
Proof.
  intros Hv. unfold serve. specialize (Hv db).
  by destruct (view db) as [[r|e] db1].
Qed.

End Steps.

(** ** Deleting an account *)

Lemma require_admin_denies f caller db :
  role caller ≠ VStr "admin" →
  require_admin f caller db =
    (Ok (answer (JError "Admin privileges required") 403), db).
Proof. intros H. unfold require_admin. by rewrite bool_decide_eq_true_2. Qed.

Lemma require_admin_passes f caller db :
  role caller = VStr "admin" → require_admin f caller db = f caller db.
Proof. intros H. unfold require_admin. by rewrite bool_decide_eq_false_2; [|intros ?]. Qed.

(** C6.  Deleting the account named "admin", and an account deleting
    itself, is answered with an authorization error, and no row of any
    table is removed: the database is the same afterwards. *)
Theorem delete_user_protected (sys : Sys) (now : Z) (auth_header : option string)
    (token : string) (caller : AuthUser) (target : Z) (db : DB) :
  carries auth_header token →
  verify_token token now db = (Ok (Some caller), db) →
  (target = user_id caller
   ∨ ∃ a, head (filter (λ u, u_id u = target) (users db)) = Some a
          ∧ u_username a = VStr "admin") →
  ∃ r, api_delete_user sys now auth_header target db = (r, db)
       ∧ error_kind r = Some AuthorizationError.
Proof.
  intros Hc Hv Hcase. unfold api_delete_user.
  destruct (decide (role caller = VStr "admin")) as [Hadmin|Huser].
  - assert (Hex : ∃ a, head (filter (λ u, u_id u = target) (users db)) = Some a).
    { destruct Hcase as [->|(a & Ha & _)]; [by eapply verify_token_account|by exists a]. }
    destruct Hex as [a Ha].
    destruct (decide (u_username a = VStr "admin")) as [Hroot|Hother].
    + exists (answer (JError "Cannot delete the main admin user") 403).
      split; [|done].
      apply serve_ok. rewrite (require_auth_accepts _ _ _ _ _ _ Hc Hv).
      rewrite require_admin_passes by done.
      unfold delete_user, mbind, Db_bind. rewrite (select_user_by_id_found _ _ _ Ha).
      by rewrite bool_decide_eq_true_2.
    + destruct Hcase as [Hself|(a' & Ha' & Hroot)]; [|congruence].
      exists (answer (JError "Cannot delete your own account") 403).
      split; [|done].
      apply serve_ok. rewrite (require_auth_accepts _ _ _ _ _ _ Hc Hv).
      rewrite require_admin_passes by done.
      unfold delete_user, mbind, Db_bind. rewrite (select_user_by_id_found _ _ _ Ha).
      rewrite bool_decide_eq_false_2 by done.
      by rewrite bool_decide_eq_true_2.
  - exists (answer (JError "Admin privileges required") 403). split; [|done].
    apply serve_ok. rewrite (require_auth_accepts _ _ _ _ _ _ Hc Hv).
    by apply require_admin_denies.
Qed.

Lemma delete_user_protected_witness :
  (∃ r, api_delete_user Sample.quiet 0 (bearer "c3") 1 Sample.db = (r, Sample.db)
        ∧ error_kind r = Some AuthorizationError)
  ∧ (∃ r, api_delete_user Sample.quiet 0 (bearer "c3") 3 Sample.db = (r, Sample.db)
          ∧ error_kind r = Some AuthorizationError).
Proof.
  assert (Hc : carries (bearer "c3") "c3") by (split; reflexivity).
  assert (Hv : verify_token "c3" 0 Sample.db =
               (Ok (Some {| user_id := 3; username := VStr "carol";
                            role := VStr "admin" |}), Sample.db)) by reflexivity.
  split.
  - apply (delete_user_protected Sample.quiet 0 (bearer "c3") "c3" _ 1 Sample.db Hc Hv).
    right. exists Sample.admin. split; reflexivity.
  - apply (delete_user_protected Sample.quiet 0 (bearer "c3") "c3" _ 3 Sample.db Hc Hv).
    left. reflexivity.
Defined.

(** When the removal of the system account fails, the rows are gone all the
    same and the answer is an error. *)
Lemma delete_user_removal_fails (sys : Sys) (target : Z) (caller : AuthUser)
    (a : UserRow) (db : DB) :
  head (filter (λ u, u_id u = target) (users db)) = Some a →
  u_username a ≠ VStr "admin" →
  user_id caller ≠ target →
  match subprocess_run sys [VStr "userdel"; VStr "-rf"; u_username a] with
  | Ok result => returncode result ≠ 0
  | Raise _ => True
  end →
  ∃ r, delete_user sys target caller db =
         (Ok r,
          set_users (filter (λ u, u_id u ≠ target))
            (set_log (filter (λ l, l_user_id l ≠ target))
               (set_sessions (filter (λ s, s_user_id s ≠ target))
                  (set_resources (filter (λ r, r_user_id r ≠ target)) db))))
       ∧ status r = 500.
Proof.
  intros Ha Hroot Hself Hfail.
  unfold delete_user, mbind, Db_bind. rewrite (select_user_by_id_found _ _ _ Ha).
  rewrite bool_decide_eq_false_2 by done.
  rewrite bool_decide_eq_false_2 by done. simpl.
  unfold try_except, lift, mbind, Db_bind.
  destruct (subprocess_run sys _) as [result|e]; simpl.
  - rewrite bool_decide_eq_true_2 by done. simpl. by eexists.
  - by eexists.
Qed.

(** C3 (the code at a failing input).  An administrator deletes the account
    of bob and [userdel] exits with status 1: the answer is an error, and
    the account, quota, session and log rows of bob, which were there, are
    gone. *)
Lemma delete_user_not_compensated :
  let '(r, db') := api_delete_user Sample.failing 0 (bearer "a1") 2 Sample.db in
  status r = 500
  ∧ payload r = JErrorDetails "Failed to delete system user" (DText "failed")
  ∧ account_rows 2 Sample.db =
      ([Sample.bob], [Sample.quota 2], [Sample.session 2 "b2" 1000], [Sample.entry 2])
  ∧ account_rows 2 db' = ([], [], [], []).
Proof. vm_compute. by repeat split. Qed.

(** ** Updating an account *)

(** C7.  A caller who is not an administrator and sends one of the
    admin-only fields, on the caller's own account or on another one, is
    answered with an authorization error and the database is the same
    afterwards. *)
Theorem update_admin_fields_denied (py : Builtins) (sys : Sys) (now : Z)
    (auth_header : option string) (token : string) (caller : AuthUser)
    (data : gmap string Val) (field : string) (target : Z) (db : DB) :
  carries auth_header token →
  verify_token token now db = (Ok (Some caller), db) →
  role caller ≠ VStr "admin" →
  field ∈ admin_fields →
  is_Some (data !! field) →
  ∃ r, api_update_user py sys now auth_header data target db = (r, db)
       ∧ error_kind r = Some AuthorizationError.
Proof.
  intros Hc Hv Hrole Hfield Hdata. unfold api_update_user.
  destruct (decide (user_id caller = target)) as [Hself|Hother].
  - destruct (verify_token_account _ _ _ _ Hv) as [a Ha]. rewrite Hself in Ha.
    destruct (filter (λ field, has_key data field = true) admin_fields)
      as [|field' rest] eqn:Hfilter.
    { assert (Hin : field ∈ filter (λ field, has_key data field = true) admin_fields).
      { apply list_elem_of_filter. split; [|done]. by apply bool_decide_eq_true_2. }
      rewrite Hfilter in Hin. by apply elem_of_nil in Hin. }
    exists (answer (JError ("Field " +:+ field' +:+
                            " can only be updated by an admin")) 403).
    split; [|done].
    apply serve_ok. rewrite (require_auth_accepts _ _ _ _ _ _ Hc Hv).
    unfold update_user. rewrite (bool_decide_eq_true_2 _ Hrole).
    rewrite (bool_decide_eq_false_2 (user_id caller ≠ target)) by (by intros ?).
    simpl. unfold mbind, Db_bind. rewrite (select_user_by_id_found _ _ _ Ha).
    by rewrite Hfilter.
  - exists (answer (JError "Access denied") 403). split; [|done].
    apply serve_ok. rewrite (require_auth_accepts _ _ _ _ _ _ Hc Hv).
    unfold update_user. rewrite (bool_decide_eq_true_2 _ Hrole).
    by rewrite (bool_decide_eq_true_2 _ Hother).
Qed.

Lemma update_admin_fields_denied_witness :
  ∃ r, api_update_user Sample.py Sample.quiet 0 (bearer "b2")
         {[ "role" := VStr "admin" ]} 2 Sample.db = (r, Sample.db)
       ∧ error_kind r = Some AuthorizationError.
Proof.
  apply (update_admin_fields_denied Sample.py Sample.quiet 0 (bearer "b2") "b2"
           {| user_id := 2; username := VStr "bob"; role := VStr "user" |}
           {[ "role" := VStr "admin" ]} "role" 2 Sample.db).
  - split; reflexivity.
  - reflexivity.
  - discriminate.
  - apply list_elem_of_here.
  - by eexists.
Defined.

(** *** The role column *)

Global Instance same_roles_preorder : PreOrder same_roles.
Proof.
  split; [by intros db|].
  intros d1 d2 d3 [H12 H12'] [H23 H23']. split; congruence.
Qed.

Definition plain_column (column : string) : Prop :=
  column ∈ ["email"; "is_active"; "password_hash"].

Lemma set_plain_column column v u u' :
  plain_column column → set_user_column column v u = Ok u' →
  (u_id u', u_role u') = (u_id u, u_role u).
Proof.
  unfold plain_column. rewrite !elem_of_cons, elem_of_nil.
  intros [->|[->|[->|[]]]]; by intros [= <-].
Qed.

Lemma assign_plain_columns updates u u' :
  Forall (λ cv, plain_column cv.1) updates →
  assign set_user_column updates u = Ok u' →
  (u_id u', u_role u') = (u_id u, u_role u).
Proof.
  intros Hall. revert u. induction Hall as [|[column v] rest Hc _ IH]; intros u; simpl.
  - by intros [= <-].
  - unfold mbind, result_bind.
    destruct (set_user_column column v u) as [u1|] eqn:Hset; [|done].
    intros Hrest. rewrite (IH _ Hrest). by eapply set_plain_column.
Qed.

Lemma bind_all_columns updates bound :
  bind_all updates = Ok bound → bound.*1 = updates.*1.
Proof.
  revert bound. induction updates as [|[column v] rest IH]; intros bound;
    cbn [bind_all].
  - by intros [= <-].
  - unfold mbind, result_bind. destruct (sql_bind v); [|done].
    destruct (bind_all rest) as [ps|]; [|done].
    intros [= <-]. rewrite !fmap_cons. simpl. f_equal. by apply IH.
Qed.

Lemma map_rows_keeps {R B} (proj : R → B) (f : R → result R) rows rows' :
  (∀ r r', f r = Ok r' → proj r' = proj r) →
  map_rows f rows = Ok rows' → proj <$> rows' = proj <$> rows.
Proof.
  intros Hf. revert rows'. induction rows as [|r rows IH]; intros rows';
    cbn [map_rows].
  - by intros [= <-].
  - unfold mbind, result_bind. destruct (f r) as [r1|] eqn:Hr; [|done].
    destruct (map_rows f rows) as [rs|]; [|done].
    intros [= <-]. rewrite !fmap_cons. f_equal; [by apply Hf|by apply IH].
Qed.

Lemma steps_update_users updates uid :
  Forall (λ cv, plain_column cv.1) updates →
  steps same_roles (update_users updates uid).
Proof.
  intros Hall db. unfold update_users.
  destruct (bind_all updates) as [bound|] eqn:Hbound; [|done].
  destruct (map_rows _ (users db)) as [us|] eqn:Hrows; [|done].
  simpl. unfold same_roles, roles. simpl. split; [|done].
  apply (map_rows_keeps (λ u, (u_id u, u_role u)) _ _ _) in Hrows; [done|].
  intros r r'. case_bool_decide; [|by intros [= <-]].
  apply assign_plain_columns.
  apply bind_all_columns in Hbound.
  assert (Hcols : Forall plain_column bound.*1).
  { rewrite Hbound. exact (proj2 (Forall_fmap fst plain_column updates) Hall). }
  exact (proj1 (Forall_fmap fst plain_column bound) Hcols).
Qed.

Lemma steps_update_resources updates uid :
  steps same_roles (update_resources updates uid).
Proof.
  intros db. unfold update_resources.
  destruct (bind_all updates); [|done].
  by destruct (map_rows _ _).
Qed.

Lemma user_updates_plain fields data :
  fields = updateable_fields ∨ fields = updateable_fields ++ admin_fields →
  Forall (λ cv, plain_column cv.1) (user_updates fields data).
Proof.
  intros Hfields. apply Forall_forall. intros [column v] Hin.
  apply list_elem_of_omap in Hin as (field & Hfield & Hsome).
  destruct (has_key data field); [|done]. simpl in Hsome.
  case_bool_decide as Hadm; [done|]. simpl in Hsome.
  destruct (data !! field); [|done]. injection Hsome as <- <-. simpl.
  unfold plain_column.
  assert (field ∈ updateable_fields) as Hup.
  { destruct Hfields as [->| ->]; [done|].
    apply elem_of_app in Hfield as [|]; done. }
  unfold updateable_fields in Hup.
  apply elem_of_cons in Hup as [->|Hup]; [apply list_elem_of_here|].
  apply list_elem_of_singleton in Hup as ->.
  apply list_elem_of_further, list_elem_of_here.
Qed.

Lemma steps_bind_lift (R : relation DB) `{!PreOrder R} {A B}
    (r : result A) (f : A → Db B) :
  (∀ a, r = Ok a → steps R (f a)) → steps R (lift r ≫= f).
Proof.
  intros Hf db. unfold mbind, Db_bind, lift.
  destruct r as [a|e]; [by apply Hf|reflexivity].
Qed.

Lemma update_user_same_roles py sys data target caller :
  steps same_roles (update_user py sys data target caller).
Proof.
  unfold update_user.
  destruct (_ && _); [apply steps_ret, _|].
  apply steps_bind; [apply _|apply steps_select_user_by_id, _|].
  intros [a|]; [|apply steps_ret, _].
  assert (Htail : ∀ fields,
    fields = updateable_fields ∨ fields = updateable_fields ++ admin_fields →
    steps same_roles
      (match inr fields : Response + list string with
       | inl denied => mret denied
       | inr fields =>
           let updates := user_updates fields data in
           password_update ←
             lift (if has_key data "password" then
                     password ← item data "password";
                     h ← generate_password_hash py password;
                     Ok [("password_hash", VStr h)]
                   else Ok []);
           let updates := updates ++ password_update in
           (if bool_decide (updates ≠ []) then update_users updates target
            else mret ());;
           (if bool_decide (role caller = VStr "admin") then
              let resource_updates := resource_updates data in
              if bool_decide (resource_updates ≠ []) then
                update_resources resource_updates target;;
                resource ← select_resource target;
                match resource with
                | Some resource =>
                    let username := u_username a in
                    mem_mb ← lift (quantity_to_mb (r_mem_limit resource));
                    disk_mb ← lift (quantity_to_mb (r_disk_quota resource));
                    let _ := apply_resource_limits py sys username
                               (r_cpu_limit resource) mem_mb disk_mb
                               (r_gpu_access resource) in
                    mret ()
                | None => mret ()
                end
              else mret ()
            else mret ());;
           mret (jsonify (JMessage "User updated successfully"))
       end)).
  { intros fields Hfields. cbv iota beta zeta.
    apply steps_bind_lift; [apply _|]. intros pw Hpw.
    assert (Hplain : Forall (λ cv, plain_column cv.1) (user_updates fields data ++ pw)).
    { apply Forall_app. split; [by apply user_updates_plain|].
      destruct (has_key data "password"); [|injection Hpw as <-; constructor].
      unfold mbind, result_bind in Hpw.
      destruct (item data "password"); [|done].
      destruct (generate_password_hash py a0); [|done].
      injection Hpw as <-. constructor; [|constructor].
      apply list_elem_of_further, list_elem_of_further, list_elem_of_here. }
    apply steps_bind; [apply _| |].
    { case_bool_decide; [by apply steps_update_users|apply steps_ret, _]. }
    intros _. apply steps_bind; [apply _| |intros; apply steps_ret, _].
    case_bool_decide; [|apply steps_ret, _].
    case_bool_decide; [|apply steps_ret, _].
    apply steps_bind; [apply _|apply steps_update_resources|]. intros _.
    apply steps_bind; [apply _|apply steps_select_resource, _|].
    intros [resource|]; [|apply steps_ret, _].
    apply steps_bind; [apply _|apply steps_lift, _|]. intros mem_mb.
    apply steps_bind; [apply _|apply steps_lift, _|]. intros disk_mb.
    apply steps_ret, _. }
  destruct (decide (role caller = VStr "admin")) as [Hadmin|Huser].
  - rewrite (bool_decide_eq_false_2 (role caller ≠ VStr "admin")) by (by intros ?).
    exact (Htail _ (or_intror eq_refl)).
  - rewrite (bool_decide_eq_true_2 (role caller ≠ VStr "admin")) by done.
    destruct (filter _ admin_fields); [|apply steps_ret, _].
    exact (Htail _ (or_introl eq_refl)).
Qed.

Lemma api_update_user_same_roles py sys now auth_header data target db :
  same_roles db (api_update_user py sys now auth_header data target db).2.
Proof.
  unfold api_update_user.
  apply (steps_serve same_roles), steps_require_auth; [apply _|].
  intros caller. apply update_user_same_roles.
Qed.

(** C10.  Whoever calls and whatever the body holds, a role value included,
    the update leaves the role of every account as it was. *)
Theorem update_user_keeps_roles (py : Builtins) (sys : Sys) (now : Z)
    (auth_header : option string) (data : gmap string Val) (target : Z) (db : DB) :
  roles (api_update_user py sys now auth_header data target db).2 = roles db.
Proof. apply (api_update_user_same_roles py sys now auth_header data target db). Qed.

(** An administrator asks for a new role: the answer is a success and the
    role is the old one. *)
Lemma update_user_role_ignored :
  let '(r, db') := api_update_user Sample.py Sample.quiet 0 (bearer "a1")
                     {[ "role" := VStr "admin" ]} 2 Sample.db in
  status r = 200 ∧ roles db' = [(1, VStr "admin"); (2, VStr "user"); (3, VStr "admin")].
Proof. by vm_compute. Qed.

(** ** Creating an account *)

Lemma has_key_Some (data : gmap string Val) key v :
  data !! key = Some v → has_key data key = true.
Proof. intros H. unfold has_key. rewrite H. by apply bool_decide_eq_true_2. Qed.

Lemma item_Some (data : gmap string Val) key v :
  data !! key = Some v → item data key = Ok v.
Proof. intros H. unfold item. by rewrite H. Qed.

Lemma sql_bind_stored v : bindable v = true → sql_bind v = Ok (stored v).
Proof. destruct v; try done. simpl. by intros ->. Qed.

(** Numbers are compared by value, whatever their storage classes: the
    integer 1 equals the real 1.0 and not the real 1.5, 0 equals both
    zeros, 2^53 + 1 does not equal the real 2^53, and no number equals a
    text.  A NaN is bound as NULL, and an integer beyond 64 bits is
    refused. *)
Lemma sql_numbers :
  sql_eq (VInt 1) (VFloat float_1_0) = true
  ∧ sql_eq (VFloat 4609434218613702656) (VInt 1) = false
  ∧ sql_eq (VInt 0) (VFloat (2 ^ 63)) = true
  ∧ sql_eq (VFloat 0) (VFloat (2 ^ 63)) = true
  ∧ sql_eq (VInt (2 ^ 53 + 1)) (VFloat 4845873199050653696) = false
  ∧ sql_eq (VStr "1") (VInt 1) = false
  ∧ sql_bind (VFloat 9221120237041090560) = Ok VNull
  ∧ sql_bind (VInt (2 ^ 63 - 1)) = Ok (VInt (2 ^ 63 - 1))
  ∧ sql_bind (VInt (2 ^ 63)) = Raise OverflowError.
Proof. by vm_compute. Qed.

Lemma sql_eq_refl v : v ≠ VNull → sql_eq v v = true.
Proof.
  destruct v; try done; intros _; simpl; try by apply bool_decide_eq_true_2.
  unfold float_eq. by rewrite bool_decide_eq_true_2.
Qed.

Lemma filter_nil_forall {A} (P : A → Prop) `{!∀ x, Decision (P x)} (l : list A) :
  filter P l = [] ↔ Forall (λ x, ¬ P x) l.
Proof.
  induction l as [|x l IH]; [done|]. rewrite filter_cons. destruct (decide (P x)).
  - split; [done|]. intros Hall. by apply Forall_cons_1 in Hall as [? _].
  - rewrite IH. split; [by constructor|]. intros Hall. by apply Forall_cons_1 in Hall as [_ ?].
Qed.

Lemma filter_all {A} (P : A → Prop) `{!∀ x, Decision (P x)} (l : list A) :
  Forall P l → filter P l = l.
Proof.
  induction 1 as [|x l Hx _ IH]; [done|].
  rewrite filter_cons. destruct (decide (P x)); [by rewrite IH|done].
Qed.

Lemma head_filter_None {A} (P : A → Prop) `{!∀ x, Decision (P x)} (l : list A) :
  head (filter P l) = None ↔ filter P l = [].
Proof. by destruct (filter P l). Qed.

Lemma filter_nil_filter {A} (P Q : A → Prop)
    `{!∀ x, Decision (P x)} `{!∀ x, Decision (Q x)} (l : list A) :
  filter P l = [] → filter P (filter Q l) = [].
Proof.
  rewrite !filter_nil_forall. intros Hall. apply Forall_forall. intros x Hx.
  apply list_elem_of_filter in Hx as [_ Hx].
  by apply (proj1 (Forall_forall _ _) Hall).
Qed.

Lemma filter_filter_out {A} (P : A → Prop) `{!∀ x, Decision (P x)} (l : list A) :
  filter P (filter (λ x, ¬ P x) l) = [].
Proof.
  apply filter_nil_forall, Forall_forall. intros x Hx.
  by apply list_elem_of_filter in Hx as [? _].
Qed.

(** The account row just inserted is the one a look up by name finds, when
    no account had the name. *)
Lemma select_after_insert username row db :
  bindable username = true →
  stored username ≠ VNull →
  u_username row = stored username →
  filter (λ u, sql_eq (u_username u) (stored username) = true) (users db) = [] →
  select_user_by_username username (set_users (λ us, us ++ [row]) db) =
    (Ok (Some row), set_users (λ us, us ++ [row]) db).
Proof.
  intros Hb Hnull Hname Hnone. unfold select_user_by_username.
  rewrite (sql_bind_stored _ Hb). f_equal. simpl.
  rewrite filter_app, Hnone, filter_cons. simpl.
  rewrite decide_True; [done|]. rewrite Hname. by apply sql_eq_refl.
Qed.

Lemma create_system_user_fails py sys uid username password email role
    cpu_limit mem_limit disk_quota gpu_access db :
  match provision py sys username password email role
          cpu_limit mem_limit disk_quota gpu_access with
  | Ok result => returncode result ≠ 0
  | Raise _ => True
  end →
  ∃ details,
    create_system_user py sys uid username password email role
      cpu_limit mem_limit disk_quota gpu_access db =
    (Ok (Some (answer (JErrorDetails "Failed to create system user" details) 500)),
     set_users (filter (λ a, u_id a ≠ uid))
       (set_resources (filter (λ q, r_user_id q ≠ uid)) db)).
Proof.
  intros Hfail. unfold create_system_user, try_except, mbind, Db_bind, lift.
  destruct (provision _ _ _ _ _ _ _ _ _ _) as [result|e].
  - rewrite bool_decide_eq_true_2 by done. simpl. by eexists.
  - simpl. by eexists.
Qed.

(** C4.  A creation request gets its account row and its quota row written
    (every field is a value that SQLite takes, the name is stored as a
    value that is not NULL, and the row id is one of SQLite's integers)
    and the provisioning then fails, by status or by an exception: both
    rows are deleted again, the answer is the error, and afterwards a look
    up finds no account of that name and no quota of the account. *)
Theorem create_user_rolls_back (py : Builtins) (sys : Sys) (new_id : Z)
    (data : gmap string Val) (caller : AuthUser) (username password : Val)
    (h : string) (db : DB) :
  data !! "username" = Some username →
  data !! "password" = Some password →
  bindable username = true →
  stored username ≠ VNull →
  Forall (λ v, bindable v = true) (creation_fields data) →
  sqlite_int new_id = true →
  generate_password_hash py password = Ok h →
  select_user_by_username username db = (Ok None, db) →
  provisioning_fails py sys data username password →
  ∃ r db',
    create_user py sys new_id data caller db = (Ok r, db')
    ∧ status r = 500
    ∧ (∃ details, payload r = JErrorDetails "Failed to create system user" details)
    ∧ select_user_by_username username db' = (Ok None, db')
    ∧ select_resource new_id db' = (Ok None, db')
    ∧ (Forall (λ a, u_id a ≠ new_id) (users db) →
       Forall (λ q, r_user_id q ≠ new_id) (resource_allocations db) →
       db' = db).
Proof.
  intros Hu Hp Hbu Hnull Hfields Hid Hhash Hfree Hfail.
  unfold creation_fields in Hfields.
  repeat (apply Forall_cons_1 in Hfields as [? Hfields]).
  assert (Hnone : filter (λ u, sql_eq (u_username u) (stored username) = true) (users db) = []).
  { unfold select_user_by_username in Hfree. rewrite (sql_bind_stored _ Hbu) in Hfree.
    injection Hfree as Hfree. by apply head_filter_None. }
  destruct (create_system_user_fails py sys new_id username password
              (get_or data "email" (VStr "")) (get_or data "role" (VStr "user"))
              (get_or data "cpu_limit" (VFloat float_1_0))
              (get_or data "mem_limit" (VStr "2G"))
              (get_or data "disk_quota" (VStr "5G"))
              (get_or data "gpu_access" (VBool false))
              (set_resources (λ rs, rs ++
                 [{| r_user_id := new_id;
                     r_cpu_limit := stored (get_or data "cpu_limit" (VFloat float_1_0));
                     r_mem_limit := stored (get_or data "mem_limit" (VStr "2G"));
                     r_disk_quota := stored (get_or data "disk_quota" (VStr "5G"));
                     r_gpu_access := stored (get_or data "gpu_access" (VBool false)) |}])
                 (set_users (λ us, us ++
                    [{| u_id := new_id; u_username := stored username;
                        u_password_hash := VStr h;
                        u_email := stored (get_or data "email" (VStr ""));
                        u_role := stored (get_or data "role" (VStr "user"));
                        u_is_active := stored (get_or data "is_active" (VBool true));
                        u_last_login := VNull |}]) db)) Hfail)
    as [details Hsys].
  eexists (answer (JErrorDetails "Failed to create system user" details) 500), _.
  split; [|split; [done|split; [by eexists|]]].
  - unfold create_user.
    rewrite (has_key_Some _ _ _ Hu), (has_key_Some _ _ _ Hp),
      (item_Some _ _ _ Hu), (item_Some _ _ _ Hp). simpl.
    unfold mbind at 1 2 3, Db_bind at 1 2 3, lift at 1 2. rewrite Hfree.
    rewrite bool_decide_eq_false_2 by (by intros [? ?]).
    unfold mbind at 1, Db_bind at 1, lift at 1. rewrite Hhash.
    unfold try_except at 1.
    unfold insert_user, insert_resource.
    rewrite !sql_bind_stored by done. unfold mbind, Db_bind, lift, execute.
    cbn -[create_system_user select_user_by_username set_users set_resources].
    rewrite select_after_insert by done.
    cbn -[create_system_user set_users set_resources].
    rewrite Hsys. done.
  - split; [|split].
    + unfold select_user_by_username. rewrite (sql_bind_stored _ Hbu). f_equal.
      simpl. rewrite !filter_app, filter_nil_filter by done.
      rewrite (filter_cons (λ a, u_id a ≠ new_id)). simpl.
      by rewrite decide_False by (by intros ?).
    + rewrite (select_resource_int _ _ Hid). f_equal. simpl.
      by rewrite filter_filter_out.
    + intros Husers Hquotas. destruct db as [us ss rs ls]. simpl in *.
      unfold set_users, set_resources. simpl. f_equal.
      * rewrite filter_app, (filter_all _ _ Husers), filter_cons. simpl.
        rewrite decide_False by (by intros ?). simpl. apply app_nil_r.
      * rewrite filter_app, (filter_all _ _ Hquotas), filter_cons. simpl.
        rewrite decide_False by (by intros ?). simpl. apply app_nil_r.
Qed.

Lemma create_user_rolls_back_witness :
  ∃ r db',
    create_user Sample.py Sample.failing 4 {[ "username" := VStr "dave";
                                             "password" := VStr "pw" ]}
      {| user_id := 1; username := VStr "admin"; role := VStr "admin" |} Sample.db
      = (Ok r, db')
    ∧ status r = 500
    ∧ select_user_by_username (VStr "dave") db' = (Ok None, db')
    ∧ select_resource 4 db' = (Ok None, db')
    ∧ db' = Sample.db.
Proof.
  destruct (create_user_rolls_back Sample.py Sample.failing 4
              {[ "username" := VStr "dave"; "password" := VStr "pw" ]}
              {| user_id := 1; username := VStr "admin"; role := VStr "admin" |}
              (VStr "dave") (VStr "pw") "sha256:pw" Sample.db)
    as (r & db' & Hrun & Hstatus & _ & Huser & Hquota & Hsame).
  - reflexivity.
  - reflexivity.
  - reflexivity.
  - discriminate.
  - apply (bool_decide_unpack _). by vm_compute.
  - reflexivity.
  - reflexivity.
  - reflexivity.
  - unfold provisioning_fails. vm_compute. discriminate.
  - exists r, db'. repeat split; [exact Hrun|exact Hstatus|exact Huser|exact Hquota|].
    apply Hsame; apply (bool_decide_unpack _); by vm_compute.
Defined.

(** ** Login *)

Lemma login_unknown_account py token now now' remote_addr data username password db :
  data !! "username" = Some username → truthy username = true →
  data !! "password" = Some password → truthy password = true →
  select_user_by_username username db = (Ok None, db) →
  login py token now now' remote_addr data db =
    (Ok (answer (JError "Invalid username or password") 401), db).
Proof.
  intros Hu Htu Hp Htp Hnone. unfold login, get_or. rewrite Hu, Hp, Htu, Htp. simpl.
  rewrite (item_Some _ _ _ Hu), (item_Some _ _ _ Hp).
  unfold authenticate_user, mbind, Db_bind, lift. by rewrite Hnone.
Qed.

Lemma login_wrong_password py token now now' remote_addr data username password a db :
  data !! "username" = Some username → truthy username = true →
  data !! "password" = Some (VStr password) → password ≠ "" →
  select_user_by_username username db = (Ok (Some a), db) →
  VStr (sha256_hexdigest py password) ≠ u_password_hash a →
  login py token now now' remote_addr data db =
    (Ok (answer (JError "Invalid username or password") 401), db).
Proof.
  intros Hu Htu Hp Htp Hsome Hwrong. unfold login, get_or. rewrite Hu, Hp, Htu. simpl.
  rewrite (bool_decide_eq_false_2 (password = "")) by done. simpl.
  rewrite (item_Some _ _ _ Hu), (item_Some _ _ _ Hp).
  unfold authenticate_user, mbind, Db_bind, lift. rewrite Hsome. simpl.
  by rewrite (bool_decide_eq_false_2 _ Hwrong).
Qed.

(** With passwords that are strings, the two failures of a login are
    answered alike and neither writes to the database. *)
Lemma login_failures_alike py token now now' remote_addr
    data1 username1 password1 data2 username2 password2 a db :
  data1 !! "username" = Some username1 → truthy username1 = true →
  data1 !! "password" = Some (VStr password1) → password1 ≠ "" →
  select_user_by_username username1 db = (Ok None, db) →
  data2 !! "username" = Some username2 → truthy username2 = true →
  data2 !! "password" = Some (VStr password2) → password2 ≠ "" →
  select_user_by_username username2 db = (Ok (Some a), db) →
  VStr (sha256_hexdigest py password2) ≠ u_password_hash a →
  api_login py token now now' remote_addr data1 db
  = api_login py token now now' remote_addr data2 db
  ∧ api_login py token now now' remote_addr data1 db
    = (answer (JError "Invalid username or password") 401, db).
Proof.
  intros Hu1 Ht1 Hp1 Hn1 Hnone Hu2 Ht2 Hp2 Hn2 Hsome Hwrong. unfold api_login.
  rewrite (serve_ok _ _ _ _
             (login_unknown_account py token now now' remote_addr data1 username1
                (VStr password1) db Hu1 Ht1 Hp1
                ltac:(simpl; by rewrite bool_decide_eq_false_2) Hnone)).
  by rewrite (serve_ok _ _ _ _
                (login_wrong_password py token now now' remote_addr data2 username2
                   password2 a db Hu2 Ht2 Hp2 Hn2 Hsome Hwrong)).
Qed.

(** C8 (the code at a failing input).  The same body, with a password that
    is the number 5, is answered 401 for a name without an account and 500
    for the name of an account: [password.encode()] is reached only when
    the account exists.  The caller can tell the two causes apart. *)
Lemma login_tells_accounts_apart :
  select_user_by_username (VStr "nobody") Sample.db = (Ok None, Sample.db)
  ∧ api_login Sample.py "t" 0 0 (VStr "10.0.0.9")
      {[ "username" := VStr "nobody"; "password" := VInt 5 ]} Sample.db
    = (answer (JError "Invalid username or password") 401, Sample.db)
  ∧ select_user_by_username (VStr "bob") Sample.db = (Ok (Some Sample.bob), Sample.db)
  ∧ verify_password Sample.py (VInt 5) (u_password_hash Sample.bob)
    = Raise AttributeError
  ∧ api_login Sample.py "t" 0 0 (VStr "10.0.0.9")
      {[ "username" := VStr "bob"; "password" := VInt 5 ]} Sample.db
    = (answer JInternal 500, Sample.db).
Proof. by vm_compute. Qed.

(** ** Resource usage *)




(** ** Sessions refer to accounts, in every state the service reaches *)

Definition ids (db : DB) : list Z := u_id <$> users db.

Lemma sessions_have_accounts_ids db :
  sessions_have_accounts db ↔ ∀ s, s ∈ sessions db → s_user_id s ∈ ids db.
Proof.
  unfold sessions_have_accounts, ids. rewrite Forall_forall.
  split; intros H s Hs; specialize (H s Hs).
  - apply Exists_exists in H as (a & Ha & <-). by apply list_elem_of_fmap_2.
  - apply list_elem_of_fmap in H as (a & Hid & Ha). apply Exists_exists. by exists a.
Qed.

(** The sessions that remain are old ones, and the accounts they refer to
    remain. *)
Lemma sessions_have_accounts_transfer db db' :
  sessions_have_accounts db →
  (∀ s, s ∈ sessions db' →
        s ∈ sessions db ∧ (s_user_id s ∈ ids db → s_user_id s ∈ ids db')) →
  sessions_have_accounts db'.
Proof.
  rewrite !sessions_have_accounts_ids. intros Hwf Hstep s Hs.
  destruct (Hstep s Hs) as [Hold Hid]. auto.
Qed.

Lemma same_roles_ids db db' : same_roles db db' → ids db' = ids db.
Proof.
  intros [Hroles _]. unfold roles, ids in *.
  assert (H : fst <$> ((λ u, (u_id u, u_role u)) <$> users db')
              = fst <$> ((λ u, (u_id u, u_role u)) <$> users db)) by by rewrite Hroles.
  by rewrite <- !list_fmap_compose in H.
Qed.

Lemma same_roles_keeps db db' :
  same_roles db db' → sessions_have_accounts db → sessions_have_accounts db'.
Proof.
  intros Hsame Hwf. apply (sessions_have_accounts_transfer db); [done|].
  pose proof Hsame as [Hroles Hsessions]. intros s Hs.
  rewrite Hsessions in Hs. split; [done|].
  by rewrite (same_roles_ids db db').
Qed.

Lemma login_keeps py token now now' remote_addr data db :
  sessions_have_accounts db →
  sessions_have_accounts (api_login py token now now' remote_addr data db).2.
Proof.
  intros Hwf. unfold api_login, serve, login.
  destruct (_ || _); [done|].
  unfold mbind, Db_bind, lift.
  destruct (item data "username") as [username|]; [|done].
  destruct (item data "password") as [password|]; [|done].
  unfold authenticate_user, mbind, Db_bind, lift, select_user_by_username.
  destruct (sql_bind username) as [p|]; [|done].
  destruct (head _) as [a|] eqn:Ha; [|done].
  destruct (verify_password py password (u_password_hash a)) as [[|]|]; [|done|done].
  unfold insert_session, mbind, Db_bind, lift, execute.
  destruct (sql_bind remote_addr) as [ip|]; [|done]. simpl.
  apply head_Some_elem_of, list_elem_of_filter in Ha as [_ Ha].
  apply sessions_have_accounts_ids. intros s Hs. simpl in Hs.
  assert (Hids : ∀ i, i ∈ ids db →
            i ∈ ids (set_users (fmap (λ u,
                   if bool_decide (u_id u = u_id a)
                   then {| u_id := u_id u; u_username := u_username u;
                           u_password_hash := u_password_hash u; u_email := u_email u;
                           u_role := u_role u; u_is_active := u_is_active u;
                           u_last_login := VTime now' |}
                   else u))
                 (set_sessions (λ ss, ss ++
                    [{| s_user_id := u_id a; s_session_token := token;
                        s_expires_at := now + TOKEN_EXPIRY_DAYS * microseconds_per_day;
                        s_ip_address := ip |}]) db))).
  { intros i Hi. unfold ids in *. simpl. rewrite <- list_fmap_compose.
    apply list_elem_of_fmap in Hi as (u & -> & Hu).
    apply list_elem_of_fmap. exists u. split; [|done]. simpl. by case_bool_decide. }
  apply elem_of_app in Hs as [Hs|Hs].
  - apply Hids. by apply sessions_have_accounts_ids.
  - apply list_elem_of_singleton in Hs as ->. simpl. apply Hids.
    by apply list_elem_of_fmap_2.
Qed.

Lemma logout_keeps now auth_header db :
  sessions_have_accounts db → sessions_have_accounts (api_logout now auth_header db).2.
Proof.
  intros Hwf. unfold api_logout.
  apply (steps_serve (λ db db', sessions_have_accounts db → sessions_have_accounts db'));
    [|done].
  apply steps_require_auth.
  { split; [by intros ?|]. intros d1 d2 d3 H12 H23 H1. auto. }
  intros caller d Hd. unfold logout, mbind, Db_bind, lift.
  destruct (match auth_header with Some h => header_token h | None => _ end); [|done].
  simpl. apply (sessions_have_accounts_transfer d); [done|].
  intros s Hs. simpl in Hs. by apply list_elem_of_filter in Hs as [_ Hs].
Qed.

Lemma update_keeps py sys now auth_header data target db :
  sessions_have_accounts db →
  sessions_have_accounts (api_update_user py sys now auth_header data target db).2.
Proof. apply same_roles_keeps, api_update_user_same_roles. Qed.

(** Where [delete_user] leaves the database. *)
Lemma delete_user_db sys target caller db :
  (delete_user sys target caller db).2 = db
  ∨ (delete_user sys target caller db).2 =
      set_users (filter (λ u, u_id u ≠ target))
        (set_log (filter (λ l, l_user_id l ≠ target))
           (set_sessions (filter (λ s, s_user_id s ≠ target))
              (set_resources (filter (λ r, r_user_id r ≠ target)) db))).
Proof.
  unfold delete_user, mbind, Db_bind.
  destruct (select_user_by_id_cases target db) as [-> |[-> _]]; [|by left].
  destruct (head _) as [a|]; [|by left].
  case_bool_decide; [by left|]. case_bool_decide; [by left|]. right. simpl.
  unfold try_except, lift, mbind, Db_bind.
  destruct (subprocess_run sys _) as [result|e]; simpl; [|done].
  by case_bool_decide.
Qed.

Lemma delete_keeps sys now auth_header target db :
  sessions_have_accounts db →
  sessions_have_accounts (api_delete_user sys now auth_header target db).2.
Proof.
  intros Hwf. unfold api_delete_user.
  apply (steps_serve (λ db db', sessions_have_accounts db → sessions_have_accounts db'));
    [|done].
  assert (Hpre : PreOrder (λ db db', sessions_have_accounts db → sessions_have_accounts db')).
  { split; [by intros ?|]. intros d1 d2 d3 H12 H23 H1. auto. }
  apply steps_require_auth; [done|]. intros caller.
  apply steps_require_admin; [done|]. clear caller. intros caller d Hd.
  destruct (delete_user_db sys target caller d) as [-> | ->]; [done|].
  apply (sessions_have_accounts_transfer d); [done|].
  intros s Hs. simpl in Hs. apply list_elem_of_filter in Hs as [Hne Hs].
  split; [done|]. unfold ids. simpl. intros Hid.
  apply list_elem_of_fmap in Hid as (a & Hid & Ha).
  apply list_elem_of_fmap. exists a. split; [done|].
  apply list_elem_of_filter. split; [congruence|done].
Qed.

Lemma usage_keeps py sys now auth_header target db :
  (api_get_resource_usage py sys now auth_header target db).2 = db.
Proof.
  unfold api_get_resource_usage.
  apply (steps_serve (λ db db', db' = db)), steps_require_auth.
  { split; [by intros ?|]. intros d1 d2 d3 H12 H23. congruence. }
  intros caller d. unfold get_resource_usage.
  destruct (_ && _); [done|].
  unfold mbind, Db_bind.
  destruct (select_user_by_id_cases target d) as [-> |[-> _]]; [|done].
  destruct (head _) as [a|]; [|done].
  unfold try_except, mbind, Db_bind, lift.
  destruct (cpu_usage_of _ _ _); [|done].
  destruct (mem_usage_of _ _ _); [|done].
  by destruct (disk_usage_of _ _ _).
Qed.

(** The sessions are the same and no account id is lost. *)
Definition extends (db db' : DB) : Prop :=
  sessions db' = sessions db ∧ ∀ i, i ∈ ids db → i ∈ ids db'.

Lemma extends_refl db : extends db db.
Proof. by split. Qed.

Lemma extends_keeps db db' :
  extends db db' → sessions_have_accounts db → sessions_have_accounts db'.
Proof.
  intros [Hs Hids] Hwf. apply (sessions_have_accounts_transfer db); [done|].
  intros s. rewrite Hs. auto.
Qed.

Lemma ids_grow (us : list UserRow) row i :
  i ∈ u_id <$> us → i ∈ u_id <$> (us ++ [row]).
Proof. rewrite fmap_app, elem_of_app. by left. Qed.

Lemma ids_grow_shrink (us : list UserRow) row new_id i :
  Forall (λ a, u_id a ≠ new_id) us →
  i ∈ u_id <$> us → i ∈ u_id <$> filter (λ a, u_id a ≠ new_id) (us ++ [row]).
Proof.
  intros Hfresh Hi. rewrite filter_app, (filter_all _ _ Hfresh), fmap_app, elem_of_app.
  by left.
Qed.

Lemma create_system_user_db py sys uid username password email role
    cpu_limit mem_limit disk_quota gpu_access db :
  (create_system_user py sys uid username password email role
     cpu_limit mem_limit disk_quota gpu_access db).2 = db
  ∨ (create_system_user py sys uid username password email role
       cpu_limit mem_limit disk_quota gpu_access db).2 =
      set_users (filter (λ a, u_id a ≠ uid))
        (set_resources (filter (λ q, r_user_id q ≠ uid)) db).
Proof.
  unfold create_system_user, try_except, mbind, Db_bind, lift.
  destruct (provision _ _ _ _ _ _ _ _ _ _) as [result|e]; [|by right].
  case_bool_decide; [by right|by left].
Qed.

Lemma create_user_extends py sys new_id data caller db :
  Forall (λ a, u_id a ≠ new_id) (users db) →
  extends db (create_user py sys new_id data caller db).2.
Proof.
  intros Hfresh. unfold create_user.
  destruct (negb (has_key data "username")); [apply extends_refl|].
  destruct (negb (has_key data "password")); [apply extends_refl|].
  unfold mbind at 1 2 3, Db_bind at 1 2 3, lift at 1 2.
  destruct (item data "username") as [username|]; [|apply extends_refl].
  destruct (item data "password") as [password|]; [|apply extends_refl].
  unfold select_user_by_username at 1.
  destruct (sql_bind username) as [p|] eqn:Hbind; [|apply extends_refl].
  destruct (head _) as [existing|] eqn:Hnone;
    [rewrite bool_decide_eq_true_2 by (by eexists); apply extends_refl|].
  rewrite bool_decide_eq_false_2 by (by intros [? ?]).
  apply head_filter_None in Hnone.
  unfold mbind at 1, Db_bind at 1, lift at 1.
  destruct (generate_password_hash py password) as [h|]; [|apply extends_refl].
  unfold try_except, insert_user, mbind, Db_bind, lift, execute.
  rewrite Hbind. simpl (sql_bind (VStr h)). cbv iota beta.
  destruct (sql_bind (get_or data "email" (VStr ""))) as [email|]; [|apply extends_refl].
  destruct (sql_bind (get_or data "role" (VStr "user"))) as [role|]; [|apply extends_refl].
  destruct (sql_bind (get_or data "is_active" (VBool true))) as [is_active|];
    [|apply extends_refl].
  unfold select_user_by_username. rewrite Hbind.
  cbn [users set_users]. rewrite filter_app, Hnone, filter_cons. cbn [u_username].
  assert (Hgrown : ∀ row rs,
            extends db {| users := users db ++ [row]; sessions := sessions db;
                          resource_allocations := rs;
                          activity_log := activity_log db |}).
  { intros row rs. split; [done|]. intros i. apply ids_grow. }
  destruct (decide (sql_eq p p = true)); [|apply Hgrown].
  cbn [app head u_id filter list_filter].
  unfold insert_resource, mbind, Db_bind, lift, execute.
  destruct (sql_bind (get_or data "cpu_limit" _)) as [cpu|]; [|apply Hgrown].
  destruct (sql_bind (get_or data "mem_limit" _)) as [mem|]; [|apply Hgrown].
  destruct (sql_bind (get_or data "disk_quota" _)) as [disk|]; [|apply Hgrown].
  destruct (sql_bind (get_or data "gpu_access" _)) as [gpu|]; [|apply Hgrown].
  match goal with
  | |- context [create_system_user py sys new_id ?u ?pw ?e ?r ?c ?m ?d ?g ?db2] =>
      pose proof (create_system_user_db py sys new_id u pw e r c m d g db2) as Hsys;
      destruct (create_system_user py sys new_id u pw e r c m d g db2)
        as [[early|err] db3]
  end; simpl in Hsys.
  - destruct early as [r|]; simpl; destruct Hsys as [-> | ->];
      try apply Hgrown; (split; [done|]; intros i; by apply ids_grow_shrink).
  - simpl. destruct Hsys as [-> | ->];
      try apply Hgrown; (split; [done|]; intros i; by apply ids_grow_shrink).
Qed.

Lemma create_keeps py sys now auth_header new_id data db :
  Forall (λ a, u_id a ≠ new_id) (users db) →
  sessions_have_accounts db →
  sessions_have_accounts (api_create_user py sys now auth_header new_id data db).2.
Proof.
  intros Hfresh Hwf. unfold api_create_user, serve.
  destruct (require_auth_cases now auth_header
              (require_admin (create_user py sys new_id data)) db)
    as [(r & _ & ->)|[(e & ->)|(token & caller & _ & _ & ->)]]; [done..|].
  unfold require_admin. case_bool_decide; [done|].
  pose proof (create_user_extends py sys new_id data caller db Hfresh) as Hext.
  destruct (create_user py sys new_id data caller db) as [[r|e] db'];
    by apply (extends_keeps db).
Qed.

(** Every state the service reaches from a state in which the sessions
    refer to accounts is such a state. *)
Lemma reachable_sessions_have_accounts py db0 db :
  sessions_have_accounts db0 → reachable py db0 db → sessions_have_accounts db.
Proof.
  intros Hstart Hreach. induction Hreach as [|db sys q _ IH Hfresh]; [done|].
  destruct q; simpl in *.
  - by apply login_keeps.
  - by apply logout_keeps.
  - by apply create_keeps.
  - by apply update_keeps.
  - by apply delete_keeps.
  - by rewrite usage_keeps.
Qed.

(** * Further properties *)

(** ** Login and the sessions it makes *)





Lemma logged_in_ids token expires_at ip now' uid db :
  ids (logged_in token expires_at ip now' uid db) = ids db.
Proof.
  unfold ids, logged_in. simpl. rewrite <- list_fmap_compose.
  apply list_fmap_ext. intros i u _. simpl. by case_bool_decide.
Qed.



(** Where a login leaves the database: as it was, with an answer that is
    no success, or with the session of an account of the table. *)
Lemma login_outcome py token now now' remote_addr data db :
  (∃ r, status r ≠ 200 ∧ api_login py token now now' remote_addr data db = (r, db))
  ∨ (∃ r a ip, status r = 200 ∧ a ∈ users db
       ∧ api_login py token now now' remote_addr data db =
           (r, logged_in token (now + TOKEN_EXPIRY_DAYS * microseconds_per_day)
                 ip now' (u_id a) db)).
Proof.
  unfold api_login, serve, login.
  destruct (negb (truthy (get_or data "username" VNull))
            || negb (truthy (get_or data "password" VNull)));
    [left; eexists; split; [|reflexivity]; done|].
  unfold mbind, Db_bind, lift.
  destruct (item data "username") as [username|];
    [|left; eexists; split; [|reflexivity]; done].
  destruct (item data "password") as [password|];
    [|left; eexists; split; [|reflexivity]; done].
  unfold authenticate_user, mbind, Db_bind, lift, select_user_by_username.
  destruct (sql_bind username) as [p|];
    [|left; eexists; split; [|reflexivity]; done].
  destruct (head _) as [a|] eqn:Ha;
    [|left; eexists; split; [|reflexivity]; done].
  destruct (verify_password py password (u_password_hash a)) as [[|]|];
    [|left; eexists; split; [|reflexivity]; done..].
  unfold insert_session, mbind, Db_bind, lift, execute.
  destruct (sql_bind remote_addr) as [ip|];
    [|left; eexists; split; [|reflexivity]; done].
  right. eexists _, a, ip. split; [|split]; [| |reflexivity]; [done|].
  apply head_Some_elem_of in Ha. by apply list_elem_of_filter in Ha as [_ ?].
Qed.

(** X2.  A login that is not answered with a success writes nothing. *)
Theorem login_failure_writes_nothing (py : Builtins) (token : string) (now now' : Z)
    (remote_addr : Val) (data : gmap string Val) (db : DB) :
  status (api_login py token now now' remote_addr data db).1 ≠ 200 →
  (api_login py token now now' remote_addr data db).2 = db.
Proof.
  intros Hstatus.
  destruct (login_outcome py token now now' remote_addr data db)
    as [(r & _ & Hrun)|(r & a & ip & Hok & _ & Hrun)]; rewrite Hrun in *; [done|].
  by destruct Hstatus.
Qed.

Lemma login_failure_writes_nothing_witness :
  (api_login Sample.py "d4" 5000 5001 (VStr "10.0.0.9")
     {[ "username" := VStr "bob"; "password" := VStr "guess" ]} Sample.db).2
  = Sample.db.
Proof.
  apply (login_failure_writes_nothing Sample.py "d4" 5000 5001 (VStr "10.0.0.9")
           {[ "username" := VStr "bob"; "password" := VStr "guess" ]} Sample.db).
  vm_compute. discriminate.
Defined.

(** The rows of the join that [verify_token] reads, for one session. *)
Lemma joined_accounts_logged_in (s : SessionRow) now' uid (us : list UserRow) :
  (u ← filter (λ u, u_id u = s_user_id s)
         ((λ u, if bool_decide (u_id u = uid)
                then {| u_id := u_id u; u_username := u_username u;
                        u_password_hash := u_password_hash u; u_email := u_email u;
                        u_role := u_role u; u_is_active := u_is_active u;
                        u_last_login := VTime now' |}
                else u) <$> us);
   [ {| user_id := s_user_id s; username := u_username u; role := u_role u |} ])
  = (u ← filter (λ u, u_id u = s_user_id s) us;
     [ {| user_id := s_user_id s; username := u_username u; role := u_role u |} ]).
Proof.
  induction us as [|u us IH]; [done|]. rewrite fmap_cons, !filter_cons.
  assert (Hid : u_id (if bool_decide (u_id u = uid)
                      then {| u_id := u_id u; u_username := u_username u;
                              u_password_hash := u_password_hash u;
                              u_email := u_email u; u_role := u_role u;
                              u_is_active := u_is_active u;
                              u_last_login := VTime now' |}
                      else u) = u_id u) by by case_bool_decide.
  rewrite Hid. destruct (decide (u_id u = s_user_id s)); [|done].
  rewrite !bind_cons, IH. by case_bool_decide.
Qed.

(** X3.  A login ends no session: a token that verified before the login of
    somebody verifies afterwards, at the same moment and as the same
    account. *)
Theorem login_keeps_sessions (py : Builtins) (token : string) (now now' : Z)
    (remote_addr : Val) (data : gmap string Val) (token' : string) (t : Z)
    (u : AuthUser) (db : DB) :
  verify_token token' t db = (Ok (Some u), db) →
  (verify_token token' t (api_login py token now now' remote_addr data db).2).1
  = Ok (Some u).
Proof.
  intros Hv.
  destruct (login_outcome py token now now' remote_addr data db)
    as [(r & _ & ->)|(r & a & ip & _ & _ & ->)];
    [change (r, db).2 with db; by rewrite Hv|].
  unfold verify_token in *. simpl. injection Hv as Hv. f_equal.
  rewrite (list_bind_ext _ _ _ _
             (λ s, joined_accounts_logged_in s now' (u_id a) (users db)) eq_refl).
  rewrite filter_app, bind_app. apply head_app_Some. by left.
Qed.

Lemma login_keeps_sessions_witness :
  (verify_token "a1" 10
     (api_login Sample.py "d4" 5000 5001 (VStr "10.0.0.9")
        {[ "username" := VStr "bob"; "password" := VStr "bob-secret" ]}
        Sample.db).2).1
  = Ok (Some {| user_id := 1; username := VStr "admin"; role := VStr "admin" |}).
Proof.
  apply (login_keeps_sessions Sample.py "d4" 5000 5001 (VStr "10.0.0.9")
           {[ "username" := VStr "bob"; "password" := VStr "bob-secret" ]}
           "a1" 10 _ Sample.db).
  reflexivity.
Defined.

(** ** Logout *)

(** A logout that is answered with a success has run its DELETE. *)
Lemma logout_success_db now auth_header token db :
  carries auth_header token →
  status (api_logout now auth_header db).1 = 200 →
  (api_logout now auth_header db).2 =
    set_sessions (filter (λ s, s_session_token s ≠ token)) db.
Proof.
  intros Hc. unfold api_logout, serve.
  destruct (require_auth_cases now auth_header (logout auth_header) db)
    as [(r & Hr & ->)|[(e & ->)|(token' & caller & Hc' & _ & ->)]].
  - simpl. rewrite Hr. done.
  - done.
  - by rewrite (logout_run _ _ caller db Hc).
Qed.

(** X4.  After a logout that succeeded the token verifies at no moment, the
    tokens of other sessions verify as before, and no account row has
    changed. *)
Theorem logout_revokes (now : Z) (auth_header : option string)
    (token token' : string) (t t' : Z) (db : DB) :
  carries auth_header token →
  status (api_logout now auth_header db).1 = 200 →
  token' ≠ token →
  verify_token token t (api_logout now auth_header db).2
  = (Ok None, (api_logout now auth_header db).2)
  ∧ (verify_token token' t' (api_logout now auth_header db).2).1
    = (verify_token token' t' db).1
  ∧ users (api_logout now auth_header db).2 = users db.
Proof.
  intros Hc Hok Hne. rewrite (logout_success_db now auth_header token db Hc Hok).
  split; [|split; [|done]].
  - apply verify_token_dead. intros Hlive.
    apply Exists_exists in Hlive as (s & Hs & Htok & _). simpl in Hs.
    by apply list_elem_of_filter in Hs as [? _].
  - unfold verify_token. simpl. do 2 f_equal.
    rewrite list_filter_filter. f_equal. apply list_filter_iff.
    intros s. split; [by intros [? _]|]. intros [Htok Hexp].
    split; [done|]. congruence.
Qed.

Lemma logout_revokes_witness :
  verify_token "b2" 5 (api_logout 999 (bearer "b2") Sample.db).2
  = (Ok None, (api_logout 999 (bearer "b2") Sample.db).2)
  ∧ (verify_token "a1" 7 (api_logout 999 (bearer "b2") Sample.db).2).1
    = (verify_token "a1" 7 Sample.db).1
  ∧ users (api_logout 999 (bearer "b2") Sample.db).2 = users Sample.db.
Proof.
  apply (logout_revokes 999 (bearer "b2") "b2" "a1" 5 7 Sample.db).
  - split; reflexivity.
  - reflexivity.
  - discriminate.
Defined.

(** ** The gates in front of the routes *)

Lemma require_auth_reply_rejects {A} now auth_header token
    (g : AuthUser → Db (Reply A)) db :
  carries auth_header token →
  verify_token token now db = (Ok None, db) →
  require_auth_reply now auth_header g db =
    (Ok (inl (answer (JError "Invalid or expired token") 401)), db).
Proof.
  destruct auth_header as [h|]; [|done]. intros [Hb Ht] Hv.
  unfold require_auth_reply. rewrite Hb. simpl.
  unfold mbind, Db_bind, lift. rewrite Ht, Hv. done.
Qed.

(** X5.  Whatever view function stands behind [require_auth], a request
    whose token has no session that is still valid is answered 401, the
    view function is not run and nothing is written.  So it is on each of
    the ten routes that the module puts behind [require_auth]: the five
    that write, the four that read, and the activity log, whose view
    function is left as a parameter. *)
Theorem dead_token_writes_nothing (py : Builtins) (sys : Sys) (now : Z)
    (auth_header : option string) (token : string) (db : DB) :
  carries auth_header token →
  ¬ live_session db token now →
  (∀ f : AuthUser → Db Response,
     serve (require_auth now auth_header f) db
     = (answer (JError "Invalid or expired token") 401, db))
  ∧ (∀ (A : Type) (g : AuthUser → Db (Reply A)),
       serve_reply (require_auth_reply now auth_header g) db
       = (inl (answer (JError "Invalid or expired token") 401), db))
  ∧ (∀ q, request_gate q = Some (now, auth_header) →
          handle py sys q db = (answer (JError "Invalid or expired token") 401, db))
  ∧ (∀ target,
       api_list_users now auth_header db
       = (inl (answer (JError "Invalid or expired token") 401), db)
       ∧ api_get_user now auth_header target db
         = (inl (answer (JError "Invalid or expired token") 401), db)
       ∧ api_get_resources now auth_header target db
         = (inl (answer (JError "Invalid or expired token") 401), db)
       ∧ api_get_system_resources py sys now auth_header db
         = (inl (answer (JError "Invalid or expired token") 401), db))
  ∧ (∀ (A : Type) (get_activity_logs : AuthUser → Db (Reply A)),
       api_get_activity_logs get_activity_logs now auth_header db
       = (inl (answer (JError "Invalid or expired token") 401), db)).
Proof.
  intros Hc Hdead. apply verify_token_dead in Hdead.
  assert (Hserve : ∀ f : AuthUser → Db Response,
            serve (require_auth now auth_header f) db
            = (answer (JError "Invalid or expired token") 401, db)).
  { intros f. apply serve_ok. by eapply require_auth_rejects. }
  assert (Hreply : ∀ (A : Type) (g : AuthUser → Db (Reply A)),
            serve_reply (require_auth_reply now auth_header g) db
            = (inl (answer (JError "Invalid or expired token") 401), db)).
  { intros A g. unfold serve_reply.
    by rewrite (require_auth_reply_rejects now auth_header token g db Hc Hdead). }
  split; [done|]. split; [done|]. split; [|split].
  - intros q Hq. destruct q; simpl in Hq; try done; injection Hq as -> ->; apply Hserve.
  - intros target. repeat split; apply Hreply.
  - intros A logs. apply Hreply.
Qed.

Lemma dead_token_writes_nothing_witness :
  handle Sample.py Sample.quiet (DeleteUser 1000 (bearer "a1") 2) Sample.db
  = (answer (JError "Invalid or expired token") 401, Sample.db)
  ∧ api_list_users 1000 (bearer "a1") Sample.db
    = (inl (answer (JError "Invalid or expired token") 401), Sample.db).
Proof.
  destruct (dead_token_writes_nothing Sample.py Sample.quiet 1000 (bearer "a1") "a1"
              Sample.db) as (_ & _ & Hwrite & Hread & _).
  - split; reflexivity.
  - apply (bool_decide_unpack _). by vm_compute.
  - split; [by apply Hwrite|]. by destruct (Hread 0) as [? _].
Defined.

(** X6.  Creating and deleting accounts is for administrators: a caller
    with any other role is answered 403 by both routes, whatever the body
    and the target, and nothing is written. *)
Theorem admin_only_routes (py : Builtins) (sys : Sys) (now : Z)
    (auth_header : option string) (token : string) (caller : AuthUser)
    (new_id target : Z) (data : gmap string Val) (db : DB) :
  carries auth_header token →
  verify_token token now db = (Ok (Some caller), db) →
  role caller ≠ VStr "admin" →
  api_create_user py sys now auth_header new_id data db
  = (answer (JError "Admin privileges required") 403, db)
  ∧ api_delete_user sys now auth_header target db
    = (answer (JError "Admin privileges required") 403, db).
Proof.
  intros Hc Hv Hrole. unfold api_create_user, api_delete_user.
  split; apply serve_ok; rewrite (require_auth_accepts _ _ _ _ _ _ Hc Hv);
    by apply require_admin_denies.
Qed.

Lemma admin_only_routes_witness :
  api_create_user Sample.py Sample.quiet 0 (bearer "b2") 4
    {[ "username" := VStr "eve"; "password" := VStr "pw" ]} Sample.db
  = (answer (JError "Admin privileges required") 403, Sample.db)
  ∧ api_delete_user Sample.quiet 0 (bearer "b2") 3 Sample.db
    = (answer (JError "Admin privileges required") 403, Sample.db).
Proof.
  apply (admin_only_routes Sample.py Sample.quiet 0 (bearer "b2") "b2"
           {| user_id := 2; username := VStr "bob"; role := VStr "user" |}).
  - split; reflexivity.
  - reflexivity.
  - discriminate.
Defined.

(** ** Creating an account, when it goes well and when it half does *)

Lemma create_system_user_succeeds py sys uid username password email role
    cpu_limit mem_limit disk_quota gpu_access db :
  match provision py sys username password email role
          cpu_limit mem_limit disk_quota gpu_access with
  | Ok result => returncode result = 0
  | Raise _ => False
  end →
  create_system_user py sys uid username password email role
    cpu_limit mem_limit disk_quota gpu_access db = (Ok None, db).
Proof.
  intros Hok. unfold create_system_user, try_except, mbind, Db_bind, lift.
  destruct (provision _ _ _ _ _ _ _ _ _ _) as [result|e]; [|done].
  by rewrite bool_decide_eq_false_2 by (by intros ?).
Qed.

(** The account row is written, whatever comes after. *)
Lemma create_user_account_written py sys new_id data caller username password h db :
  data !! "username" = Some username →
  data !! "password" = Some password →
  stored username ≠ VNull →
  bindable username = true →
  Forall (λ v, bindable v = true) (account_fields data) →
  generate_password_hash py password = Ok h →
  select_user_by_username username db = (Ok None, db) →
  create_user py sys new_id data caller db =
    try_except
      (insert_resource new_id (get_or data "cpu_limit" (VFloat float_1_0))
         (get_or data "mem_limit" (VStr "2G")) (get_or data "disk_quota" (VStr "5G"))
         (get_or data "gpu_access" (VBool false));;
       early ← create_system_user py sys new_id username password
                 (get_or data "email" (VStr "")) (get_or data "role" (VStr "user"))
                 (get_or data "cpu_limit" (VFloat float_1_0))
                 (get_or data "mem_limit" (VStr "2G"))
                 (get_or data "disk_quota" (VStr "5G"))
                 (get_or data "gpu_access" (VBool false));
       match early with
       | Some r => mret r
       | None => mret (answer (JCreated "User created successfully" new_id) 201)
       end)
      (λ e, mret (answer (JErrorDetails "Failed to create user" (DExn e)) 500))
      (set_users (λ us, us ++ [new_account new_id username h data]) db).
Proof.
  intros Hu Hp Hnull Hbu Hfields Hhash Hfree.
  unfold account_fields in Hfields.
  repeat (apply Forall_cons_1 in Hfields as [? Hfields]).
  assert (Hnone : filter (λ u, sql_eq (u_username u) (stored username) = true) (users db) = []).
  { unfold select_user_by_username in Hfree. rewrite (sql_bind_stored _ Hbu) in Hfree.
    injection Hfree as Hfree. by apply head_filter_None. }
  unfold create_user.
  rewrite (has_key_Some _ _ _ Hu), (has_key_Some _ _ _ Hp),
    (item_Some _ _ _ Hu), (item_Some _ _ _ Hp). simpl.
  unfold mbind at 1 2 3, Db_bind at 1 2 3, lift at 1 2. rewrite Hfree.
  rewrite bool_decide_eq_false_2 by (by intros [? ?]).
  unfold mbind at 1, Db_bind at 1, lift at 1. rewrite Hhash.
  unfold try_except, insert_user. rewrite !sql_bind_stored by done.
  unfold mbind, Db_bind, lift, execute.
  cbn -[create_system_user select_user_by_username set_users insert_resource].
  fold (new_account new_id username h data).
  rewrite select_after_insert by done.
  done.
Qed.

Lemma create_user_run py sys new_id data caller username password h db :
  data !! "username" = Some username →
  data !! "password" = Some password →
  stored username ≠ VNull →
  bindable username = true →
  Forall (λ v, bindable v = true) (creation_fields data) →
  generate_password_hash py password = Ok h →
  select_user_by_username username db = (Ok None, db) →
  provisioning_succeeds py sys data username password →
  create_user py sys new_id data caller db =
    (Ok (answer (JCreated "User created successfully" new_id) 201),
     with_account new_id username h data db).
Proof.
  intros Hu Hp Hnull Hbu Hfields Hhash Hfree Hok.
  unfold creation_fields in Hfields.
  repeat (apply Forall_cons_1 in Hfields as [? Hfields]).
  rewrite (create_user_account_written py sys new_id data caller username password h db)
    by (try done; unfold account_fields; by repeat constructor).
  unfold try_except, insert_resource, mbind, Db_bind, lift, execute.
  rewrite !sql_bind_stored by done.
  cbn -[create_system_user set_users set_resources].
  fold (new_quota new_id data).
  rewrite (create_system_user_succeeds py sys new_id _ _ _ _ _ _ _ _ _ Hok). done.
Qed.

Lemma select_user_in_with_account username new_id h data db :
  bindable username = true →
  stored username ≠ VNull →
  select_user_by_username username db = (Ok None, db) →
  select_user_by_username username (with_account new_id username h data db) =
    (Ok (Some (new_account new_id username h data)),
     with_account new_id username h data db).
Proof.
  intros Hb Hnull Hfree. unfold select_user_by_username in *.
  rewrite (sql_bind_stored _ Hb) in *. injection Hfree as Hfree.
  apply head_filter_None in Hfree. f_equal. simpl.
  rewrite filter_app, Hfree, filter_cons. simpl.
  rewrite decide_True; [done|]. by apply sql_eq_refl.
Qed.

(** X7.  A creation request whose provisioning succeeds is answered 201
    with the row id; the account is then found under its name with the
    role, address and state of the request, its quota is the one of the
    request with 1.0 core, "2G", "5G" and no accelerator for what the
    request leaves out, and all rows that were there are still there. *)
Theorem create_user_stores_account (py : Builtins) (sys : Sys) (new_id : Z)
    (data : gmap string Val) (caller : AuthUser) (username password : Val)
    (h : string) (db : DB) :
  data !! "username" = Some username →
  data !! "password" = Some password →
  stored username ≠ VNull →
  bindable username = true →
  Forall (λ v, bindable v = true) (creation_fields data) →
  generate_password_hash py password = Ok h →
  select_user_by_username username db = (Ok None, db) →
  provisioning_succeeds py sys data username password →
  Forall (λ q, r_user_id q ≠ new_id) (resource_allocations db) →
  ∃ db',
    create_user py sys new_id data caller db =
      (Ok (answer (JCreated "User created successfully" new_id) 201), db')
    ∧ select_user_by_username username db' =
        (Ok (Some (new_account new_id username h data)), db')
    ∧ select_resource new_id db' = (Ok (Some (new_quota new_id data)), db')
    ∧ users db' = users db ++ [new_account new_id username h data]
    ∧ resource_allocations db' = resource_allocations db ++ [new_quota new_id data]
    ∧ sessions db' = sessions db
    ∧ activity_log db' = activity_log db.
Proof.
  intros Hu Hp Hnull Hbu Hfields Hhash Hfree Hok Hquota.
  exists (with_account new_id username h data db).
  split; [by apply (create_user_run py sys new_id data caller username password h db)|].
  split; [by apply select_user_in_with_account|].
  split; [|done].
  apply select_resource_found.
  cbn [with_account set_resources set_users resource_allocations].
  rewrite filter_app, filter_cons. cbn [new_quota r_user_id].
  rewrite decide_True by done.
  by rewrite (proj2 (filter_nil_forall (λ q, r_user_id q = new_id) _) Hquota).
Qed.

Lemma create_user_stores_account_witness :
  ∃ db',
    create_user Sample.py Sample.quiet 4
      {[ "username" := VStr "dave"; "password" := VStr "pw" ]}
      {| user_id := 1; username := VStr "admin"; role := VStr "admin" |} Sample.db
    = (Ok (answer (JCreated "User created successfully" 4) 201), db')
    ∧ select_resource 4 db' =
        (Ok (Some {| r_user_id := 4; r_cpu_limit := VFloat float_1_0;
                     r_mem_limit := VStr "2G"; r_disk_quota := VStr "5G";
                     r_gpu_access := VInt 0 |}), db').
Proof.
  destruct (create_user_stores_account Sample.py Sample.quiet 4
              {[ "username" := VStr "dave"; "password" := VStr "pw" ]}
              {| user_id := 1; username := VStr "admin"; role := VStr "admin" |}
              (VStr "dave") (VStr "pw") "sha256:pw" Sample.db)
    as (db' & Hrun & _ & Hquota & _).
  - reflexivity.
  - reflexivity.
  - discriminate.
  - reflexivity.
  - apply (bool_decide_unpack _). by vm_compute.
  - reflexivity.
  - reflexivity.
  - unfold provisioning_succeeds. by vm_compute.
  - apply (bool_decide_unpack _). by vm_compute.
  - exists db'. split; [exact Hrun|exact Hquota].
Defined.



(** X9.  The name of an account is taken: after a creation that succeeded,
    every further creation request with that name is answered 409 and
    writes nothing. *)
Theorem create_twice_conflicts (py : Builtins) (sys sys' : Sys) (new_id new_id' : Z)
    (data data' : gmap string Val) (caller caller' : AuthUser)
    (username password : Val) (h : string) (db : DB) :
  data !! "username" = Some username →
  data !! "password" = Some password →
  stored username ≠ VNull →
  bindable username = true →
  Forall (λ v, bindable v = true) (creation_fields data) →
  generate_password_hash py password = Ok h →
  select_user_by_username username db = (Ok None, db) →
  provisioning_succeeds py sys data username password →
  data' !! "username" = Some username →
  is_Some (data' !! "password") →
  create_user py sys' new_id' data' caller'
    (create_user py sys new_id data caller db).2
  = (Ok (answer (JError "Username already exists") 409),
     (create_user py sys new_id data caller db).2).
Proof.
  intros Hu Hp Hnull Hbu Hfields Hhash Hfree Hok Hu' [password' Hp'].
  rewrite (create_user_run py sys new_id data caller username password h db) by done.
  cbn [snd]. unfold create_user.
  rewrite (has_key_Some _ _ _ Hu'), (has_key_Some _ _ _ Hp'),
    (item_Some _ _ _ Hu'), (item_Some _ _ _ Hp'). simpl.
  unfold mbind at 1 2 3, Db_bind at 1 2 3, lift at 1 2.
  rewrite (select_user_in_with_account username new_id h data db) by done.
  by rewrite bool_decide_eq_true_2 by (by eexists).
Qed.

Lemma create_twice_conflicts_witness :
  create_user Sample.py Sample.quiet 5
    {[ "username" := VStr "dave"; "password" := VStr "other" ]}
    {| user_id := 3; username := VStr "carol"; role := VStr "admin" |}
    (create_user Sample.py Sample.quiet 4
       {[ "username" := VStr "dave"; "password" := VStr "pw" ]}
       {| user_id := 1; username := VStr "admin"; role := VStr "admin" |}
       Sample.db).2
  = (Ok (answer (JError "Username already exists") 409),
     (create_user Sample.py Sample.quiet 4
        {[ "username" := VStr "dave"; "password" := VStr "pw" ]}
        {| user_id := 1; username := VStr "admin"; role := VStr "admin" |}
        Sample.db).2).
Proof.
  apply (create_twice_conflicts Sample.py Sample.quiet Sample.quiet 4 5
           {[ "username" := VStr "dave"; "password" := VStr "pw" ]}
           {[ "username" := VStr "dave"; "password" := VStr "other" ]}
           _ _ (VStr "dave") (VStr "pw") "sha256:pw" Sample.db);
    try reflexivity; try discriminate; try (by eexists);
    apply (bool_decide_unpack _); by vm_compute.
Defined.

Lemma sql_bind_unbindable v :
  bindable v = false → ∃ e, sql_bind v = Raise e ∧ binding_error e.
Proof.
  destruct v; try done; cbn [bindable sql_bind].
  - intros ->. exists OverflowError. split; [done|by right].
  - intros _. exists SqliteError. split; [done|by left].
Qed.

Lemma insert_resource_unbindable uid cpu_limit mem_limit disk_quota gpu_access db :
  ¬ Forall (λ v, bindable v = true) [cpu_limit; mem_limit; disk_quota; gpu_access] →
  ∃ e, insert_resource uid cpu_limit mem_limit disk_quota gpu_access db = (Raise e, db)
       ∧ binding_error e.
Proof.
  intros Hnot. unfold insert_resource, mbind, Db_bind, lift.
  destruct (bindable cpu_limit) eqn:H1;
    [rewrite (sql_bind_stored _ H1)
    |destruct (sql_bind_unbindable _ H1) as (e & -> & He); by exists e].
  destruct (bindable mem_limit) eqn:H2;
    [rewrite (sql_bind_stored _ H2)
    |destruct (sql_bind_unbindable _ H2) as (e & -> & He); by exists e].
  destruct (bindable disk_quota) eqn:H3;
    [rewrite (sql_bind_stored _ H3)
    |destruct (sql_bind_unbindable _ H3) as (e & -> & He); by exists e].
  destruct (bindable gpu_access) eqn:H4;
    [|destruct (sql_bind_unbindable _ H4) as (e & -> & He); by exists e].
  destruct Hnot. by repeat constructor.
Qed.

(** X10.  A creation request whose account fields SQLite takes and with a
    quota field that it refuses, a JSON array or object or an integer
    beyond 64 bits, gets its account row written and is then answered 500
    with the refusal as details: the account stays in the table, without a
    quota row. *)
Theorem create_user_leaves_account_without_quota (py : Builtins) (sys : Sys)
    (new_id : Z) (data : gmap string Val) (caller : AuthUser)
    (username password : Val) (h : string) (db : DB) :
  data !! "username" = Some username →
  data !! "password" = Some password →
  stored username ≠ VNull →
  bindable username = true →
  Forall (λ v, bindable v = true) (account_fields data) →
  generate_password_hash py password = Ok h →
  select_user_by_username username db = (Ok None, db) →
  ¬ Forall (λ v, bindable v = true) (quota_fields data) →
  ∃ e db',
    create_user py sys new_id data caller db =
      (Ok (answer (JErrorDetails "Failed to create user" (DExn e)) 500), db')
    ∧ binding_error e
    ∧ users db' = users db ++ [new_account new_id username h data]
    ∧ resource_allocations db' = resource_allocations db.
Proof.
  intros Hu Hp Hnull Hbu Hfields Hhash Hfree Hquota.
  rewrite (create_user_account_written py sys new_id data caller username password h db)
    by done.
  unfold try_except, mbind at 1, Db_bind at 1.
  destruct (insert_resource_unbindable new_id
              (get_or data "cpu_limit" (VFloat float_1_0))
              (get_or data "mem_limit" (VStr "2G"))
              (get_or data "disk_quota" (VStr "5G"))
              (get_or data "gpu_access" (VBool false))
              (set_users (λ us, us ++ [new_account new_id username h data]) db) Hquota)
    as (e & -> & He).
  by exists e, (set_users (λ us, us ++ [new_account new_id username h data]) db).
Qed.

Lemma create_user_leaves_account_without_quota_witness :
  ∃ e db',
    create_user Sample.py Sample.quiet 4
      {[ "username" := VStr "dave"; "password" := VStr "pw";
         "gpu_access" := VInt (2 ^ 63) ]}
      {| user_id := 1; username := VStr "admin"; role := VStr "admin" |} Sample.db
    = (Ok (answer (JErrorDetails "Failed to create user" (DExn e)) 500), db')
    ∧ binding_error e
    ∧ users db' = users Sample.db
                  ++ [new_account 4 (VStr "dave") "sha256:pw"
                        {[ "username" := VStr "dave"; "password" := VStr "pw";
                           "gpu_access" := VInt (2 ^ 63) ]}]
    ∧ resource_allocations db' = resource_allocations Sample.db.
Proof.
  apply (create_user_leaves_account_without_quota Sample.py Sample.quiet 4
           {[ "username" := VStr "dave"; "password" := VStr "pw";
              "gpu_access" := VInt (2 ^ 63) ]}
           {| user_id := 1; username := VStr "admin"; role := VStr "admin" |}
           (VStr "dave") (VStr "pw") "sha256:pw" Sample.db);
    try reflexivity; try discriminate;
    apply (bool_decide_unpack _); by vm_compute.
Defined.

(** ** Deleting an account, when the guards let it through *)

Lemma filter_filter_implied {A} (P Q : A → Prop)
    `{!∀ x, Decision (P x)} `{!∀ x, Decision (Q x)} (l : list A) :
  (∀ x, P x → Q x) → filter P (filter Q l) = filter P l.
Proof.
  intros HPQ. rewrite list_filter_filter. apply list_filter_iff.
  intros x. split; [by intros [? _]|]. intros HP. split; [done|by apply HPQ].
Qed.

Lemma delete_user_run sys now auth_header token caller target a db :
  carries auth_header token →
  verify_token token now db = (Ok (Some caller), db) →
  role caller = VStr "admin" →
  head (filter (λ u, u_id u = target) (users db)) = Some a →
  u_username a ≠ VStr "admin" →
  user_id caller ≠ target →
  ∃ r, api_delete_user sys now auth_header target db = (r, without_account target db)
       ∧ (removal_succeeds sys a → r = jsonify (JMessage "User deleted successfully"))
       ∧ (¬ removal_succeeds sys a → status r = 500).
Proof.
  intros Hc Hv Hadmin Ha Hroot Hself. unfold api_delete_user, removal_succeeds.
  unfold serve. rewrite (require_auth_accepts _ _ _ _ _ _ Hc Hv).
  rewrite require_admin_passes by done.
  unfold delete_user, mbind, Db_bind. rewrite (select_user_by_id_found _ _ _ Ha).
  rewrite bool_decide_eq_false_2 by done.
  rewrite bool_decide_eq_false_2 by done. simpl.
  unfold try_except, lift, mbind, Db_bind.
  destruct (subprocess_run sys _) as [result|e]; simpl.
  - case_bool_decide; simpl; eexists; (split; [reflexivity|]); by split.
  - eexists; (split; [reflexivity|]); by split.
Qed.

(** X11.  A deletion that passes the guards removes the account, its
    quota, its sessions and its log entries, whether the removal of the
    system account succeeds or not, and the answer is a success exactly
    when that removal succeeds; the rows of every other account are as
    they were. *)
Theorem delete_user_cascades (sys : Sys) (now : Z) (auth_header : option string)
    (token : string) (caller : AuthUser) (target other : Z) (a : UserRow) (db : DB) :
  carries auth_header token →
  verify_token token now db = (Ok (Some caller), db) →
  role caller = VStr "admin" →
  head (filter (λ u, u_id u = target) (users db)) = Some a →
  u_username a ≠ VStr "admin" →
  user_id caller ≠ target →
  other ≠ target →
  account_rows target (api_delete_user sys now auth_header target db).2
  = ([], [], [], [])
  ∧ account_rows other (api_delete_user sys now auth_header target db).2
    = account_rows other db
  ∧ (status (api_delete_user sys now auth_header target db).1 = 200
     ↔ removal_succeeds sys a).
Proof.
  intros Hc Hv Hadmin Ha Hroot Hself Hother.
  destruct (delete_user_run sys now auth_header token caller target a db)
    as (r & -> & Hgood & Hbad); [done..|].
  cbn [fst snd]. split; [|split].
  - unfold account_rows, without_account. simpl.
    by rewrite !(filter_filter_out (λ _, _ = target)).
  - unfold account_rows, without_account. simpl.
    by rewrite !filter_filter_implied by (intros ? -> ?; by destruct Hother).
  - split.
    + intros Hok. destruct (decide (removal_succeeds sys a)); [done|].
      rewrite Hbad in Hok; done.
    + intros Hok. by rewrite (Hgood Hok).
Qed.

Lemma delete_user_cascades_witness :
  account_rows 2 (api_delete_user Sample.quiet 0 (bearer "a1") 2 Sample.db).2
  = ([], [], [], [])
  ∧ account_rows 3 (api_delete_user Sample.quiet 0 (bearer "a1") 2 Sample.db).2
    = account_rows 3 Sample.db
  ∧ (status (api_delete_user Sample.quiet 0 (bearer "a1") 2 Sample.db).1 = 200
     ↔ removal_succeeds Sample.quiet Sample.bob).
Proof.
  apply (delete_user_cascades Sample.quiet 0 (bearer "a1") "a1"
           {| user_id := 1; username := VStr "admin"; role := VStr "admin" |}
           2 3 Sample.bob Sample.db); try reflexivity; try discriminate.
  split; reflexivity.
Defined.

(** X12.  The tokens of a deleted account verify no more, at any moment. *)
Theorem delete_user_ends_sessions (sys : Sys) (now : Z) (auth_header : option string)
    (token : string) (caller : AuthUser) (target : Z) (a : UserRow)
    (token' : string) (t : Z) (db : DB) :
  carries auth_header token →
  verify_token token now db = (Ok (Some caller), db) →
  role caller = VStr "admin" →
  head (filter (λ u, u_id u = target) (users db)) = Some a →
  u_username a ≠ VStr "admin" →
  user_id caller ≠ target →
  Forall (λ s, s_session_token s = token' → s_user_id s = target) (sessions db) →
  (verify_token token' t (api_delete_user sys now auth_header target db).2).1
  = Ok None.
Proof.
  intros Hc Hv Hadmin Ha Hroot Hself Hown.
  destruct (delete_user_run sys now auth_header token caller target a db)
    as (r & -> & _); [done..|].
  cbn [snd]. rewrite verify_token_dead; [done|].
  intros Hlive. apply Exists_exists in Hlive as (s & Hs & Htok & _).
  simpl in Hs. apply list_elem_of_filter in Hs as [Hne Hs].
  by apply Hne, (proj1 (Forall_forall _ _) Hown s Hs).
Qed.

Lemma delete_user_ends_sessions_witness :
  (verify_token "b2" 5 (api_delete_user Sample.failing 0 (bearer "a1") 2 Sample.db).2).1
  = Ok None.
Proof.
  apply (delete_user_ends_sessions Sample.failing 0 (bearer "a1") "a1"
           {| user_id := 1; username := VStr "admin"; role := VStr "admin" |}
           2 Sample.bob "b2" 5 Sample.db); try reflexivity; try discriminate.
  - split; reflexivity.
  - apply (bool_decide_unpack _). by vm_compute.
Defined.

(** ** Updating an account: what changes and what does not *)

Global Instance update_frame_preorder target : PreOrder (update_frame target).
Proof.
  split; [by intros db|].
  intros d1 d2 d3 (A1 & A2 & A3 & A4 & A5 & A6) (B1 & B2 & B3 & B4 & B5 & B6).
  repeat split; congruence.
Qed.

Lemma set_plain_column_identity column v u u' :
  plain_column column → set_user_column column v u = Ok u' →
  identity u' = identity u.
Proof.
  unfold plain_column. rewrite !elem_of_cons, elem_of_nil.
  intros [->|[->|[->|[]]]]; by intros [= <-].
Qed.

Lemma assign_plain_identity updates u u' :
  Forall (λ cv, plain_column cv.1) updates →
  assign set_user_column updates u = Ok u' →
  identity u' = identity u.
Proof.
  intros Hall. revert u. induction Hall as [|[column v] rest Hc _ IH]; intros u; simpl.
  - by intros [= <-].
  - unfold mbind, result_bind.
    destruct (set_user_column column v u) as [u1|] eqn:Hset; [|done].
    intros Hrest. rewrite (IH _ Hrest). by eapply set_plain_column_identity.
Qed.

Lemma set_resource_column_owner column v r r' :
  set_resource_column column v r = Ok r' → r_user_id r' = r_user_id r.
Proof.
  unfold set_resource_column. repeat case_bool_decide; by intros [= <-].
Qed.

Lemma assign_resource_owner updates r r' :
  assign set_resource_column updates r = Ok r' → r_user_id r' = r_user_id r.
Proof.
  revert r. induction updates as [|[column v] rest IH]; intros r; simpl.
  - by intros [= <-].
  - unfold mbind, result_bind.
    destruct (set_resource_column column v r) as [r1|] eqn:Hset; [|done].
    intros Hrest. rewrite (IH _ Hrest). by eapply set_resource_column_owner.
Qed.

Lemma frame_update_users updates target :
  Forall (λ cv, plain_column cv.1) updates →
  steps (update_frame target) (update_users updates target).
Proof.
  intros Hall db. unfold update_users.
  destruct (bind_all updates) as [bound|] eqn:Hbound; [|done].
  destruct (map_rows _ (users db)) as [us|] eqn:Hrows; [|done].
  assert (Hplain : Forall (λ cv, plain_column cv.1) bound).
  { apply bind_all_columns in Hbound.
    assert (Hcols : Forall plain_column bound.*1).
    { rewrite Hbound. exact (proj2 (Forall_fmap fst plain_column updates) Hall). }
    exact (proj1 (Forall_fmap fst plain_column bound) Hcols). }
  simpl. unfold update_frame. simpl. split; [|split; [|done]].
  - apply (map_rows_keeps identity _ _ _) in Hrows; [done|].
    intros r r'. case_bool_decide; [|by intros [= <-]].
    by apply assign_plain_identity.
  - unfold others.
    apply (map_rows_keeps (λ r, if bool_decide (u_id r = target) then None else Some r)
             _ _ _) in Hrows; [done|].
    intros r r'. destruct (decide (u_id r = target)) as [Hid|Hid].
    + rewrite !(bool_decide_eq_true_2 _ Hid).
      intros Hassign. apply assign_plain_identity in Hassign; [|done].
      injection Hassign as Hid' _ _ _. by rewrite bool_decide_eq_true_2 by congruence.
    + rewrite !(bool_decide_eq_false_2 _ Hid). intros [= <-].
      by rewrite (bool_decide_eq_false_2 _ Hid).
Qed.

Lemma frame_update_resources updates target :
  steps (update_frame target) (update_resources updates target).
Proof.
  intros db. unfold update_resources.
  destruct (bind_all updates) as [bound|]; [|done].
  destruct (map_rows _ (resource_allocations db)) as [rs|] eqn:Hrows; [|done].
  simpl. unfold update_frame. simpl. split; [done|]. split; [done|].
  split; [|split; [|done]].
  - apply (map_rows_keeps r_user_id _ _ _) in Hrows; [done|].
    intros r r'. case_bool_decide; [|by intros [= <-]].
    apply assign_resource_owner.
  - unfold others.
    apply (map_rows_keeps (λ r, if bool_decide (r_user_id r = target) then None else Some r)
             _ _ _) in Hrows; [done|].
    intros r r'. destruct (decide (r_user_id r = target)) as [Hid|Hid].
    + rewrite !(bool_decide_eq_true_2 _ Hid).
      intros Hassign. apply assign_resource_owner in Hassign.
      by rewrite bool_decide_eq_true_2 by congruence.
    + rewrite !(bool_decide_eq_false_2 _ Hid). intros [= <-].
      by rewrite (bool_decide_eq_false_2 _ Hid).
Qed.

(** [update_user] does to the database what its two UPDATE statements do. *)
Lemma update_user_steps (R : relation DB) `{!PreOrder R} py sys data target caller :
  (∀ updates, Forall (λ cv, plain_column cv.1) updates →
              steps R (update_users updates target)) →
  (∀ updates, steps R (update_resources updates target)) →
  steps R (update_user py sys data target caller).
Proof.
  intros Husers Hresources. unfold update_user.
  destruct (bool_decide (role caller ≠ VStr "admin")
            && bool_decide (user_id caller ≠ target)); [by apply steps_ret|].
  apply steps_bind; [done|by apply steps_select_user_by_id|].
  intros [a|]; [|by apply steps_ret].
  assert (Htail : ∀ fields,
    fields = updateable_fields ∨ fields = updateable_fields ++ admin_fields →
    steps R
      (match inr fields : Response + list string with
       | inl denied => mret denied
       | inr fields =>
           let updates := user_updates fields data in
           password_update ←
             lift (if has_key data "password" then
                     password ← item data "password";
                     h ← generate_password_hash py password;
                     Ok [("password_hash", VStr h)]
                   else Ok []);
           let updates := updates ++ password_update in
           (if bool_decide (updates ≠ []) then update_users updates target
            else mret ());;
           (if bool_decide (role caller = VStr "admin") then
              let resource_updates := resource_updates data in
              if bool_decide (resource_updates ≠ []) then
                update_resources resource_updates target;;
                resource ← select_resource target;
                match resource with
                | Some resource =>
                    let username := u_username a in
                    mem_mb ← lift (quantity_to_mb (r_mem_limit resource));
                    disk_mb ← lift (quantity_to_mb (r_disk_quota resource));
                    let _ := apply_resource_limits py sys username
                               (r_cpu_limit resource) mem_mb disk_mb
                               (r_gpu_access resource) in
                    mret ()
                | None => mret ()
                end
              else mret ()
            else mret ());;
           mret (jsonify (JMessage "User updated successfully"))
       end)).
  { intros fields Hfields. cbv iota beta zeta.
    apply steps_bind_lift; [done|]. intros pw Hpw.
    assert (Hplain : Forall (λ cv, plain_column cv.1) (user_updates fields data ++ pw)).
    { apply Forall_app. split; [by apply user_updates_plain|].
      destruct (has_key data "password"); [|injection Hpw as <-; constructor].
      unfold mbind, result_bind in Hpw.
      destruct (item data "password") as [password|]; [|done].
      destruct (generate_password_hash py password); [|done].
      injection Hpw as <-. constructor; [|constructor].
      apply list_elem_of_further, list_elem_of_further, list_elem_of_here. }
    apply steps_bind; [done| |].
    { case_bool_decide; [by apply Husers|by apply steps_ret]. }
    intros _. apply steps_bind; [done| |intros; by apply steps_ret].
    destruct (bool_decide (role caller = VStr "admin")); [|by apply steps_ret].
    destruct (bool_decide (resource_updates data ≠ [])); [|by apply steps_ret].
    apply steps_bind; [done|apply Hresources|]. intros _.
    apply steps_bind; [done|by apply steps_select_resource|].
    intros [resource|]; [|by apply steps_ret].
    apply steps_bind; [done|by apply steps_lift|]. intros mem_mb.
    apply steps_bind; [done|by apply steps_lift|]. intros disk_mb.
    by apply steps_ret. }
  destruct (decide (role caller = VStr "admin")) as [Hadmin|Huser].
  - rewrite (bool_decide_eq_false_2 (role caller ≠ VStr "admin")) by (by intros ?).
    exact (Htail _ (or_intror eq_refl)).
  - rewrite (bool_decide_eq_true_2 (role caller ≠ VStr "admin")) by done.
    destruct (filter _ admin_fields); [|by apply steps_ret].
    exact (Htail _ (or_introl eq_refl)).
Qed.

Lemma others_filter {R} (key : R → Z) target other (rows rows' : list R) :
  other ≠ target →
  others key target rows' = others key target rows →
  filter (λ r, key r = other) rows' = filter (λ r, key r = other) rows.
Proof.
  intros Hother. unfold others. revert rows'.
  induction rows as [|r rows IH]; intros [|r' rows']; try done.
  rewrite !fmap_cons. intros [= Hhead Htail]. rewrite !filter_cons, (IH _ Htail).
  repeat case_bool_decide; try done.
  - rewrite !decide_False by congruence. done.
  - by injection Hhead as ->.
Qed.

(** X13.  An update, whoever asks and whatever the body and the answer,
    changes no id, name, role or login time of any account, no session and
    no log entry, and leaves the account and quota rows of every account
    but the target as they were. *)
Theorem update_user_frame (py : Builtins) (sys : Sys) (now : Z)
    (auth_header : option string) (data : gmap string Val) (target other : Z)
    (db : DB) :
  other ≠ target →
  identity <$> users (api_update_user py sys now auth_header data target db).2
  = identity <$> users db
  ∧ account_rows other (api_update_user py sys now auth_header data target db).2
    = account_rows other db
  ∧ sessions (api_update_user py sys now auth_header data target db).2 = sessions db
  ∧ activity_log (api_update_user py sys now auth_header data target db).2
    = activity_log db.
Proof.
  intros Hother.
  assert (Hframe : update_frame target db
                     (api_update_user py sys now auth_header data target db).2).
  { unfold api_update_user.
    apply (steps_serve (update_frame target)), steps_require_auth; [apply _|].
    intros caller. apply update_user_steps; [apply _| |].
    - intros updates. apply frame_update_users.
    - intros updates. apply frame_update_resources. }
  destruct Hframe as (Hid & Husers & _ & Hquotas & Hsessions & Hlog).
  split; [done|]. split; [|done].
  unfold account_rows. rewrite Hsessions, Hlog.
  by rewrite (others_filter u_id target other _ _ Hother Husers),
    (others_filter r_user_id target other _ _ Hother Hquotas).
Qed.

Lemma update_user_frame_witness :
  account_rows 3 (api_update_user Sample.py Sample.failing 0 (bearer "a1")
                    {[ "email" := VStr "b@example.org"; "mem_limit" := VStr "2X" ]}
                    2 Sample.db).2
  = account_rows 3 Sample.db.
Proof.
  apply (update_user_frame Sample.py Sample.failing 0 (bearer "a1")
           {[ "email" := VStr "b@example.org"; "mem_limit" := VStr "2X" ]}
           2 3 Sample.db).
  discriminate.
Defined.

Lemma has_key_None (data : gmap string Val) key :
  data !! key = None → has_key data key = false.
Proof. intros H. unfold has_key. rewrite H. apply bool_decide_eq_false_2. by intros [? ?]. Qed.

Lemma map_rows_total {R} (f : R → result R) (g : R → R) rows :
  (∀ r, f r = Ok (g r)) → map_rows f rows = Ok (g <$> rows).
Proof.
  intros Hf. induction rows as [|r rows IH]; [done|].
  cbn [map_rows]. unfold mbind, result_bind. by rewrite Hf, IH.
Qed.

(** The SET list that a body without admin-only fields gives. *)
Lemma user_updates_own data :
  user_updates updateable_fields data =
    match data !! "email" with Some e => [("email", e)] | None => [] end
    ++ match data !! "is_active" with Some v => [("is_active", v)] | None => [] end.
Proof.
  unfold user_updates, updateable_fields. cbn [omap list_omap].
  assert (He : bool_decide ("email" ∈ admin_fields) = false) by by vm_compute.
  assert (Ha : bool_decide ("is_active" ∈ admin_fields) = false) by by vm_compute.
  rewrite He, Ha.
  destruct (data !! "email") as [e|] eqn:Hemail;
    destruct (data !! "is_active") as [v|] eqn:Hactive;
    rewrite ?(has_key_Some _ _ _ Hemail), ?(has_key_None _ _ Hemail),
      ?(has_key_Some _ _ _ Hactive), ?(has_key_None _ _ Hactive); done.
Qed.

Lemma update_own_run py sys now auth_header token caller data target password db :
  carries auth_header token →
  verify_token token now db = (Ok (Some caller), db) →
  role caller ≠ VStr "admin" →
  user_id caller = target →
  Forall (λ field, data !! field = None) admin_fields →
  data !! "password" = Some (VStr password) →
  bindable (get_or data "email" VNull) = true →
  bindable (get_or data "is_active" VNull) = true →
  api_update_user py sys now auth_header data target db =
    (jsonify (JMessage "User updated successfully"),
     set_users (λ _, (λ u, if bool_decide (u_id u = target)
                           then edited data (sha256_hexdigest py password) u
                           else u) <$> users db) db).
Proof.
  intros Hc Hv Hrole Hself Hplain Hp Hbe Hba.
  destruct (verify_token_account _ _ _ _ Hv) as [a Ha]. rewrite Hself in Ha.
  unfold api_update_user. apply serve_ok.
  rewrite (require_auth_accepts _ _ _ _ _ _ Hc Hv). unfold update_user.
  rewrite (bool_decide_eq_true_2 _ Hrole).
  rewrite (bool_decide_eq_false_2 (user_id caller ≠ target)) by (by intros ?).
  cbn [andb]. unfold mbind at 1, Db_bind at 1. rewrite (select_user_by_id_found _ _ _ Ha).
  assert (Hnone : filter (λ field, has_key data field = true) admin_fields = []).
  { apply filter_nil_forall. eapply Forall_impl; [exact Hplain|].
    intros field Hf. by rewrite (has_key_None _ _ Hf). }
  rewrite Hnone, user_updates_own, (has_key_Some _ _ _ Hp), (item_Some _ _ _ Hp).
  rewrite (bool_decide_eq_false_2 (role caller = VStr "admin")) by done.
  unfold get_or in Hbe, Hba.
  assert (Hbind : ∃ bound,
    bind_all
      ((match data !! "email" with Some e => [("email", e)] | None => [] end
        ++ match data !! "is_active" with Some v => [("is_active", v)] | None => [] end)
       ++ [("password_hash", VStr (sha256_hexdigest py password))]) = Ok bound
    ∧ ∀ u, assign set_user_column bound u
           = Ok (edited data (sha256_hexdigest py password) u)).
  { unfold edited.
    destruct (data !! "email") as [e|]; destruct (data !! "is_active") as [v|];
      cbn [app bind_all]; rewrite ?(sql_bind_stored _ Hbe), ?(sql_bind_stored _ Hba);
      eexists; (split; [reflexivity|]); intros u; reflexivity. }
  destruct Hbind as (bound & Hbound & Hassign).
  unfold update_users, mbind, Db_bind, lift.
  cbn [result_bind generate_password_hash]. rewrite Hbound.
  rewrite bool_decide_eq_true_2 by (by intros [_ ?]%app_nil).
  rewrite (map_rows_total _ (λ u, if bool_decide (u_id u = target)
                                  then edited data (sha256_hexdigest py password) u
                                  else u)); [done|].
  intros u. by case_bool_decide.
Qed.

(** X14.  The owner of an account who is no administrator sends a new
    password, with or without a new address and state that SQLite takes,
    and without any admin-only field: the answer is a success; the table
    of the accounts is the old one with the rows of the account edited, so
    the account is still there, its rows hold the hash of the new password
    and what SQLite stores for the address and the state sent, and the
    rows of the other accounts are the same; the other tables are
    unchanged. *)
Theorem update_own_account (py : Builtins) (sys : Sys) (now : Z)
    (auth_header : option string) (token : string) (caller : AuthUser)
    (data : gmap string Val) (target : Z) (password : string) (db : DB) :
  carries auth_header token →
  verify_token token now db = (Ok (Some caller), db) →
  role caller ≠ VStr "admin" →
  user_id caller = target →
  Forall (λ field, data !! field = None) admin_fields →
  data !! "password" = Some (VStr password) →
  bindable (get_or data "email" VNull) = true →
  bindable (get_or data "is_active" VNull) = true →
  (api_update_user py sys now auth_header data target db).1
  = jsonify (JMessage "User updated successfully")
  ∧ users (api_update_user py sys now auth_header data target db).2
    = (λ u, if bool_decide (u_id u = target)
            then edited data (sha256_hexdigest py password) u else u) <$> users db
  ∧ (∃ u', u' ∈ users (api_update_user py sys now auth_header data target db).2
           ∧ u_id u' = target)
  ∧ (∀ u', u' ∈ users (api_update_user py sys now auth_header data target db).2 →
       if bool_decide (u_id u' = target) then
         verify_password py (VStr password) (u_password_hash u') = Ok true
         ∧ (∀ e, data !! "email" = Some e → u_email u' = stored e)
         ∧ (∀ v, data !! "is_active" = Some v → u_is_active u' = stored v)
       else u' ∈ users db)
  ∧ resource_allocations (api_update_user py sys now auth_header data target db).2
    = resource_allocations db
  ∧ sessions (api_update_user py sys now auth_header data target db).2 = sessions db
  ∧ activity_log (api_update_user py sys now auth_header data target db).2
    = activity_log db.
Proof.
  intros Hc Hv Hrole Hself Hplain Hp Hbe Hba.
  rewrite (update_own_run py sys now auth_header token caller data target password db)
    by done.
  split; [done|]. split; [done|]. split; [|split; [|done]].
  { destruct (verify_token_account _ _ _ _ Hv) as [a Ha]. rewrite Hself in Ha.
    apply head_Some_elem_of, list_elem_of_filter in Ha as [Hid Ha].
    exists (edited data (sha256_hexdigest py password) a). split; [|done].
    cbn [snd users set_users]. apply list_elem_of_fmap. exists a.
    by rewrite (bool_decide_eq_true_2 _ Hid). }
  intros u' Hu'. cbn [snd users set_users] in Hu'.
  apply list_elem_of_fmap in Hu' as (u & -> & Hu).
  destruct (decide (u_id u = target)) as [Hid|Hid].
  - rewrite (bool_decide_eq_true_2 _ Hid). cbn [edited u_id].
    rewrite (bool_decide_eq_true_2 _ Hid). split; [|split].
    + cbn [edited u_password_hash].
      unfold verify_password, generate_password_hash, mbind, result_bind.
      by rewrite bool_decide_eq_true_2.
    + intros e He. simpl. by rewrite He.
    + intros v Hactive. simpl. by rewrite Hactive.
  - by rewrite !(bool_decide_eq_false_2 _ Hid).
Qed.

Lemma update_own_account_witness :
  (api_update_user Sample.py Sample.quiet 0 (bearer "b2")
     {[ "password" := VStr "new"; "email" := VStr "b@example.org" ]} 2 Sample.db).1
  = jsonify (JMessage "User updated successfully")
  ∧ users (api_update_user Sample.py Sample.quiet 0 (bearer "b2")
             {[ "password" := VStr "new"; "email" := VStr "b@example.org" ]}
             2 Sample.db).2
    = (λ u, if bool_decide (u_id u = 2)
            then edited {[ "password" := VStr "new"; "email" := VStr "b@example.org" ]}
                   (sha256_hexdigest Sample.py "new") u
            else u) <$> users Sample.db.
Proof.
  destruct (update_own_account Sample.py Sample.quiet 0 (bearer "b2") "b2"
              {| user_id := 2; username := VStr "bob"; role := VStr "user" |}
              {[ "password" := VStr "new"; "email" := VStr "b@example.org" ]}
              2 "new" Sample.db) as (Hanswer & Husers & _).
  - split; reflexivity.
  - reflexivity.
  - discriminate.
  - reflexivity.
  - apply (bool_decide_unpack _). by vm_compute.
  - reflexivity.
  - reflexivity.
  - reflexivity.
  - split; [exact Hanswer|exact Husers].
Defined.

Lemma head_filter_fmap {A} (P : A → Prop) `{!∀ x, Decision (P x)} (g : A → A)
    (l : list A) :
  (∀ x, P (g x) ↔ P x) → head (filter P (g <$> l)) = g <$> head (filter P l).
Proof.
  intros Hg. induction l as [|x l IH]; [done|].
  rewrite fmap_cons, !filter_cons.
  destruct (decide (P (g x))) as [HP|HP], (decide (P x)) as [HP'|HP']; try done.
  - destruct HP'. by apply Hg.
  - destruct HP. by apply Hg.
Qed.



(** *** An administrator sets a memory limit *)

(** The quota row of the account, after its memory limit was set. *)
Lemma select_resource_with_mem_limit target q v db :
  head (filter (λ r, r_user_id r = target) (resource_allocations db)) = Some q →
  select_resource target
    (set_resources
       (λ _, (λ r, if bool_decide (r_user_id r = target)
                   then with_mem_limit v r else r)
             <$> resource_allocations db) db)
  = (Ok (Some (with_mem_limit v q)),
     set_resources
       (λ _, (λ r, if bool_decide (r_user_id r = target)
                   then with_mem_limit v r else r)
             <$> resource_allocations db) db).
Proof.
  intros Hq. apply select_resource_found.
  cbn [resource_allocations set_resources].
  rewrite head_filter_fmap, Hq; [|intros r; by case_bool_decide].
  apply head_Some_elem_of, list_elem_of_filter in Hq as [Hid _].
  cbn [fmap option_fmap option_map]. by rewrite (bool_decide_eq_true_2 _ Hid).
Qed.

Lemma admin_mem_limit_run py sys now auth_header token caller target a q v db :
  carries auth_header token →
  verify_token token now db = (Ok (Some caller), db) →
  role caller = VStr "admin" →
  head (filter (λ u, u_id u = target) (users db)) = Some a →
  head (filter (λ r, r_user_id r = target) (resource_allocations db)) = Some q →
  bindable v = true →
  api_update_user py sys now auth_header {[ "mem_limit" := v ]} target db =
    (match (mem_mb ← quantity_to_mb (stored v); quantity_to_mb (r_disk_quota q)) with
     | Ok _ => jsonify (JMessage "User updated successfully")
     | Raise _ => answer JInternal 500
     end,
     set_resources
       (λ _, (λ r, if bool_decide (r_user_id r = target)
                   then with_mem_limit (stored v) r else r)
             <$> resource_allocations db) db).
Proof.
  intros Hc Hv Hadmin Ha Hq Hb.
  unfold api_update_user, serve. rewrite (require_auth_accepts _ _ _ _ _ _ Hc Hv).
  unfold update_user.
  rewrite (bool_decide_eq_false_2 (role caller ≠ VStr "admin")) by (by intros ?).
  cbn [andb]. unfold mbind at 1, Db_bind at 1. rewrite (select_user_by_id_found _ _ _ Ha).
  rewrite (bool_decide_eq_true_2 (role caller = VStr "admin")) by done.
  assert (Hno : user_updates (updateable_fields ++ admin_fields)
                  ({[ "mem_limit" := v ]} : gmap string Val) = []) by by vm_compute.
  assert (Hpw : has_key ({[ "mem_limit" := v ]} : gmap string Val) "password" = false)
    by by vm_compute.
  assert (Hres : resource_updates ({[ "mem_limit" := v ]} : gmap string Val)
                 = [("mem_limit", v)]) by by vm_compute.
  rewrite Hno, Hpw, Hres.
  unfold mbind at 1, Db_bind at 1, lift at 1. cbn [app].
  rewrite (bool_decide_eq_false_2 ([] ≠ [])) by (by intros ?).
  rewrite (bool_decide_eq_true_2 ([("mem_limit", v)] ≠ [])) by done.
  unfold update_resources, mbind, Db_bind, lift. cbn [bind_all mret Db_ret].
  rewrite (sql_bind_stored _ Hb). cbn [mbind result_bind mret result_ret].
  rewrite (map_rows_total _ (λ r, if bool_decide (r_user_id r = target)
                                  then with_mem_limit (stored v) r else r));
    [|intros r; by case_bool_decide].
  rewrite (select_resource_with_mem_limit target q (stored v) db Hq).
  cbn [with_mem_limit r_mem_limit r_disk_quota].
  destruct (quantity_to_mb (stored v)) as [mem_mb|]; [|done].
  by destruct (quantity_to_mb (r_disk_quota q)).
Qed.

(** X16.  An administrator sends a memory limit that the conversion to
    megabytes refuses: the value is stored in the quota row of the account
    all the same, and the request is then answered 500. *)
Theorem update_stores_refused_limit (py : Builtins) (sys : Sys) (now : Z)
    (auth_header : option string) (token : string) (caller : AuthUser)
    (target : Z) (a : UserRow) (q : ResourceRow) (v : Val) (e : PyExn) (db : DB) :
  carries auth_header token →
  verify_token token now db = (Ok (Some caller), db) →
  role caller = VStr "admin" →
  head (filter (λ u, u_id u = target) (users db)) = Some a →
  head (filter (λ r, r_user_id r = target) (resource_allocations db)) = Some q →
  bindable v = true →
  quantity_to_mb (stored v) = Raise e →
  (api_update_user py sys now auth_header {[ "mem_limit" := v ]} target db).1
  = answer JInternal 500
  ∧ select_resource target
      (api_update_user py sys now auth_header {[ "mem_limit" := v ]} target db).2
    = (Ok (Some (with_mem_limit (stored v) q)),
       (api_update_user py sys now auth_header {[ "mem_limit" := v ]} target db).2).
Proof.
  intros Hc Hv Hadmin Ha Hq Hb Hrefused.
  rewrite (admin_mem_limit_run py sys now auth_header token caller target a q v db)
    by done.
  rewrite Hrefused. split; [done|].
  cbn [snd]. by apply select_resource_with_mem_limit.
Qed.

Lemma update_stores_refused_limit_witness :
  (api_update_user Sample.py Sample.quiet 0 (bearer "a1")
     {[ "mem_limit" := VStr "2X" ]} 2 Sample.db).1
  = answer JInternal 500
  ∧ select_resource 2
      (api_update_user Sample.py Sample.quiet 0 (bearer "a1")
         {[ "mem_limit" := VStr "2X" ]} 2 Sample.db).2
    = (Ok (Some (with_mem_limit (VStr "2X") (Sample.quota 2))),
       (api_update_user Sample.py Sample.quiet 0 (bearer "a1")
          {[ "mem_limit" := VStr "2X" ]} 2 Sample.db).2).
Proof.
  apply (update_stores_refused_limit Sample.py Sample.quiet 0 (bearer "a1") "a1"
           {| user_id := 1; username := VStr "admin"; role := VStr "admin" |}
           2 Sample.bob (Sample.quota 2) (VStr "2X") ValueError Sample.db);
    try reflexivity.
  split; reflexivity.
Defined.

(** X17.  An administrator sends a memory limit that converts, for an
    account whose stored disk quota converts: the new limit is stored and
    the answer is a success on every system, also on one where the script
    that applies the limits fails. *)
Theorem update_ignores_enforcement (py : Builtins) (sys : Sys) (now : Z)
    (auth_header : option string) (token : string) (caller : AuthUser)
    (target : Z) (a : UserRow) (q : ResourceRow) (v : Val) (mem_mb disk_mb : Z)
    (db : DB) :
  carries auth_header token →
  verify_token token now db = (Ok (Some caller), db) →
  role caller = VStr "admin" →
  head (filter (λ u, u_id u = target) (users db)) = Some a →
  head (filter (λ r, r_user_id r = target) (resource_allocations db)) = Some q →
  bindable v = true →
  quantity_to_mb (stored v) = Ok mem_mb →
  quantity_to_mb (r_disk_quota q) = Ok disk_mb →
  apply_resource_limits py sys (u_username a) (r_cpu_limit q) mem_mb disk_mb
    (r_gpu_access q) = false →
  api_update_user py sys now auth_header {[ "mem_limit" := v ]} target db =
    (jsonify (JMessage "User updated successfully"),
     set_resources
       (λ _, (λ r, if bool_decide (r_user_id r = target)
                   then with_mem_limit (stored v) r else r)
             <$> resource_allocations db) db).
Proof.
  intros Hc Hv Hadmin Ha Hq Hb Hmem Hdisk _.
  rewrite (admin_mem_limit_run py sys now auth_header token caller target a q v db)
    by done.
  by rewrite Hmem, Hdisk.
Qed.

Lemma update_ignores_enforcement_witness :
  api_update_user Sample.py Sample.failing 0 (bearer "a1")
    {[ "mem_limit" := VStr "4G" ]} 2 Sample.db =
    (jsonify (JMessage "User updated successfully"),
     set_resources
       (λ _, (λ r, if bool_decide (r_user_id r = 2)
                   then with_mem_limit (VStr "4G") r else r)
             <$> resource_allocations Sample.db) Sample.db).
Proof.
  apply (update_ignores_enforcement Sample.py Sample.failing 0 (bearer "a1") "a1"
           {| user_id := 1; username := VStr "admin"; role := VStr "admin" |}
           2 Sample.bob (Sample.quota 2) (VStr "4G") 4096 5120 Sample.db);
    try reflexivity.
  split; reflexivity.
Defined.

(** ** More on quantity strings *)

Lemma int_negative d :
  is_decimal d → Z.of_nat (String.length d) ≤ Py.int_max_str_digits →
  Py.int (String "-" d) = Ok (- Py.decimal 0 d).
Proof.
  intros [Hne Hd] Hlen. pose proof (count_digits_decimal d Hd) as Hcount.
  destruct d as [|c d]; [done|].
  pose proof Hd as Hd'. simpl in Hd'. apply andb_true_iff in Hd' as [Hc _].
  unfold Py.int. cbn [Py.skip_space].
  change (Py.is_int_space "-") with false. cbn [Py.split_sign].
  change (Ascii.eqb "-" "+") with false. change (Ascii.eqb "-" "-") with true.
  cbv iota beta. rewrite Hc.
  rewrite (scan_digits_decimal 0 (String c d) Hd). cbn [Py.all_space].
  rewrite Hcount, (proj2 (Z.leb_le _ _) Hlen).
  f_equal; lia.
Qed.

(** X18.  The conversion has no lower bound: a minus sign before the
    digits of an integer, at most 4300 of them, gives a negative number of
    megabytes. *)
Theorem quantity_to_mb_negative (d : string) :
  is_decimal d →
  Z.of_nat (String.length d) ≤ Py.int_max_str_digits →
  quantity_to_mb (VStr (String "-" d +:+ "G")) = Ok (- Py.decimal 0 d * 1024)
  ∧ quantity_to_mb (VStr (String "-" d +:+ "M")) = Ok (- Py.decimal 0 d).
Proof.
  intros Hd Hlen. pose proof (int_negative d Hd Hlen) as Hint.
  split; [by apply quantity_G|by apply quantity_M].
Qed.

Lemma quantity_to_mb_negative_witness :
  quantity_to_mb (VStr "-2G") = Ok (-2048) ∧ quantity_to_mb (VStr "-512M") = Ok (-512).
Proof.
  assert (H2 : is_decimal "2") by (split; [discriminate|reflexivity]).
  assert (H512 : is_decimal "512") by (split; [discriminate|reflexivity]).
  assert (L2 : Z.of_nat (String.length "2") ≤ Py.int_max_str_digits)
    by (by vm_compute).
  assert (L512 : Z.of_nat (String.length "512") ≤ Py.int_max_str_digits)
    by (by vm_compute).
  split; [exact (proj1 (quantity_to_mb_negative "2" H2 L2))
         |exact (proj2 (quantity_to_mb_negative "512" H512 L512))].
Defined.

(** X19.  A quantity that has both units in it, in whatever order and
    place, is refused with ValueError. *)
Theorem quantity_to_mb_two_units (s : string) :
  Py.contains "G" s = true → Py.contains "M" s = true →
  quantity_to_mb (VStr s) = Raise ValueError.
Proof.
  intros HG HM. unfold quantity_to_mb. rewrite HG.
  rewrite (int_rejects (Py.replace "G" "" s) "M"); [done| |done].
  by rewrite contains_replace.
Qed.

Lemma quantity_to_mb_two_units_witness :
  quantity_to_mb (VStr "1G512M") = Raise ValueError.
Proof. apply (quantity_to_mb_two_units "1G512M"); reflexivity. Defined.

(** ** The Authorization header *)

Lemma split_first (t rest : string) :
  Py.contains " " t = false →
  ∃ ps, Py.split " " (t +:+ String " " rest) = t :: ps.
Proof.
  intros Hsp. induction t as [|c t IH].
  - cbn. by eexists.
  - cbn [Py.contains] in Hsp. change (String c t +:+ String " " rest)
      with (String c (t +:+ String " " rest)). cbn [Py.split].
    rewrite Ascii.eqb_sym. destruct (Ascii.eqb " " c); [done|].
    destruct (IH Hsp) as [ps ->]. by eexists.
Qed.

(** X20.  The token of a request is what stands between "Bearer " and the
    next space of the header: a header with more after the token carries
    the same token. *)
Theorem header_token_first_word (t rest : string) :
  Py.contains " " t = false →
  carries (bearer t) t ∧ carries (bearer (t +:+ String " " rest)) t.
Proof.
  intros Hsp. split; [by apply bearer_carries|].
  split; [done|]. unfold header_token.
  change ("Bearer " +:+ t +:+ String " " rest)
    with (String "B" (String "e" (String "a" (String "r" (String "e" (String "r"
           (String " " (t +:+ String " " rest)))))))).
  cbn [Py.split]. change (Ascii.eqb "B" " ") with false.
  change (Ascii.eqb "e" " ") with false. change (Ascii.eqb "a" " ") with false.
  change (Ascii.eqb "r" " ") with false. change (Ascii.eqb " " " ") with true.
  cbv iota. destruct (split_first t rest Hsp) as [ps ->]. done.
Qed.

Lemma header_token_first_word_witness :
  carries (bearer "a1") "a1" ∧ carries (bearer "a1 and more") "a1".
Proof. apply (header_token_first_word "a1" "and more"). reflexivity. Defined.

(** ** Accelerator usage *)

Lemma splitlines_nonempty line out : line ∈ Py.splitlines out → out ≠ "".
Proof. intros Hin ->. by apply elem_of_nil in Hin. Qed.

(** X21.  The accelerator usage of an account is the intersection of what
    [nvidia-smi] reports with the processes of the account: an entry is in
    the list exactly when both programs end with status 0, a line of
    [nvidia-smi] has the process id and the memory as its first two
    comma-separated fields, and [pgrep] lists that process id. *)
Theorem gpu_usage_intersects (sys : Sys) (name pid mem : string) :
  (pid, mem) ∈ gpu_usage_of sys (VStr name) ↔
  ∃ nvidia pgrep line p0 p1 rest,
    sys ["nvidia-smi"; "--query-compute-apps=pid,used_memory"; "--format=csv,noheader"]
    = Ok nvidia
    ∧ returncode nvidia = 0
    ∧ sys ["pgrep"; "-u"; name] = Ok pgrep
    ∧ returncode pgrep = 0
    ∧ line ∈ Py.splitlines (stdout nvidia)
    ∧ Py.split "," line = p0 :: p1 :: rest
    ∧ pid = Py.strip p0 ∧ mem = Py.strip p1
    ∧ pid ∈ (Py.strip <$> Py.splitlines (stdout pgrep)).
Proof.
  unfold gpu_usage_of, subprocess_run. cbn [cmd_args].
  unfold mbind, result_bind, mret, result_ret. cbv iota beta.
  split.
  - destruct (sys ["nvidia-smi"; _; _]) as [nvidia|] eqn:Hn;
      [|by intros ?%elem_of_nil].
    unfold has_output at 1. case_bool_decide as Hrc; [|by intros ?%elem_of_nil].
    case_bool_decide as Hout; [by intros ?%elem_of_nil|]. cbn [andb negb].
    destruct (sys ["pgrep"; "-u"; name]) as [pgrep|] eqn:Hp;
      [|by intros ?%elem_of_nil].
    unfold has_output. case_bool_decide as Hrc'; [|by intros ?%elem_of_nil].
    case_bool_decide as Hout'; [by intros ?%elem_of_nil|]. cbn [andb negb].
    intros Hin. apply list_elem_of_omap in Hin as (line & Hline & Hsome).
    destruct (Py.split "," line) as [|p0 [|p1 rest]] eqn:Hsplit; [done..|].
    cbv zeta in Hsome. case_bool_decide as Hpid; [|done]. injection Hsome as <- <-.
    by exists nvidia, pgrep, line, p0, p1, rest.
  - intros (nvidia & pgrep & line & p0 & p1 & rest
            & -> & Hrc & -> & Hrc' & Hline & Hsplit & -> & -> & Hpid).
    assert (Hout : stdout nvidia ≠ "") by by eapply splitlines_nonempty.
    assert (Hout' : stdout pgrep ≠ "").
    { apply list_elem_of_fmap in Hpid as (l & _ & Hl). by eapply splitlines_nonempty. }
    unfold has_output.
    rewrite (bool_decide_eq_true_2 _ Hrc), (bool_decide_eq_true_2 _ Hrc'),
      (bool_decide_eq_false_2 _ Hout), (bool_decide_eq_false_2 _ Hout').
    cbn [andb negb]. unfold gpu_lines. apply list_elem_of_omap.
    exists line. split; [done|]. by rewrite Hsplit, bool_decide_eq_true_2.
Qed.

(** On [gpu_site] the one process of bob that uses the accelerator is
    reported, and the process of somebody else is not. *)
Lemma gpu_usage_intersects_witness :
  gpu_usage_of gpu_site (VStr "bob") = [("4242", "100 MiB")]
  ∧ ("4242", "100 MiB") ∈ gpu_usage_of gpu_site (VStr "bob").
Proof.
  split; [by vm_compute|].
  apply (proj2 (gpu_usage_intersects gpu_site "bob" "4242" "100 MiB")).
  eexists _, _, "4242, 100 MiB", "4242", " 100 MiB", [].
  split; [reflexivity|]. split; [reflexivity|]. split; [reflexivity|].
  split; [reflexivity|]. split; [vm_compute; apply list_elem_of_here|].
  split; [by vm_compute|]. split; [by vm_compute|]. split; [by vm_compute|].
  vm_compute. apply list_elem_of_here.
Defined.

(** ** Who may read and change an account *)

(** X22.  A caller who is no administrator and names an account that is
    not the caller's own is answered 403 by the update and by the usage
    route, before the body is read or any program is run, and nothing is
    written. *)
Theorem other_account_denied (py : Builtins) (sys : Sys) (now : Z)
    (auth_header : option string) (token : string) (caller : AuthUser)
    (data : gmap string Val) (target : Z) (db : DB) :
  carries auth_header token →
  verify_token token now db = (Ok (Some caller), db) →
  role caller ≠ VStr "admin" →
  user_id caller ≠ target →
  api_update_user py sys now auth_header data target db
  = (answer (JError "Access denied") 403, db)
  ∧ api_get_resource_usage py sys now auth_header target db
    = (answer (JError "Access denied") 403, db).
Proof.
  intros Hc Hv Hrole Hother. unfold api_update_user, api_get_resource_usage.
  split; apply serve_ok; rewrite (require_auth_accepts _ _ _ _ _ _ Hc Hv).
  - unfold update_user.
    by rewrite (bool_decide_eq_true_2 _ Hrole), (bool_decide_eq_true_2 _ Hother).
  - unfold get_resource_usage.
    by rewrite (bool_decide_eq_true_2 _ Hrole), (bool_decide_eq_true_2 _ Hother).
Qed.

Lemma other_account_denied_witness :
  api_update_user Sample.py Sample.quiet 0 (bearer "b2")
    {[ "email" := VStr "x@example.org" ]} 3 Sample.db
  = (answer (JError "Access denied") 403, Sample.db)
  ∧ api_get_resource_usage Sample.py Sample.quiet 0 (bearer "b2") 3 Sample.db
    = (answer (JError "Access denied") 403, Sample.db).
Proof.
  apply (other_account_denied Sample.py Sample.quiet 0 (bearer "b2") "b2"
           {| user_id := 2; username := VStr "bob"; role := VStr "user" |}).
  - split; reflexivity.
  - reflexivity.
  - discriminate.
  - discriminate.
Defined.

(** ** The reading routes *)

Lemma require_auth_reply_accepts {A} now auth_header token caller
    (f : AuthUser → Db (Reply A)) db :
  carries auth_header token →
  verify_token token now db = (Ok (Some caller), db) →
  require_auth_reply now auth_header f db = f caller db.
Proof.
  destruct auth_header as [h|]; [|done]. intros [Hb Ht] Hv.
  unfold require_auth_reply. rewrite Hb. simpl.
  unfold mbind, Db_bind, lift. rewrite Ht, Hv. done.
Qed.

Lemma require_admin_reply_passes {A} (f : AuthUser → Db (Reply A)) caller db :
  role caller = VStr "admin" → require_admin_reply f caller db = f caller db.
Proof.
  intros H. unfold require_admin_reply. by rewrite bool_decide_eq_false_2; [|intros ?].
Qed.

Lemma serve_reply_ok {A} (view : Db (Reply A)) db r db' :
  view db = (Ok r, db') → serve_reply view db = (r, db').
Proof. unfold serve_reply. by intros ->. Qed.

Lemma require_auth_reply_db {A} now auth_header (f : AuthUser → Db (Reply A)) db :
  (∀ u, (f u db).2 = db) → (require_auth_reply now auth_header f db).2 = db.
Proof.
  intros Hf. unfold require_auth_reply. destruct auth_header as [h|]; [|done].
  destruct (negb _); [done|]. unfold mbind, Db_bind, lift.
  destruct (header_token h) as [token|]; [|done].
  pose proof (verify_token_db token now db) as Hdb.
  destruct (verify_token token now db) as [[[u|]|] db1]; simpl in Hdb; subst db1;
    [apply Hf|done|done].
Qed.

Lemma serve_reply_db {A} (view : Db (Reply A)) db :
  (view db).2 = db → (serve_reply view db).2 = db.
Proof. unfold serve_reply. by destruct (view db) as [[r|e] db1]. Qed.

(** The loop of [list_users] makes one view of every row. *)
Lemma with_resources_run us db :
  Forall (λ u, u ∈ users db) us →
  with_resources us db =
    (Ok ((λ u, user_view u (head (filter (λ r, r_user_id r = u_id u)
                                   (resource_allocations db)))) <$> us), db).
Proof.
  induction 1 as [|u us Hu _ IH]; [done|].
  cbn [with_resources]. unfold mbind, Db_bind.
  rewrite select_resource_account by by apply list_elem_of_fmap_2.
  by rewrite IH.
Qed.

Lemma list_users_run caller db :
  list_users caller db =
    (Ok (inr ((λ u, user_view u (head (filter (λ r, r_user_id r = u_id u)
                                          (resource_allocations db)))) <$> users db)),
     db).
Proof.
  unfold list_users, mbind, Db_bind.
  by rewrite with_resources_run by by apply Forall_forall.
Qed.

Lemma get_user_db target caller db : (get_user target caller db).2 = db.
Proof.
  unfold get_user. destruct (_ && _); [done|].
  unfold mbind, Db_bind.
  destruct (select_user_by_id_cases target db) as [-> |[-> _]]; [|done].
  destruct (head _); [|done].
  by destruct (select_resource_cases target db) as [-> |[-> _]].
Qed.

Lemma get_resources_db target caller db : (get_resources target caller db).2 = db.
Proof.
  unfold get_resources. destruct (_ && _); [done|].
  unfold mbind, Db_bind.
  destruct (select_user_by_id_cases target db) as [-> |[-> _]]; [|done].
  destruct (head _); [|done].
  destruct (select_resource_cases target db) as [-> |[-> _]]; [|done].
  by destruct (head _).
Qed.

(** The two views of an account that is in the table, for a caller who
    may read it. *)
Lemma get_user_found target reader a db :
  bool_decide (role reader ≠ VStr "admin") && bool_decide (user_id reader ≠ target)
  = false →
  head (filter (λ u, u_id u = target) (users db)) = Some a →
  get_user target reader db =
    (Ok (inr (user_view a (head (filter (λ r, r_user_id r = target)
                                   (resource_allocations db))))), db).
Proof.
  intros Hgate Ha. unfold get_user. rewrite Hgate. unfold mbind, Db_bind.
  rewrite (select_user_by_id_found _ _ _ Ha).
  rewrite select_resource_account; [done|].
  apply head_Some_elem_of, list_elem_of_filter in Ha as [<- Ha].
  by apply list_elem_of_fmap_2.
Qed.

Lemma get_resources_found target reader a db :
  bool_decide (role reader ≠ VStr "admin") && bool_decide (user_id reader ≠ target)
  = false →
  head (filter (λ u, u_id u = target) (users db)) = Some a →
  get_resources target reader db =
    (Ok (match head (filter (λ r, r_user_id r = target) (resource_allocations db)) with
         | Some resource => inr resource
         | None => inl (answer (JError "Resource allocations not found") 404)
         end), db).
Proof.
  intros Hgate Ha. unfold get_resources. rewrite Hgate. unfold mbind, Db_bind.
  rewrite (select_user_by_id_found _ _ _ Ha).
  rewrite select_resource_account;
    [by destruct (head (filter _ (resource_allocations db)))|].
  apply head_Some_elem_of, list_elem_of_filter in Ha as [<- Ha].
  by apply list_elem_of_fmap_2.
Qed.

Lemma get_system_resources_db py sys caller db :
  (get_system_resources py sys caller db).2 = db.
Proof.
  unfold get_system_resources, try_except, mbind, Db_bind, lift.
  destruct (system_cpu_cores sys); [|done].
  destruct (system_mem_total py sys); [|done].
  destruct (system_disk sys) as [[[? ?] ?]|]; [|done].
  by destruct (system_gpu sys).
Qed.

(** X23.  The routes that read write nothing: whatever the header, the
    caller and the programs of the host, the listing of the accounts, the
    view of an account, its quota and the report on the host leave every
    table as it was. *)
Theorem reading_routes_write_nothing (py : Builtins) (sys : Sys) (now : Z)
    (auth_header : option string) (target : Z) (db : DB) :
  (api_list_users now auth_header db).2 = db
  ∧ (api_get_user now auth_header target db).2 = db
  ∧ (api_get_resources now auth_header target db).2 = db
  ∧ (api_get_system_resources py sys now auth_header db).2 = db.
Proof.
  unfold api_list_users, api_get_user, api_get_resources, api_get_system_resources.
  repeat split; apply serve_reply_db, require_auth_reply_db; intros u.
  - unfold require_admin_reply. case_bool_decide; [done|]. by rewrite list_users_run.
  - apply get_user_db.
  - apply get_resources_db.
  - unfold require_admin_reply. case_bool_decide; [done|].
    apply get_system_resources_db.
Qed.

(** X24.  The listing and the view of one account agree.  An administrator
    is shown one entry for every row of the accounts, in table order;
    whatever the view of an account shows is an entry of the listing, and
    when row ids identify accounts every entry of the listing is what the
    view of its account shows. *)
Theorem list_users_agrees_with_get_user (now : Z) (auth_header : option string)
    (token : string) (caller : AuthUser) (db : DB) :
  carries auth_header token →
  verify_token token now db = (Ok (Some caller), db) →
  role caller = VStr "admin" →
  ∃ views,
    api_list_users now auth_header db = (inr views, db)
    ∧ v_id <$> views = u_id <$> users db
    ∧ (∀ target view,
         api_get_user now auth_header target db = (inr view, db) → view ∈ views)
    ∧ (ids_unique db →
       ∀ view, view ∈ views →
         api_get_user now auth_header (v_id view) db = (inr view, db)).
Proof.
  intros Hc Hv Hadmin. eexists. split; [|split; [|split]].
  - unfold api_list_users. apply serve_reply_ok.
    rewrite (require_auth_reply_accepts _ _ _ _ _ _ Hc Hv).
    rewrite require_admin_reply_passes by done. apply list_users_run.
  - rewrite <- list_fmap_compose. by apply list_fmap_ext.
  - intros target view. unfold api_get_user, serve_reply.
    rewrite (require_auth_reply_accepts _ _ _ _ _ _ Hc Hv).
    assert (Hgate : bool_decide (role caller ≠ VStr "admin")
                    && bool_decide (user_id caller ≠ target) = false)
      by by rewrite (bool_decide_eq_false_2 (role caller ≠ _)) by (by intros ?).
    destruct (head (filter (λ a, u_id a = target) (users db))) as [u|] eqn:Hu.
    + rewrite (get_user_found _ _ _ _ Hgate Hu). intros [= <-].
      apply head_Some_elem_of, list_elem_of_filter in Hu as [<- Hu].
      apply list_elem_of_fmap. by exists u.
    + unfold get_user. rewrite Hgate. unfold mbind, Db_bind.
      destruct (select_user_by_id_cases target db) as [-> |[-> _]]; [|done].
      by rewrite Hu.
  - intros Hids view Hview. apply list_elem_of_fmap in Hview as (u & -> & Hu).
    unfold api_get_user. apply serve_reply_ok.
    rewrite (require_auth_reply_accepts _ _ _ _ _ _ Hc Hv).
    cbn [user_view v_id].
    assert (Hgate : bool_decide (role caller ≠ VStr "admin")
                    && bool_decide (user_id caller ≠ u_id u) = false)
      by by rewrite (bool_decide_eq_false_2 (role caller ≠ _)) by (by intros ?).
    assert (Hhead : head (filter (λ a, u_id a = u_id u) (users db)) = Some u).
    { unfold ids_unique in Hids. clear -Hids Hu.
      induction (users db) as [|a us IH]; [by apply elem_of_nil in Hu|].
      rewrite fmap_cons in Hids. apply NoDup_cons in Hids as [Hnew Hids].
      rewrite filter_cons. apply elem_of_cons in Hu as [->|Hu].
      - by rewrite decide_True.
      - rewrite decide_False; [by apply IH|].
        intros Heq. apply Hnew. rewrite Heq. by apply list_elem_of_fmap_2. }
    by rewrite (get_user_found _ _ _ _ Hgate Hhead).
Qed.

Lemma list_users_agrees_with_get_user_witness :
  ∃ views,
    api_list_users 0 (bearer "a1") Sample.db = (inr views, Sample.db)
    ∧ v_id <$> views = [1; 2; 3].
Proof.
  destruct (list_users_agrees_with_get_user 0 (bearer "a1") "a1"
              {| user_id := 1; username := VStr "admin"; role := VStr "admin" |}
              Sample.db) as (views & Hrun & Hids & _).
  - split; reflexivity.
  - reflexivity.
  - reflexivity.
  - exists views. split; [exact Hrun|exact Hids].
Defined.

(** X25.  What was created can be read.  After a creation that succeeded,
    the administrators and the new account itself are shown the account
    with the fields of the request and its quota, and the quota route
    answers with the same quota. *)
Theorem create_then_read (py : Builtins) (sys : Sys) (new_id : Z)
    (data : gmap string Val) (caller reader : AuthUser) (username password : Val)
    (h : string) (db : DB) :
  data !! "username" = Some username →
  data !! "password" = Some password →
  stored username ≠ VNull →
  bindable username = true →
  Forall (λ v, bindable v = true) (creation_fields data) →
  generate_password_hash py password = Ok h →
  select_user_by_username username db = (Ok None, db) →
  provisioning_succeeds py sys data username password →
  Forall (λ a, u_id a ≠ new_id) (users db) →
  Forall (λ q, r_user_id q ≠ new_id) (resource_allocations db) →
  role reader = VStr "admin" ∨ user_id reader = new_id →
  ∃ db',
    create_user py sys new_id data caller db =
      (Ok (answer (JCreated "User created successfully" new_id) 201), db')
    ∧ get_user new_id reader db' =
        (Ok (inr (user_view (new_account new_id username h data)
                    (Some (new_quota new_id data)))), db')
    ∧ get_resources new_id reader db' = (Ok (inr (new_quota new_id data)), db').
Proof.
  intros Hu Hp Hnull Hbu Hfields Hhash Hfree Hok Hfresh Hquota Hmay.
  exists (with_account new_id username h data db).
  split; [by apply (create_user_run py sys new_id data caller username password h db)|].
  assert (Hgate : bool_decide (role reader ≠ VStr "admin")
                  && bool_decide (user_id reader ≠ new_id) = false).
  { destruct Hmay as [Hr|Hi].
    - by rewrite (bool_decide_eq_false_2 (role reader ≠ _)) by (by intros ?).
    - rewrite (bool_decide_eq_false_2 (user_id reader ≠ _)) by (by intros ?).
      apply andb_false_r. }
  assert (Haccount : head (filter (λ a, u_id a = new_id)
                             (users (with_account new_id username h data db)))
                     = Some (new_account new_id username h data)).
  { cbn [with_account set_resources set_users users].
    rewrite filter_app, filter_cons. cbn [new_account u_id].
    rewrite decide_True by done.
    by rewrite (proj2 (filter_nil_forall (λ a, u_id a = new_id) _) Hfresh). }
  assert (Hrow : head (filter (λ q, r_user_id q = new_id)
                         (resource_allocations (with_account new_id username h data db)))
                 = Some (new_quota new_id data)).
  { cbn [with_account set_resources set_users resource_allocations].
    rewrite filter_app, filter_cons. cbn [new_quota r_user_id].
    rewrite decide_True by done.
    by rewrite (proj2 (filter_nil_forall (λ q, r_user_id q = new_id) _) Hquota). }
  split.
  - rewrite (get_user_found _ _ _ _ Hgate Haccount). by rewrite Hrow.
  - rewrite (get_resources_found _ _ _ _ Hgate Haccount). by rewrite Hrow.
Qed.

Lemma create_then_read_witness :
  ∃ db',
    create_user Sample.py Sample.quiet 4
      {[ "username" := VStr "dave"; "password" := VStr "pw"; "mem_limit" := VStr "8G" ]}
      {| user_id := 1; username := VStr "admin"; role := VStr "admin" |} Sample.db
    = (Ok (answer (JCreated "User created successfully" 4) 201), db')
    ∧ get_resources 4 {| user_id := 4; username := VStr "dave"; role := VStr "user" |} db'
      = (Ok (inr {| r_user_id := 4; r_cpu_limit := VFloat float_1_0;
                    r_mem_limit := VStr "8G"; r_disk_quota := VStr "5G";
                    r_gpu_access := VInt 0 |}), db').
Proof.
  destruct (create_then_read Sample.py Sample.quiet 4
              {[ "username" := VStr "dave"; "password" := VStr "pw";
                 "mem_limit" := VStr "8G" ]}
              {| user_id := 1; username := VStr "admin"; role := VStr "admin" |}
              {| user_id := 4; username := VStr "dave"; role := VStr "user" |}
              (VStr "dave") (VStr "pw") "sha256:pw" Sample.db)
    as (db' & Hrun & _ & Hquota).
  - reflexivity.
  - reflexivity.
  - discriminate.
  - reflexivity.
  - apply (bool_decide_unpack _). by vm_compute.
  - reflexivity.
  - reflexivity.
  - unfold provisioning_succeeds. by vm_compute.
  - apply (bool_decide_unpack _). by vm_compute.
  - apply (bool_decide_unpack _). by vm_compute.
  - by right.
  - exists db'. split; [exact Hrun|exact Hquota].
Defined.

(** X26.  Who may read.  A caller who is no administrator is answered 403
    by the listing and by the report on the host, and 403 by the view and
    the quota of an account that is not the caller's own. *)
Theorem reading_denied (py : Builtins) (sys : Sys) (now : Z)
    (auth_header : option string) (token : string) (caller : AuthUser)
    (target : Z) (db : DB) :
  carries auth_header token →
  verify_token token now db = (Ok (Some caller), db) →
  role caller ≠ VStr "admin" →
  api_list_users now auth_header db
  = (inl (answer (JError "Admin privileges required") 403), db)
  ∧ api_get_system_resources py sys now auth_header db
    = (inl (answer (JError "Admin privileges required") 403), db)
  ∧ (user_id caller ≠ target →
     api_get_user now auth_header target db
     = (inl (answer (JError "Access denied") 403), db)
     ∧ api_get_resources now auth_header target db
       = (inl (answer (JError "Access denied") 403), db)).
Proof.
  intros Hc Hv Hrole.
  unfold api_list_users, api_get_system_resources, api_get_user, api_get_resources.
  split; [|split; [|intros Hother; split]];
    apply serve_reply_ok; rewrite (require_auth_reply_accepts _ _ _ _ _ _ Hc Hv).
  - unfold require_admin_reply. by rewrite bool_decide_eq_true_2.
  - unfold require_admin_reply. by rewrite bool_decide_eq_true_2.
  - unfold get_user.
    by rewrite (bool_decide_eq_true_2 _ Hrole), (bool_decide_eq_true_2 _ Hother).
  - unfold get_resources.
    by rewrite (bool_decide_eq_true_2 _ Hrole), (bool_decide_eq_true_2 _ Hother).
Qed.

Lemma reading_denied_witness :
  api_list_users 0 (bearer "b2") Sample.db
  = (inl (answer (JError "Admin privileges required") 403), Sample.db).
Proof.
  apply (reading_denied Sample.py Sample.quiet 0 (bearer "b2") "b2"
           {| user_id := 2; username := VStr "bob"; role := VStr "user" |} 3).
  - split; reflexivity.
  - reflexivity.
  - discriminate.
Defined.




(** ** The report on the host *)



(** X29.  The other readings are not optional.  When the line of
    [/proc/meminfo] has fewer than two words, the report fails as a whole:
    the answer is 500 with the index error as details, whatever the disk
    and the accelerator would report. *)
Theorem system_resources_short_meminfo (py : Builtins) (sys : Sys) (now : Z)
    (auth_header : option string) (token : string) (caller : AuthUser)
    (cores : Z) (mem_result : Completed) (db : DB) :
  carries auth_header token →
  verify_token token now db = (Ok (Some caller), db) →
  role caller = VStr "admin" →
  system_cpu_cores sys = Ok cores →
  subprocess_run sys [VStr "grep"; VStr "MemTotal"; VStr "/proc/meminfo"]
  = Ok mem_result →
  returncode mem_result = 0 →
  stdout mem_result ≠ "" →
  (List.length (Py.split_ws (stdout mem_result)) < 2)%nat →
  api_get_system_resources py sys now auth_header db
  = (inl (answer (JErrorDetails "Failed to get system resources" (DExn IndexError)) 500),
     db).
Proof.
  intros Hc Hv Hadmin Hcpu Hrun Hrc Hout Hshort.
  unfold api_get_system_resources. apply serve_reply_ok.
  rewrite (require_auth_reply_accepts _ _ _ _ _ _ Hc Hv).
  rewrite require_admin_reply_passes by done.
  unfold get_system_resources, try_except, mbind, Db_bind, lift.
  rewrite Hcpu.
  assert (Hmem : system_mem_total py sys = Raise IndexError).
  { unfold system_mem_total. rewrite Hrun. unfold mbind, result_bind. cbv iota beta.
    unfold has_output. rewrite (bool_decide_eq_true_2 _ Hrc), (bool_decide_eq_false_2 _ Hout).
    cbn [andb negb].
    destruct (Py.split_ws (stdout mem_result)) as [|w1 [|w2 ws]]; [done|done|].
    simpl in Hshort. lia. }
  by rewrite Hmem.
Qed.

Lemma system_resources_short_meminfo_witness :
  api_get_system_resources Sample.py short_meminfo 0 (bearer "a1") Sample.db
  = (inl (answer (JErrorDetails "Failed to get system resources" (DExn IndexError)) 500),
     Sample.db).
Proof.
  apply (system_resources_short_meminfo Sample.py short_meminfo 0 (bearer "a1") "a1"
           {| user_id := 1; username := VStr "admin"; role := VStr "admin" |} 8
           {| returncode := 0; stdout := "MemTotal:" +:+ String "010" ""; stderr := "" |}).
  - split; reflexivity.
  - reflexivity.
  - reflexivity.
  - by vm_compute.
  - reflexivity.
  - reflexivity.
  - discriminate.
  - vm_compute. lia.
Defined.

(** ** What every state of the service satisfies *)

Lemma distinct_names_app names x :
  distinct_names names → Forall (λ a, sql_eq a x = false) names →
  distinct_names (names ++ [x]).
Proof.
  induction names as [|a names IH]; cbn [distinct_names app].
  - intros _ _. by split.
  - intros [Ha Hnames] Hx. apply Forall_cons in Hx as [Hax Hx].
    split; [|by apply IH]. apply Forall_app. split; [done|]. by apply Forall_singleton.
Qed.

Lemma distinct_names_filter (P : UserRow → Prop) `{!∀ u, Decision (P u)} us :
  distinct_names (u_username <$> us) → distinct_names (u_username <$> filter P us).
Proof.
  induction us as [|a us IH]; [done|].
  rewrite fmap_cons. cbn [distinct_names]. intros [Ha Hus].
  rewrite filter_cons. destruct (decide (P a)); [|by apply IH].
  rewrite fmap_cons. cbn [distinct_names]. split; [|by apply IH].
  rewrite Forall_fmap in *. rewrite Forall_forall in *.
  intros b Hb. apply list_elem_of_filter in Hb as [_ Hb]. by apply Ha.
Qed.

Lemma accounts_fit_same db db' :
  u_id <$> users db' = u_id <$> users db →
  u_username <$> users db' = u_username <$> users db →
  r_user_id <$> resource_allocations db' = r_user_id <$> resource_allocations db →
  accounts_fit db → accounts_fit db'.
Proof.
  intros Hids Hnames Howners (Hi & Hn & Ho & Hq). unfold accounts_fit.
  rewrite Hids, Hnames, Howners. repeat split; try done.
  assert (Hall : Forall (λ o, o ∈ u_id <$> users db)
                   (r_user_id <$> resource_allocations db')).
  { rewrite Howners. by apply Forall_fmap. }
  by apply Forall_fmap in Hall.
Qed.

Lemma accounts_fit_without target db :
  accounts_fit db →
  accounts_fit (set_users (filter (λ u, u_id u ≠ target))
                  (set_log (filter (λ l, l_user_id l ≠ target))
                     (set_sessions (filter (λ s, s_user_id s ≠ target))
                        (set_resources (filter (λ r, r_user_id r ≠ target)) db)))).
Proof.
  intros (Hi & Hn & Ho & Hq). unfold accounts_fit. simpl.
  split; [|split; [|split]].
  - apply (sublist_NoDup _ _ Hi), fmap_sublist, sublist_filter.
  - by apply distinct_names_filter.
  - apply (sublist_NoDup _ _ Ho), fmap_sublist, sublist_filter.
  - rewrite Forall_forall in *. intros q Hin.
    apply list_elem_of_filter in Hin as [Hne Hin].
    specialize (Hq q Hin). apply list_elem_of_fmap in Hq as (a & Hid & Ha).
    apply list_elem_of_fmap. exists a. split; [done|].
    apply list_elem_of_filter. split; [congruence|done].
Qed.

Lemma created_keeps new_id db db' :
  Forall (λ a, u_id a ≠ new_id) (users db) →
  accounts_fit db → created new_id db db' → accounts_fit db'.
Proof.
  intros Hfresh Hfit Hmade. pose proof Hfit as (Hi & Hn & Ho & Hq).
  assert (Hnew : new_id ∉ u_id <$> users db).
  { intros Hin. apply list_elem_of_fmap in Hin as (a & Hid & Ha).
    rewrite Forall_forall in Hfresh. by apply (Hfresh a Ha). }
  assert (Hfree : Forall (λ q, r_user_id q ≠ new_id) (resource_allocations db)).
  { rewrite Forall_forall in *. intros q Hin Hid. apply Hnew. rewrite <- Hid. by apply Hq. }
  destruct Hmade as [->|(row & Hrow & Hname & Hmade)]; [done|].
  assert (Hgrown : ∀ rs,
            NoDup (r_user_id <$> rs) →
            Forall (λ q, r_user_id q ∈ u_id <$> (users db ++ [row])) rs →
            accounts_fit {| users := users db ++ [row]; sessions := sessions db;
                            resource_allocations := rs;
                            activity_log := activity_log db |}).
  { intros rs Hrs Hin. unfold accounts_fit. cbn [users resource_allocations].
    split; [|split; [|by split]].
    - rewrite fmap_app. apply NoDup_app. split; [done|]. split.
      + intros i Hi' Hrow'. apply list_elem_of_singleton in Hrow'. subst i.
        by rewrite Hrow in Hi'.
      + apply NoDup_singleton.
    - rewrite fmap_app. apply distinct_names_app; [done|]. by rewrite Forall_fmap. }
  assert (Hold : Forall (λ q, r_user_id q ∈ u_id <$> (users db ++ [row]))
                   (resource_allocations db)).
  { eapply Forall_impl; [exact Hq|]. intros q Hin. rewrite fmap_app, elem_of_app.
    by left. }
  destruct Hmade as [->|(q & Hq' & [->| ->])].
  - by apply Hgrown.
  - apply Hgrown.
    + rewrite fmap_app. apply NoDup_app. split; [done|]. split.
      * intros i Hi' Hrow'. apply list_elem_of_singleton in Hrow'. subst i.
        apply list_elem_of_fmap in Hi' as (q0 & Hid & Hq0).
        rewrite Forall_forall in Hfree. apply (Hfree q0 Hq0). congruence.
      * apply NoDup_singleton.
    + apply Forall_app. split; [done|]. apply Forall_singleton.
      rewrite fmap_app, elem_of_app. right. rewrite Hq', <- Hrow.
      apply list_elem_of_singleton. done.
  - apply (accounts_fit_same db); [| | |done]; simpl.
    + rewrite filter_app, (filter_all _ _ Hfresh), filter_cons, decide_False
        by (by intros ?). by rewrite filter_nil, app_nil_r.
    + rewrite filter_app, (filter_all _ _ Hfresh), filter_cons, decide_False
        by (by intros ?). by rewrite filter_nil, app_nil_r.
    + rewrite filter_app, (filter_all _ _ Hfree), filter_cons, decide_False
        by (by intros ?). by rewrite filter_nil, app_nil_r.
Qed.

(** Where [create_user] leaves the database. *)
Lemma create_user_created py sys new_id data caller db :
  created new_id db (create_user py sys new_id data caller db).2.
Proof.
  unfold create_user.
  destruct (negb (has_key data "username")); [by left|].
  destruct (negb (has_key data "password")); [by left|].
  unfold mbind at 1 2 3, Db_bind at 1 2 3, lift at 1 2.
  destruct (item data "username") as [username|]; [|by left].
  destruct (item data "password") as [password|]; [|by left].
  unfold select_user_by_username at 1.
  destruct (sql_bind username) as [p|] eqn:Hbind; [|by left].
  destruct (head _) as [existing|] eqn:Hnone;
    [rewrite bool_decide_eq_true_2 by (by eexists); by left|].
  rewrite bool_decide_eq_false_2 by (by intros [? ?]).
  apply head_filter_None in Hnone.
  unfold mbind at 1, Db_bind at 1, lift at 1.
  destruct (generate_password_hash py password) as [h|]; [|by left].
  unfold try_except, insert_user, mbind, Db_bind, lift, execute.
  rewrite Hbind. simpl (sql_bind (VStr h)). cbv iota beta.
  destruct (sql_bind (get_or data "email" (VStr ""))) as [email|]; [|by left].
  destruct (sql_bind (get_or data "role" (VStr "user"))) as [role|]; [|by left].
  destruct (sql_bind (get_or data "is_active" (VBool true))) as [is_active|];
    [|by left].
  unfold select_user_by_username. rewrite Hbind.
  cbn [users set_users]. rewrite filter_app, Hnone, filter_cons. cbn [u_username].
  right.
  exists {| u_id := new_id; u_username := p; u_password_hash := VStr h;
            u_email := email; u_role := role; u_is_active := is_active;
            u_last_login := VNull |}.
  split; [done|]. split.
  { apply filter_nil_forall in Hnone. eapply Forall_impl; [exact Hnone|].
    intros a Ha. cbn [u_username]. by apply not_true_is_false. }
  destruct (decide (sql_eq p p = true)); [|by left].
  cbn [app head u_id filter list_filter].
  unfold insert_resource, mbind, Db_bind, lift, execute.
  destruct (sql_bind (get_or data "cpu_limit" _)) as [cpu|]; [|by left].
  destruct (sql_bind (get_or data "mem_limit" _)) as [mem|]; [|by left].
  destruct (sql_bind (get_or data "disk_quota" _)) as [disk|]; [|by left].
  destruct (sql_bind (get_or data "gpu_access" _)) as [gpu|]; [|by left].
  right.
  exists {| r_user_id := new_id; r_cpu_limit := cpu; r_mem_limit := mem;
            r_disk_quota := disk; r_gpu_access := gpu |}.
  split; [done|].
  match goal with
  | |- context [create_system_user py sys new_id ?u ?pw ?e ?r ?c ?m ?d ?g ?db2] =>
      pose proof (create_system_user_db py sys new_id u pw e r c m d g db2) as Hsys;
      destruct (create_system_user py sys new_id u pw e r c m d g db2)
        as [[early|err] db3]
  end; simpl in Hsys.
  - destruct early as [r|]; simpl; destruct Hsys as [-> | ->]; first [by left|by right].
  - simpl. destruct Hsys as [-> | ->]; first [by left|by right].
Qed.

Lemma login_fits py token now now' remote_addr data db :
  accounts_fit db → accounts_fit (api_login py token now now' remote_addr data db).2.
Proof.
  intros Hfit.
  destruct (login_outcome py token now now' remote_addr data db)
    as [(r & _ & ->)|(r & a & ip & _ & _ & ->)]; [done|].
  apply (accounts_fit_same db); [| | |done].
  - apply logged_in_ids.
  - unfold logged_in. simpl. rewrite <- list_fmap_compose.
    apply list_fmap_ext. intros i u _. simpl. by case_bool_decide.
  - done.
Qed.

Lemma logout_fits now auth_header db :
  accounts_fit db → accounts_fit (api_logout now auth_header db).2.
Proof.
  intros Hfit. unfold api_logout.
  apply (steps_serve (λ db db', accounts_fit db → accounts_fit db')); [|done].
  apply steps_require_auth.
  { split; [by intros ?|]. intros d1 d2 d3 H12 H23 H1. auto. }
  intros caller d Hd. unfold logout, mbind, Db_bind, lift.
  by destruct (match auth_header with Some h => header_token h | None => _ end).
Qed.

Lemma update_fits py sys now auth_header data target db :
  accounts_fit db →
  accounts_fit (api_update_user py sys now auth_header data target db).2.
Proof.
  assert (Hframe : update_frame target db
                     (api_update_user py sys now auth_header data target db).2).
  { unfold api_update_user.
    apply (steps_serve (update_frame target)), steps_require_auth; [apply _|].
    intros caller. apply update_user_steps; [apply _| |].
    - intros updates. apply frame_update_users.
    - intros updates. apply frame_update_resources. }
  destruct Hframe as (Hid & _ & Howners & _).
  apply accounts_fit_same; [| |done].
  - assert (H : (λ i, i.1.1.1) <$> (identity <$> users
                  (api_update_user py sys now auth_header data target db).2)
                = (λ i, i.1.1.1) <$> (identity <$> users db)) by by rewrite Hid.
    by rewrite <- !list_fmap_compose in H.
  - assert (H : (λ i, i.1.1.2) <$> (identity <$> users
                  (api_update_user py sys now auth_header data target db).2)
                = (λ i, i.1.1.2) <$> (identity <$> users db)) by by rewrite Hid.
    by rewrite <- !list_fmap_compose in H.
Qed.

Lemma delete_fits sys now auth_header target db :
  accounts_fit db → accounts_fit (api_delete_user sys now auth_header target db).2.
Proof.
  intros Hfit. unfold api_delete_user.
  apply (steps_serve (λ db db', accounts_fit db → accounts_fit db')); [|done].
  assert (Hpre : PreOrder (λ db db', accounts_fit db → accounts_fit db')).
  { split; [by intros ?|]. intros d1 d2 d3 H12 H23 H1. auto. }
  apply steps_require_auth; [done|]. intros caller.
  apply steps_require_admin; [done|]. clear caller. intros caller d Hd.
  destruct (delete_user_db sys target caller d) as [-> | ->]; [done|].
  by apply accounts_fit_without.
Qed.

Lemma create_fits py sys now auth_header new_id data db :
  Forall (λ a, u_id a ≠ new_id) (users db) →
  accounts_fit db →
  accounts_fit (api_create_user py sys now auth_header new_id data db).2.
Proof.
  intros Hfresh Hfit. unfold api_create_user, serve.
  destruct (require_auth_cases now auth_header
              (require_admin (create_user py sys new_id data)) db)
    as [(r & _ & ->)|[(e & ->)|(token & caller & _ & _ & ->)]]; [done..|].
  unfold require_admin. case_bool_decide; [done|].
  pose proof (create_user_created py sys new_id data caller db) as Hmade.
  destruct (create_user py sys new_id data caller db) as [[r|e] db'];
    by apply (created_keeps new_id db).
Qed.

(** X30.  The tables stay well formed.  From a state in which row ids and
    names identify accounts, an account has at most one quota row, and
    every quota row and every session belongs to an account, the service
    reaches only such states, whatever requests it is sent and whatever the
    programs of the host do. *)
Theorem reachable_well_formed (py : Builtins) (db0 db : DB) :
  well_formed db0 → reachable py db0 db → well_formed db.
Proof.
  intros [Hfit Hsessions] Hreach.
  split; [|by apply (reachable_sessions_have_accounts py db0)].
  induction Hreach as [|db sys q _ IH Hfresh]; [done|].
  destruct q; simpl in *.
  - by apply login_fits.
  - by apply logout_fits.
  - by apply create_fits.
  - by apply update_fits.
  - by apply delete_fits.
  - by rewrite usage_keeps.
Qed.

Lemma sample_well_formed : well_formed Sample.db.
Proof.
  split; [|apply sample_sessions_have_accounts].
  split; [apply (bool_decide_unpack _); by vm_compute|].
  split; [cbn; repeat split; repeat constructor|].
  split; apply (bool_decide_unpack _); by vm_compute.
Defined.

Lemma reachable_well_formed_witness :
  well_formed
    (handle Sample.py Sample.quiet
       (CreateUser 0 (bearer "a1") 4
          {[ "username" := VStr "dave"; "password" := VStr "pw" ]})
       (handle Sample.py Sample.failing (DeleteUser 0 (bearer "a1") 2) Sample.db).2).2.
Proof.
  apply (reachable_well_formed Sample.py Sample.db); [exact sample_well_formed|].
  apply reachable_step; [apply reachable_step; [apply reachable_start|exact I]|].
  apply (bool_decide_unpack _). by vm_compute.
Defined.
